(** * The command contract of the four Mistral example commands

    A shallow embedding of
      examples-cli/ai-mistral-text/command.py        (ai_mistral_text)
      examples-cli/ai-mistral-embeddings/command.py  (ai_mistral_embeddings)
      examples-cli/mistral-moderations/command.py    (mistral_moderations)
      examples-cli/ai-mistral-image-gen/command.py   (ai_mistral_image_gen)

    Every command takes a list of arguments and the context dictionary,
    talks to the provider, writes into the context and returns a status.
    The embedding is a small state and exception monad: the state is
    the context together with the log of outbound calls, a computation
    ends normally, by a Python [return], or by a raised exception.  The
    context is the dictionary that the entry point loads with
    [json.load]; the one object that a command changes through a second
    name, the list under MISTRAL_MESSAGES, is changed where the context
    holds it.  The provider, the transport and the file system are
    parameters.  The scripts at the end of the four files, which load
    the JSON file and print what the command left, are embedded as
    functions from the command line to a process. *)

From Stdlib Require Import ZArith Ascii String Floats.PrimFloat.
From stdpp Require Import gmap strings list fin_maps pretty.

Set Warnings "-register-all,-inexact-float,-non-boolean-if".
Local Open Scope string_scope.
Local Open Scope list_scope.

(** ** Python values

    The values that [json.load] and [response.json()] build: a tree.
    A Python [float] is a binary64 number, as [PrimFloat.float] is. *)

Inductive value :=
| VNone
| VBool (b : bool)
| VInt (z : Z)
| VFloat (f : float)
| VStr (s : string)
| VList (xs : list value)
| VDict (kv : list (string * value)).

(** [bool(v)]: what [if v:] and [not v] look at. *)
Definition truthy (v : value) : bool :=
  match v with
  | VNone => false
  | VBool b => b
  | VInt z => negb (z =? 0)%Z
  | VFloat f => negb (PrimFloat.eqb f 0%float)
  | VStr s => match s with EmptyString => false | String _ _ => true end
  | VList xs => match xs with [] => false | _ :: _ => true end
  | VDict kv => match kv with [] => false | _ :: _ => true end
  end.

(** [type(v).__name__], as interpreter messages print it. *)
Definition type_name (v : value) : string :=
  match v with
  | VNone => "NoneType"
  | VBool _ => "bool"
  | VInt _ => "int"
  | VFloat _ => "float"
  | VStr _ => "str"
  | VList _ => "list"
  | VDict _ => "dict"
  end.

(** [isinstance(v, str)] and [v is None]. *)
Definition isinstance_str (v : value) : bool :=
  match v with VStr _ => true | _ => false end.

Definition is_None (v : value) : bool :=
  match v with VNone => true | _ => false end.

(** Lookup in a dictionary object, first binding of the key. *)
Fixpoint assoc (k : string) (kv : list (string * value)) : option value :=
  match kv with
  | [] => None
  | (k', v) :: rest => if String.eqb k k' then Some v else assoc k rest
  end.

(** ** Exceptions *)

Inductive exn_class :=
| AttributeError
| IndexError
| KeyError
| TypeError
| OSError
| RequestException          (* requests.RequestException *)
| JSONDecodeError           (* requests.exceptions.JSONDecodeError, a RequestException *)
| LibraryError (name : string).  (* any other class, raised by a library; no RequestException *)

Record exn := Exn { exn_cls : exn_class; exn_msg : string }.

(** [except requests.RequestException] *)
Definition is_RequestException (e : exn) : bool :=
  match exn_cls e with
  | RequestException | JSONDecodeError => true
  | _ => false
  end.

(** [except Exception] *)
Definition is_Exception (e : exn) : bool := true.

(** ** The outside world *)

Record request := Request {
  req_endpoint : string;
  req_bearer : value;          (* headers["Authorization"] = f"Bearer {api_key}" *)
  req_content_type : string;   (* headers["Content-Type"] *)
  req_payload : value          (* data = json.dumps(payload) *)
}.

Record response := Response {
  status_code : Z;
  text : string;
  json : string + value        (* response.json(): raises with a message, or decodes *)
}.

(** What the image agent answers.  [response.outputs] is a list of
    entries; a message entry has a [content] that is a string or a list
    of chunks, the other entry classes have no [content]. *)
Inductive chunk :=
| ToolFileChunk (file_id : string)
| OtherChunk.

Inductive entry :=
| MessageText (content : string)
| MessageChunks (content : list chunk)
| OtherEntry (class_name : string).

Inductive event :=
| EPost (req : request)
| EMakedirs (dir : string)
| EAgentCreate (api_key model : value)
| ESleep (seconds : Z)
| EConversationStart (agent_id : string) (inputs : value)
| EDownload (file_id : string)
| EWriteFile (path : string) (bytes : string).

(** The collaborators.  A command of the three that use [requests]
    posts at most once.  [requests.post] returns a response or raises:
    a failure of the transport is a [RequestException], but the call
    raises other exceptions too (a [ValueError] of [http.client] for a
    key that ends in a line break, a [UnicodeEncodeError] for a key
    outside Latin-1), so the exception is any exception.  [json.dumps]
    cannot fail on a payload of the values above.  The collaborators of
    the image command may answer differently from call to call, so they
    see the calls made so far.  [Mistral(api_key=...)] calls nobody; it
    validates the key, and for a key that is no string it raises a
    [ValidationError] of pydantic, with the text [client_refusal]. *)
Record world := World {
  requests_post : request -> exn + response;     (* inl: the exception raised *)
  os_makedirs : list event -> string -> option exn;
  agents_create : list event -> value -> value -> exn + string;
  conversations_start : list event -> string -> value -> exn + list entry;
  files_download : list event -> string -> exn + string;
  write_file : list event -> string -> string -> option exn;
  uuid4 : string;
  client_refusal : value -> string               (* str(e) of the ValidationError *)
}.

(** ** The monad *)

Record state := State {
  context : gmap string value;
  calls : list event
}.

Inductive result (A : Type) :=
| Ok (a : A)          (* the statement ended, control goes on *)
| Return (status : Z)  (* a Python [return] was executed *)
| Raise (e : exn)     (* an exception is propagating *)
| Unmodelled.         (* [set_context] is not a string *)
Arguments Ok {A} a.
Arguments Return {A} status.
Arguments Raise {A} e.
Arguments Unmodelled {A}.

Definition M (A : Type) : Type := state -> result A * state.

Definition ret {A} (a : A) : M A := fun s => (Ok a, s).
Definition return_ {A} (z : Z) : M A := fun s => (Return z, s).
Definition raise {A} (e : exn) : M A := fun s => (Raise e, s).

Definition bind {A B} (m : M A) (k : A -> M B) : M B :=
  fun s =>
    match m s with
    | (Ok a, s') => k a s'
    | (Return z, s') => (Return z, s')
    | (Raise e, s') => (Raise e, s')
    | (Unmodelled, s') => (Unmodelled, s')
    end.

Notation "x <- m ;; k" := (bind m (fun x => k))
  (at level 100, m at next level, right associativity,
   format "'[v' x  <-  m ;; '/' k ']'").
Notation "m ;; k" := (bind m (fun _ => k))
  (at level 100, right associativity, format "'[v' m ;; '/' k ']'").

(** [if c: body] *)
Definition when (c : bool) (body : M unit) : M unit :=
  if c then body else ret tt.

(** [try: body  except <catches> as e: handler e] *)
Definition try_except {A} (body : M A) (catches : exn -> bool) (handler : exn -> M A) : M A :=
  fun s =>
    match body s with
    | (Raise e, s') => if catches e then handler e s' else (Raise e, s')
    | r => r
    end.

(** The body of a [def]: a body never falls off its end here, every
    path of the four commands ends in [return] or in an exception. *)
Definition def (body : M Empty_set) : M Z :=
  fun s =>
    match body s with
    | (Ok a, _) => match a with end
    | (Return z, s') => (Ok z, s')
    | (Raise e, s') => (Raise e, s')
    | (Unmodelled, s') => (Unmodelled, s')
    end.

(** *** Operations on the context *)

(** [context.get(k, d)] *)
Definition context_get (k : string) (d : value) : M value :=
  fun s => (Ok (default d (context s !! k)), s).

(** [k in context] *)
Definition context_contains (k : string) : M bool :=
  fun s => (Ok (bool_decide (is_Some (context s !! k))), s).

(** [context[k]] *)
Definition context_item (k : string) : M value :=
  fun s =>
    match context s !! k with
    | Some v => (Ok v, s)
    | None => (Raise (Exn KeyError ("'" +:+ k +:+ "'")), s)
    end.

(** [context[k] = v] *)
Definition context_set (k : string) (v : value) : M unit :=
  fun s => (Ok tt, State (<[k := v]> (context s)) (calls s)).

(** [context.get("set_context", "prev")].  The name is used as a
    dictionary key and inside f-strings; the embedding covers the names
    that are strings. *)
Definition get_set_context : M string :=
  fun s =>
    match context s !! "set_context" with
    | None => (Ok "prev", s)
    | Some (VStr name) => (Ok name, s)
    | Some _ => (Unmodelled, s)
    end.

(** *** Operations on values *)

(** [args[i]] on the argument list *)
Definition list_item (xs : list value) (i : nat) : M value :=
  match xs !! i with
  | Some v => ret v
  | None => raise (Exn IndexError "list index out of range")
  end.

(** [v.get(k, d)] *)
Definition py_get (v : value) (k : string) (d : value) : M value :=
  match v with
  | VDict kv => ret (default d (assoc k kv))
  | _ => raise (Exn AttributeError ("'" +:+ type_name v +:+ "' object has no attribute 'get'"))
  end.

(** [v[0]] *)
Definition py_item0 (v : value) : M value :=
  match v with
  | VList (x :: _) => ret x
  | VList [] => raise (Exn IndexError "list index out of range")
  | VStr (String c _) => ret (VStr (String c EmptyString))
  | VStr EmptyString => raise (Exn IndexError "string index out of range")
  | VDict _ => raise (Exn KeyError "0")
  | _ => raise (Exn TypeError ("'" +:+ type_name v +:+ "' object is not subscriptable"))
  end.

(** The items that [for item in v] goes through. *)
Definition py_iter (v : value) : M (list value) :=
  match v with
  | VList xs => ret xs
  | VDict kv => ret (map (fun p => VStr (fst p)) kv)
  | VStr s => ret (map (fun c => VStr (String c EmptyString)) (list_ascii_of_string s))
  | _ => raise (Exn TypeError ("'" +:+ type_name v +:+ "' object is not iterable"))
  end.

(** [[f item for item in items]] *)
Fixpoint comprehension (f : value -> M value) (items : list value) : M (list value) :=
  match items with
  | [] => ret []
  | item :: rest =>
      x <- f item ;;
      xs <- comprehension f rest ;;
      ret (x :: xs)
  end.

(** *** A name for a list object

    [messages = context['MISTRAL_MESSAGES']] makes [messages] a second
    name of the object that the context holds: an [append] through it
    changes what the context holds.  [messages = []] names an object
    that only the function holds. *)
Inductive object_ref :=
| Stored (key : string)
| Owned (v : value).

Definition deref (r : object_ref) : M value :=
  match r with
  | Stored k => context_item k
  | Owned v => ret v
  end.

(** [r.append(x)] *)
Definition append (r : object_ref) (x : value) : M object_ref :=
  v <- deref r ;;
  match v with
  | VList xs =>
      match r with
      | Stored k => context_set k (VList (xs ++ [x])) ;; ret r
      | Owned _ => ret (Owned (VList (xs ++ [x])))
      end
  | _ => raise (Exn AttributeError ("'" +:+ type_name v +:+ "' object has no attribute 'append'"))
  end.

(** *** Calls to the outside *)

Definition log (e : event) : M unit :=
  fun s => (Ok tt, State (context s) (calls s ++ [e])).

(** [requests.post(endpoint, headers=headers, data=json.dumps(payload))] *)
Definition post (w : world) (req : request) : M response :=
  log (EPost req) ;;
  match requests_post w req with
  | inl e => raise e
  | inr r => ret r
  end.

(** [response.json()] *)
Definition response_json (r : response) : M value :=
  match json r with
  | inl msg => raise (Exn JSONDecodeError msg)
  | inr v => ret v
  end.

(** ** examples-cli/ai-mistral-text/command.py *)

Definition nl : string := String (Ascii.ascii_of_nat 10) EmptyString.

Definition text_usage : string :=
  "Usage: ai_mistral_text <prompt> [reasoning_effort]" +:+ nl +:+
  "ai_mistral_text:" +:+ nl +:+
  "    args:" +:+ nl +:+
  "        - prompt" +:+ nl +:+
  "        - reasoning_effort (optional) // High; defaults to None" +:+ nl +:+
  "    context:" +:+ nl +:+
  "        - MISTRAL_API_KEY: The API key for accessing the Mistral API." +:+ nl +:+
  "        - SYSTEM_PROMPT: The system prompt to be used in the API call." +:+ nl +:+
  "        - MISTRAL_MODEL: Optional custom model to use." +:+ nl +:+
  "        - MISTRAL_MESSAGES: Optional fully custom message list." +:+ nl +:+
  "        - MISTRAL_TEMPERATURE: Optional float (0.0â€“2.0) for sampling randomness." +:+ nl +:+
  "        - MISTRAL_K: Optional int for top-k sampling." +:+ nl.

Definition message (role : string) (content : value) : value :=
  VDict [("role", VStr role); ("content", content)].

(** [if k in context: payload[name] = context[k]] *)
Definition add_if_present (k name : string) (payload : list (string * value))
  : M (list (string * value)) :=
  present <- context_contains k ;;
  if present then v <- context_item k ;; ret (payload ++ [(name, v)])%list
  else ret payload.

Definition ai_mistral_text (w : world) (args : list value) : M Z :=
  def (
    set_name <- get_set_context ;;
    let error_key := set_name +:+ "_error" in
    when (bool_decide (args = []))
      (context_set error_key (VStr text_usage) ;; return_ 1) ;;
    api_key <- context_get "MISTRAL_API_KEY" VNone ;;
    when (negb (truthy api_key))
      (context_set error_key (VStr "Error: MISTRAL_API_KEY is not set in context.") ;;
       return_ 1) ;;
    prompt <- list_item args 0 ;;
    reasoning_effort <- (if bool_decide (1 < length args)%nat
                         then list_item args 1 else ret VNone) ;;
    system_prompt <- context_get "SYSTEM_PROMPT" (VStr "") ;;
    model <- context_get "MISTRAL_MODEL" (VStr "mistral-large-latest") ;;
    let endpoint := "https://api.mistral.ai/v1/chat/completions" in
    has_messages <- context_contains "MISTRAL_MESSAGES" ;;
    messages <- (if has_messages then ret (Stored "MISTRAL_MESSAGES")
                 else if truthy system_prompt
                      then append (Owned (VList [])) (message "system" system_prompt)
                      else ret (Owned (VList []))) ;;
    messages <- append messages (message "user" prompt) ;;
    sent <- deref messages ;;
    let payload := [("model", model); ("messages", sent);
                    ("reasoning_effort", reasoning_effort)] in
    payload <- add_if_present "MISTRAL_TEMPERATURE" "temperature" payload ;;
    payload <- add_if_present "MISTRAL_K" "k" payload ;;
    response <- try_except
      (post w (Request endpoint api_key "application/json" (VDict payload)))
      is_RequestException
      (fun e => context_set error_key (VStr ("Request error: " +:+ exn_msg e)) ;;
                return_ 1) ;;
    when (negb (status_code response =? 200)%Z)
      (context_set error_key
         (VStr ("API returned HTTP " +:+ pretty (status_code response) +:+ ": "
                +:+ text response)) ;;
       return_ 1) ;;
    decoded <- response_json response ;;
    choices <- py_get decoded "choices" (VList [VDict []]) ;;
    choice <- py_item0 choices ;;
    msg <- py_get choice "message" (VDict []) ;;
    content <- py_get msg "content" (VStr "") ;;
    context_set set_name content ;;
    return_ 0).

(** ** examples-cli/ai-mistral-embeddings/command.py *)

Definition ai_mistral_embeddings (w : world) (args : list value) : M Z :=
  def (
    set_name <- get_set_context ;;
    let error_key := set_name +:+ "_error" in
    when (bool_decide (args = []) || is_None (nth 0 args VNone))
      (context_set error_key (VStr "Usage: ai_mistral_embeddings <text>") ;;
       return_ (-1)) ;;
    api_key <- context_get "MISTRAL_API_KEY" VNone ;;
    when (negb (truthy api_key))
      (context_set error_key (VStr "Error: MISTRAL_API_KEY not found in context.") ;;
       return_ (-1)) ;;
    input_text <- list_item args 0 ;;
    model <- context_get "MISTRAL_MODEL" (VStr "mistral-embed") ;;
    let endpoint := "https://api.mistral.ai/v1/embeddings" in
    let payload := [("model", model); ("input", input_text)] in
    response <- try_except
      (post w (Request endpoint api_key "application/json" (VDict payload)))
      is_RequestException
      (fun e => context_set error_key (VStr ("Request error: " +:+ exn_msg e)) ;;
                return_ (-1)) ;;
    when (negb (status_code response =? 200)%Z)
      (context_set error_key
         (VStr ("API returned HTTP " +:+ pretty (status_code response) +:+ ": "
                +:+ text response)) ;;
       return_ (-1)) ;;
    try_except
      (decoded <- response_json response ;;
       data <- py_get decoded "data" (VList []) ;;
       items <- py_iter data ;;
       embeddings <- comprehension (fun item => py_get item "embedding" VNone) items ;;
       arg0 <- list_item args 0 ;;
       (if bool_decide (length embeddings = 1%nat) && isinstance_str arg0
        then first <- list_item embeddings 0 ;; context_set set_name first
        else context_set set_name (VList embeddings)) ;;
       return_ 0)
      is_Exception
      (fun e => context_set error_key (VStr ("Error parsing response: " +:+ exn_msg e)) ;;
                return_ (-1))).

(** ** examples-cli/mistral-moderations/command.py *)

Definition moderations_usage : value :=
  VDict [
    ("description", VStr "Moderate text using Mistral Moderation API");
    ("args", VList [VStr "input_text (required) - Text to moderate"]);
    ("context", VList [
       VStr "MISTRAL_API_KEY: The API key for accessing the Mistral API";
       VStr "MISTRAL_MODERATION_MODEL: (optional) Model to use (default: mistral-moderation-latest)"]);
    ("example", VStr ("mistral_moderations([" +:+ String (Ascii.ascii_of_nat 34) "This is some text to moderate"
                      +:+ String (Ascii.ascii_of_nat 34) "], context)"))
  ].

Definition mistral_moderations (w : world) (args : list value) : M Z :=
  def (
    set_name <- get_set_context ;;
    let error_key := set_name +:+ "_error" in
    when (bool_decide (args = []) || is_None (nth 0 args VNone))
      (context_set (set_name +:+ "_usage") moderations_usage ;;
       return_ (-1)) ;;
    api_key <- context_get "MISTRAL_API_KEY" VNone ;;
    when (negb (truthy api_key))
      (context_set error_key (VStr "Error: MISTRAL_API_KEY is not set in context") ;;
       return_ (-1)) ;;
    input_text <- list_item args 0 ;;
    model <- context_get "MISTRAL_MODERATION_MODEL" (VStr "mistral-moderation-latest") ;;
    let endpoint := "https://api.mistral.ai/v1/moderations" in
    let payload := [("input", input_text); ("model", model)] in
    response <- try_except
      (post w (Request endpoint api_key "application/json" (VDict payload)))
      is_RequestException
      (fun e => context_set error_key (VStr ("Request failed: " +:+ exn_msg e)) ;;
                return_ (-1)) ;;
    when (negb (status_code response =? 200)%Z)
      (context_set error_key
         (VStr ("API returned HTTP " +:+ pretty (status_code response) +:+ ": "
                +:+ text response)) ;;
       return_ (-1)) ;;
    try_except
      (result <- response_json response ;;
       context_set set_name result ;;
       return_ 0)
      is_Exception
      (fun e => context_set error_key (VStr ("Error parsing response: " +:+ exn_msg e)) ;;
                return_ (-1))).

(** ** examples-cli/ai-mistral-image-gen/command.py *)

Definition history : M (list event) := fun s => (Ok (calls s), s).

(** [os.makedirs(output_dir, exist_ok=True)]: a path that is not a
    string is refused by [os.fspath]. *)
Definition makedirs (w : world) (output_dir : value) : M unit :=
  match output_dir with
  | VStr dir =>
      h <- history ;;
      log (EMakedirs dir) ;;
      match os_makedirs w h dir with
      | Some e => raise e
      | None => ret tt
      end
  | _ => raise (Exn TypeError ("expected str, bytes or os.PathLike object, not "
                               +:+ type_name output_dir))
  end.

Definition starts_with_sep (s : string) : bool :=
  match s with
  | String c _ => Ascii.eqb c "/"%char
  | EmptyString => false
  end.

Fixpoint ends_with_sep (s : string) : bool :=
  match s with
  | EmptyString => false
  | String c EmptyString => Ascii.eqb c "/"%char
  | String _ rest => ends_with_sep rest
  end.

(** [posixpath.join(path, b)] on strings *)
Definition posix_join (path b : string) : string :=
  if starts_with_sep b then b
  else if bool_decide (path = "") || ends_with_sep path then path +:+ b
  else path +:+ "/" +:+ b.

(** [os.path.join(a, b)] *)
Definition path_join (a : value) (b : string) : M string :=
  match a with
  | VStr path => ret (posix_join path b)
  | _ => raise (Exn TypeError ("expected str, bytes or os.PathLike object, not "
                               +:+ type_name a))
  end.

(** [Mistral(api_key=API_KEY)]: the key goes into a pydantic model with
    a field of type [Optional[str]], which takes a string and refuses
    every other value that is not [None]. *)
Definition Mistral (w : world) (api_key : value) : M unit :=
  match api_key with
  | VStr _ | VNone => ret tt
  | _ => raise (Exn (LibraryError "ValidationError") (client_refusal w api_key))
  end.

(** [client.beta.agents.create(model=model, ...)], giving [image_agent.id] *)
Definition create_agent (w : world) (api_key model : value) : M string :=
  h <- history ;;
  log (EAgentCreate api_key model) ;;
  match agents_create w h api_key model with
  | inl e => raise e
  | inr agent_id => ret agent_id
  end.

(** [time.sleep(seconds)] *)
Definition sleep (seconds : Z) : M unit := log (ESleep seconds).

(** [client.beta.conversations.start(agent_id=..., inputs=prompt)], giving [response.outputs] *)
Definition start_conversation (w : world) (agent_id : string) (inputs : value) : M (list entry) :=
  h <- history ;;
  log (EConversationStart agent_id inputs) ;;
  match conversations_start w h agent_id inputs with
  | inl e => raise e
  | inr outputs => ret outputs
  end.

(** [client.files.download(file_id=...).read()] *)
Definition download (w : world) (file_id : string) : M string :=
  h <- history ;;
  log (EDownload file_id) ;;
  match files_download w h file_id with
  | inl e => raise e
  | inr bytes => ret bytes
  end.

(** [with open(file_name, "wb") as f: f.write(file_bytes)] *)
Definition open_write (w : world) (file_name bytes : string) : M unit :=
  h <- history ;;
  log (EWriteFile file_name bytes) ;;
  match write_file w h file_name bytes with
  | Some e => raise e
  | None => ret tt
  end.

(** [outputs[-1]] *)
Definition last_output (outputs : list entry) : M entry :=
  match last outputs with
  | Some e => ret e
  | None => raise (Exn IndexError "list index out of range")
  end.

(** [entry.content], as the sequence that [enumerate] goes through: a
    string content is gone through character by character, and no
    character is a [ToolFileChunk]. *)
Definition entry_content (e : entry) : M (list chunk) :=
  match e with
  | MessageChunks content => ret content
  | MessageText content => ret (map (fun _ => OtherChunk) (list_ascii_of_string content))
  | OtherEntry cls =>
      raise (Exn AttributeError ("'" +:+ cls +:+ "' object has no attribute 'content'"))
  end.

(** The body of [for i, chunk in enumerate(...)], from index [i] on. *)
Fixpoint save_chunks (w : world) (output_dir : value) (uid : string)
    (i : nat) (chunks : list chunk) (saved_files : list string) : M (list string) :=
  match chunks with
  | [] => ret saved_files
  | chunk :: rest =>
      saved_files <-
        match chunk with
        | ToolFileChunk file_id =>
            file_bytes <- download w file_id ;;
            if negb (bool_decide (file_bytes = ""))
            then
              file_name <- path_join output_dir (uid +:+ "_" +:+ pretty i +:+ ".png") ;;
              open_write w file_name file_bytes ;;
              ret (saved_files ++ [file_name])%list
            else ret saved_files
        | OtherChunk => ret saved_files
        end ;;
      save_chunks w output_dir uid (S i) rest saved_files
  end.

Definition ai_mistral_image_gen (w : world) (args : list value) : M Z :=
  def (
    set_name <- get_set_context ;;
    let error_key := set_name +:+ "_error" in
    when (bool_decide (args = []) || negb (truthy (nth 0 args VNone)))
      (context_set error_key
         (VStr ("Usage: ai_mistral_image_gen <prompt>" +:+ nl +:+ "Missing prompt in args[0]")) ;;
       return_ 1) ;;
    prompt <- list_item args 0 ;;
    API_KEY <- context_get "MISTRAL_API_KEY" VNone ;;
    when (negb (truthy API_KEY))
      (context_set error_key (VStr "MISTRAL_API_KEY not set in context.") ;;
       return_ 1) ;;
    output_dir <- context_get "output_dir" (VStr "output") ;;
    makedirs w output_dir ;;
    model <- context_get "MISTRAL_MODEL" (VStr "mistral-medium-2505") ;;
    system_prompt <- context_get "SYSTEM_PROMPT" (VStr "") ;;
    Mistral w API_KEY ;;
    image_agent <- try_except
      (create_agent w API_KEY model)
      is_Exception
      (fun e => context_set error_key (VStr ("Failed to create agent: " +:+ exn_msg e)) ;;
                return_ 1) ;;
    sleep 2 ;;
    outputs <- try_except
      (start_conversation w image_agent prompt)
      is_Exception
      (fun e => context_set error_key (VStr ("Conversation error: " +:+ exn_msg e)) ;;
                return_ 1) ;;
    let uid := uuid4 w in
    try_except
      (final <- last_output outputs ;;
       content <- entry_content final ;;
       saved_files <- save_chunks w output_dir uid 0 content [] ;;
       when (bool_decide (saved_files = []))
         (context_set error_key (VStr "No images were generated.") ;;
          return_ 1) ;;
       first <- list_item (map VStr saved_files) 0 ;;
       context_set set_name first ;;
       context_set (set_name +:+ "_all") (VList (map VStr saved_files)) ;;
       return_ 0)
      is_Exception
      (fun e => context_set error_key (VStr ("Error saving images: " +:+ exn_msg e)) ;;
                return_ 1)).

(** ** Running a command *)

Definition run (command : M Z) (ctx : gmap string value) : result Z * state :=
  command (State ctx []).

(** ** Vocabulary of the statements *)

(** The name that [context.get("set_context", "prev")] gives. *)
Definition set_name_of (ctx : gmap string value) : option string :=
  match ctx !! "set_context" with
  | None => Some "prev"
  | Some (VStr name) => Some name
  | Some _ => None
  end.

(** [context.get("MISTRAL_API_KEY")] *)
Definition api_key_of (ctx : gmap string value) : value :=
  default VNone (ctx !! "MISTRAL_API_KEY").

(** [needle in s] *)
Definition mentions (needle s : string) : Prop :=
  exists before after, s = before +:+ needle +:+ after.

(** [payload["messages"]] of a request *)
Definition request_messages (req : request) : option value :=
  match req_payload req with
  | VDict kv => assoc "messages" kv
  | _ => None
  end.

(** The payload and the request that the text command builds from the
    context, the message list and [reasoning_effort] (source lines
    57 to 72). *)
Definition text_payload (ctx : gmap string value) (messages reasoning_effort : value)
  : list (string * value) :=
  [("model", default (VStr "mistral-large-latest") (ctx !! "MISTRAL_MODEL"));
   ("messages", messages);
   ("reasoning_effort", reasoning_effort)]
  ++ match ctx !! "MISTRAL_TEMPERATURE" with Some v => [("temperature", v)] | None => [] end
  ++ match ctx !! "MISTRAL_K" with Some v => [("k", v)] | None => [] end.

Definition text_request (ctx : gmap string value) (messages reasoning_effort : value)
  : request :=
  Request "https://api.mistral.ai/v1/chat/completions" (api_key_of ctx)
          "application/json" (VDict (text_payload ctx messages reasoning_effort)).

(** The request that the embeddings command builds (source lines 40 to
    52). *)
Definition embeddings_request (ctx : gmap string value) (input : value) : request :=
  Request "https://api.mistral.ai/v1/embeddings" (api_key_of ctx) "application/json"
          (VDict [("model", default (VStr "mistral-embed") (ctx !! "MISTRAL_MODEL"));
                  ("input", input)]).

(** [item.get("embedding")] on a dictionary *)
Definition embedding_of (item : list (string * value)) : value :=
  default VNone (assoc "embedding" item).

(** [os.path.join(dir, f"{uid}_{i}.png")] *)
Definition image_path (dir uid : string) (i : nat) : string :=
  posix_join dir (uid +:+ "_" +:+ pretty i +:+ ".png").

(** The positions of the file chunks in a content that [enumerate]
    numbers from [i] on. *)
Fixpoint file_indices (i : nat) (chunks : list chunk) : list nat :=
  match chunks with
  | [] => []
  | ToolFileChunk _ :: rest => i :: file_indices (S i) rest
  | OtherChunk :: rest => file_indices (S i) rest
  end.

(** The messages that the text command starts from when the context
    holds no list (source lines 51 to 53). *)
Definition system_messages (ctx : gmap string value) : list value :=
  if truthy (default (VStr "") (ctx !! "SYSTEM_PROMPT"))
  then [message "system" (default (VStr "") (ctx !! "SYSTEM_PROMPT"))]
  else [].

(** [context.get("MISTRAL_MODEL", "mistral-medium-2505")] of the image command *)
Definition image_model (ctx : gmap string value) : value :=
  default (VStr "mistral-medium-2505") (ctx !! "MISTRAL_MODEL").

(** The calls of the image command up to the answer of the agent. *)
Definition conversation_calls (ctx : gmap string value) (dir agent : string)
    (prompt : value) : list event :=
  [EMakedirs dir; EAgentCreate (api_key_of ctx) (image_model ctx); ESleep 2;
   EConversationStart agent prompt].

(** The files written, in the order of the calls. *)
Definition written_paths (log : list event) : list string :=
  omap (fun e => match e with EWriteFile path _ => Some path | _ => None end) log.

(** Weakest precondition: [wp m Q s] says that [m], started in [s],
    ends in a result and a state that satisfy [Q]. *)
Definition wp {A} (m : M A) (Q : result A -> state -> Prop) (s : state) : Prop :=
  Q (fst (m s)) (snd (m s)).

(** What is left to show after the first half of a [bind]. *)
Definition then_ {A B} (k : A -> M B) (Q : result B -> state -> Prop)
  : result A -> state -> Prop :=
  fun r s =>
    match r with
    | Ok a => wp (k a) Q s
    | Return z => Q (Return z) s
    | Raise e => Q (Raise e) s
    | Unmodelled => Q Unmodelled s
    end.

(** What is left to show after the body of a [try]. *)
Definition caught {A} (catches : exn -> bool) (handler : exn -> M A)
    (Q : result A -> state -> Prop) : result A -> state -> Prop :=
  fun r s =>
    match r with
    | Raise e => if catches e then wp (handler e) Q s else Q (Raise e) s
    | _ => Q r s
    end.

(** What is left to show after the body of a [def]. *)
Definition returned (Q : result Z -> state -> Prop) : result Empty_set -> state -> Prop :=
  fun r s =>
    match r with
    | Ok a => match a with end
    | Return z => Q (Ok z) s
    | Raise e => Q (Raise e) s
    | Unmodelled => Q Unmodelled s
    end.

(** A world that answers every request with [r], a response or the
    message of a [RequestException], and in which the agent, the
    downloads and the file system work. *)
Definition answering (r : string + response) : world :=
  World (fun _ => match r with
                  | inl msg => inl (Exn RequestException msg)
                  | inr r => inr r
                  end)
        (fun _ _ => None)
        (fun _ _ _ => inr "ag_1")
        (fun _ _ _ => inr [MessageChunks [OtherChunk; ToolFileChunk "file_a"; ToolFileChunk "file_b"]])
        (fun _ _ => inr "PNG")
        (fun _ _ _ => None)
        "0b5e"
        (fun _ => "1 validation error for Security").

Definition with_key : gmap string value := {["MISTRAL_API_KEY" := VStr "sk"]}.

(** A chat completion that says [content]. *)
Definition completion (content : string) : response :=
  Response 200 "(body)"
    (inr (VDict [("choices", VList [VDict [("message", VDict [("content", VStr content)])]])])).

(** An embeddings answer with the given [data]. *)
Definition embedded (data : list value) : response :=
  Response 200 "(body)" (inr (VDict [("object", VStr "list"); ("data", VList data)])).

Definition vector (x y : float) : list (string * value) :=
  [("object", VStr "embedding"); ("embedding", VList [VFloat x; VFloat y])].

(** A context with a key and a message list of one system message. *)
Definition with_messages : gmap string value :=
  <["MISTRAL_MESSAGES" := VList [message "system" (VStr "Be brief.")]]> with_key.

(** A context that asks for the result under the key of the message list. *)
Definition result_over_messages : gmap string value :=
  <["set_context" := VStr "MISTRAL_MESSAGES"]> with_messages.

(** ** The entry points

    Each file ends with the same script under [if __name__ == "__main__":].
    It takes the path of a JSON file from the command line, loads the
    file, calls the command on its ["args"] and ["context"], and prints
    the result or the error that the command left in the context.  The
    embedding gives what the script prints, how the process ends and
    the calls that the command made. *)

(** A piece of a printed line: literal text, [str(v)] (what [print(v)]
    and a field of an f-string write) or [json.dumps(v, indent=2)]. *)
Inductive piece :=
| Literal (s : string)
| Str (v : value)
| JsonDumps (v : value).

(** How the process ends: [sys.exit(code)] or the end of the script
    (code 0), or an exception that nobody catches (the interpreter
    prints a traceback and the exit status is 1). *)
Inductive termination :=
| Exit (code : Z)
| Traceback (e : exn)
| NotCovered.              (* the embedding does not cover the input *)

Record process := Process {
  stdout : list (list piece);   (* the lines printed, in order *)
  ended : termination;
  outbound : list event           (* the calls that the command made *)
}.

(** What opening the file and [json.load] give. *)
Inductive loaded :=
| Parsed (data : value)
| NotJson (msg : string)     (* json.JSONDecodeError, str(e) *)
| CannotRead (e : exn).      (* any other exception of [open] or [json.load] *)

(** The file system as the scripts see it, by the path given on the
    command line. *)
Record file_system := FileSystem {
  path_exists : string -> bool;   (* data_file.exists(), os.path.exists(data_file) *)
  json_load : string -> loaded;   (* with open(...) as f: json.load(f) *)
  path_str : string -> string     (* str(Path(p)), as an f-string shows the path *)
}.

(** The call [command(args, context)] on what [json.load] built.  The
    context object becomes the dictionary of the command; every command
    starts with [context.get], which an object that is no dictionary
    does not have.  Every command tests [not args] before it looks into
    [args]: a falsy [args] is treated as the empty list is.  Arguments
    that are truthy and not a list are not covered. *)
Definition call (command : list value -> M Z) (args ctx : value) : result Z * state :=
  match ctx with
  | VDict kv =>
      match args with
      | VList xs => run (command xs) (list_to_map kv)
      | _ => if truthy args then (Unmodelled, State (list_to_map kv) [])
             else run (command []) (list_to_map kv)
      end
  | _ => (Raise (Exn AttributeError
                     ("'" +:+ type_name ctx +:+ "' object has no attribute 'get'")),
          State ∅ [])
  end.

(** The script, with what differs from file to file as parameters: the
    usage line, how the path is shown, the command, and what is printed
    for a status. *)
Definition script (usage : string) (shown : string -> string) (fs : file_system)
    (command : list value -> M Z)
    (report : Z -> string -> gmap string value -> exn + list (list piece))
    (argv : list string) : process :=
  match argv with
  | _ :: data_file :: _ =>
      if negb (path_exists fs data_file)
      then Process [[Literal ("Error: JSON file '" +:+ shown data_file +:+ "' not found.")]]
                   (Exit 1) []
      else
        match json_load fs data_file with
        | NotJson msg =>                              (* except json.JSONDecodeError as e *)
            Process [[Literal ("Error parsing " +:+ shown data_file +:+ ": " +:+ msg)]]
                    (Exit 1) []
        | CannotRead e => Process [] (Traceback e) []
        | Parsed (VDict kv) =>
            let args := default (VList []) (assoc "args" kv) in       (* data.get("args", []) *)
            let ctx := default (VDict []) (assoc "context" kv) in     (* data.get("context", {}) *)
            match call command args ctx with
            | (Ok result, s) =>
                (* set_name = context.get("set_context", "prev"), after the call *)
                match set_name_of (context s) with
                | Some set_name =>
                    match report result set_name (context s) with
                    | inr lines => Process lines (Exit 0) (calls s)
                    | inl e => Process [] (Traceback e) (calls s)
                    end
                | None => Process [] NotCovered (calls s)
                end
            | (Raise e, s) => Process [] (Traceback e) (calls s)
            | (_, s) => Process [] NotCovered (calls s)
            end
        | Parsed data =>                              (* data.get on what is no dictionary *)
            Process [] (Traceback (Exn AttributeError
                                       ("'" +:+ type_name data
                                        +:+ "' object has no attribute 'get'"))) []
        end
  | _ => Process [[Literal usage]] (Exit 1) []       (* len(sys.argv) < 2 *)
  end.

(** [print(context.get(set_name, ""))] or
    [print(context.get(f"{set_name}_error", "Unknown error"))] *)
Definition print_result (result : Z) (set_name : string) (ctx : gmap string value)
  : exn + list (list piece) :=
  if (result =? 0)%Z
  then inr [[Str (default (VStr "") (ctx !! set_name))]]
  else inr [[Str (default (VStr "Unknown error") (ctx !! (set_name +:+ "_error")))]].

(** [print(json.dumps(context.get(set_name, {}), indent=2))] on success *)
Definition print_json_result (result : Z) (set_name : string) (ctx : gmap string value)
  : exn + list (list piece) :=
  if (result =? 0)%Z
  then inr [[JsonDumps (default (VDict []) (ctx !! set_name))]]
  else inr [[Str (default (VStr "Unknown error") (ctx !! (set_name +:+ "_error")))]].

(** [print(f"Saved image: {context[set_name]}")] and
    [print(f"All images: {context.get(f'{set_name}_all', [])}")] on success *)
Definition print_images (result : Z) (set_name : string) (ctx : gmap string value)
  : exn + list (list piece) :=
  if (result =? 0)%Z
  then match ctx !! set_name with
       | Some v =>
           inr [[Literal "Saved image: "; Str v];
                [Literal "All images: "; Str (default (VList []) (ctx !! (set_name +:+ "_all")))]]
       | None => inl (Exn KeyError ("'" +:+ set_name +:+ "'"))
       end
  else inr [[Str (default (VStr "Unknown error") (ctx !! (set_name +:+ "_error")))]].

Definition ai_mistral_text_main (fs : file_system) (w : world) (argv : list string) : process :=
  script "Usage: python ai_mistral.py <data.json>" (path_str fs) fs
         (ai_mistral_text w) print_result argv.

Definition ai_mistral_embeddings_main (fs : file_system) (w : world) (argv : list string)
  : process :=
  script "Usage: python ai_mistral_embeddings.py <data.json>" (path_str fs) fs
         (ai_mistral_embeddings w) print_result argv.

Definition mistral_moderations_main (fs : file_system) (w : world) (argv : list string)
  : process :=
  script "Usage: python mistral_moderations.py <data.json>" (path_str fs) fs
         (mistral_moderations w) print_json_result argv.

Definition ai_mistral_image_gen_main (fs : file_system) (w : world) (argv : list string)
  : process :=
  script "Usage: python ai_mistral_image_gen.py <data.json>" (fun p => p) fs
         (ai_mistral_image_gen w) print_images argv.

(** The four processes that the scripts start. *)
Definition entry_points (fs : file_system) (w : world) (argv : list string) : list process :=
  [ai_mistral_text_main fs w argv; ai_mistral_embeddings_main fs w argv;
   mistral_moderations_main fs w argv; ai_mistral_image_gen_main fs w argv].

(** ** More vocabulary of the statements *)

(** The request that the moderation command builds (source lines 46 to
    57). *)
Definition moderations_request (ctx : gmap string value) (input : value) : request :=
  Request "https://api.mistral.ai/v1/moderations" (api_key_of ctx) "application/json"
          (VDict [("input", input);
                  ("model", default (VStr "mistral-moderation-latest")
                                    (ctx !! "MISTRAL_MODERATION_MODEL"))]).

(** The request of the text command on a context without a message list. *)
Definition fresh_text_request (ctx : gmap string value) (prompt : value) (rest : list value)
  : request :=
  text_request ctx (VList (system_messages ctx ++ [message "user" prompt])) (nth 0 rest VNone).

(** The request of the text command on a context that holds the
    message list [xs], and the context after [messages.append] on that
    list (source lines 49 and 55). *)
Definition stored_text_request (ctx : gmap string value) (xs : list value) (prompt : value)
    (rest : list value) : request :=
  text_request ctx (VList (xs ++ [message "user" prompt])) (nth 0 rest VNone).

Definition with_user_message (ctx : gmap string value) (xs : list value) (prompt : value)
  : gmap string value :=
  <["MISTRAL_MESSAGES" := VList (xs ++ [message "user" prompt])]> ctx.

(** A file system that holds the one file [data.json], with [data] in it. *)
Definition data_file (data : value) : file_system :=
  FileSystem (fun p => String.eqb p "data.json") (fun _ => Parsed data) (fun p => p).

(** The object that the scripts expect in the file. *)
Definition request_data (args : list value) (ctx : list (string * value)) : value :=
  VDict [("args", VList args); ("context", VDict ctx)].

(** A world for the image command: what the agent creation, the
    conversation and the downloads answer; the file system works. *)
Definition studio (agent : exn + string) (outputs : exn + list entry)
    (download : string -> exn + string) : world :=
  World (fun _ => inl (Exn RequestException "unused"))
        (fun _ _ => None)
        (fun _ _ _ => agent)
        (fun _ _ _ => outputs)
        (fun _ file_id => download file_id)
        (fun _ _ _ => None)
        "0b5e"
        (fun _ => "1 validation error for Security").

(** A context that holds an earlier result. *)
Definition with_result : gmap string value := <["prev" := VStr "earlier"]> with_key.

(** A context that sets the sampling temperature. *)
Definition with_temperature : gmap string value :=
  <["MISTRAL_TEMPERATURE" := VFloat 0.5]> with_key.

(** A 200 answer with an empty object. *)
Definition empty_object : response := Response 200 "{}" (inr (VDict [])).

(** A 200 answer without a choice. *)
Definition no_choice : response := Response 200 "(body)" (inr (VDict [("choices", VList [])])).

(** An answer that refuses the key. *)
Definition unauthorized : response := Response 401 "Unauthorized" (inl "Expecting value").

(** A moderation answer. *)
Definition moderated : response :=
  Response 200 "(body)"
    (inr (VDict [("results", VList [VDict [("categories", VDict [("violence", VBool false)])]])])).

(** Downloads that work for the first file only. *)
Definition first_file_only (file_id : string) : exn + string :=
  if String.eqb file_id "file_a" then inr "PNG"
  else inl (Exn (LibraryError "SDKError") "Status 404").

(** A context whose output directory is a number. *)
Definition with_number_as_directory : gmap string value :=
  <["output_dir" := VInt 3]> with_key.

(** The context object of a file that gives the key only. *)
Definition key_only : list (string * value) := [("MISTRAL_API_KEY", VStr "sk")].

(** ** Rules of the weakest precondition *)

Lemma bool_decide_cons_nil {A} (a : A) (l : list A) : bool_decide (a :: l = []) = false.
Proof. by apply bool_decide_eq_false. Qed.

Lemma bool_decide_nil_nil {A} : bool_decide (@nil A = []) = true.
Proof. by apply bool_decide_eq_true. Qed.

Lemma wp_run (command : M Z) (ctx : gmap string value) (x : result Z * state) :
  wp command (fun r s => (r, s) = x) (State ctx []) -> run command ctx = x.
Proof. unfold wp, run. destruct (command (State ctx [])). exact id. Qed.

Lemma wp_run_result (command : M Z) (ctx : gmap string value) (P : result Z -> Prop) :
  wp command (fun r _ => P r) (State ctx []) -> P (fst (run command ctx)).
Proof. exact id. Qed.

Lemma wp_run_both (command : M Z) (ctx : gmap string value) (P : result Z -> state -> Prop) :
  wp command P (State ctx []) -> P (fst (run command ctx)) (snd (run command ctx)).
Proof. exact id. Qed.

Lemma wp_bind {A B} (m : M A) (k : A -> M B) Q s :
  wp m (then_ k Q) s -> wp (bind m k) Q s.
Proof. unfold wp, then_, bind. destruct (m s) as [[a|z|e|] s']; exact id. Qed.

Lemma wp_try {A} (body : M A) (catches : exn -> bool) handler Q s :
  wp body (caught catches handler Q) s -> wp (try_except body catches handler) Q s.
Proof.
  unfold wp, caught, try_except. destruct (body s) as [[a|z|e|] s']; try exact id.
  cbn. destruct (catches e); exact id.
Qed.

Lemma wp_def (body : M Empty_set) Q s :
  wp body (returned Q) s -> wp (def body) Q s.
Proof. unfold wp, returned, def. destruct (body s) as [[[]|z|e|] s']; exact id. Qed.

Lemma wp_ret {A} (a : A) (Q : result A -> state -> Prop) s : Q (Ok a) s -> wp (ret a) Q s.
Proof. exact id. Qed.

Lemma wp_return {A} z (Q : result A -> state -> Prop) s : Q (Return z) s -> wp (return_ z) Q s.
Proof. exact id. Qed.

Lemma wp_raise {A} e (Q : result A -> state -> Prop) s : Q (Raise e) s -> wp (raise e) Q s.
Proof. exact id. Qed.

Lemma wp_when (c : bool) (body : M unit) Q s :
  (if c then wp body Q s else Q (Ok tt) s) -> wp (when c body) Q s.
Proof. destruct c; exact id. Qed.

Lemma wp_if {A} (c : bool) (m1 m2 : M A) Q s :
  (if c then wp m1 Q s else wp m2 Q s) -> wp (if c then m1 else m2) Q s.
Proof. destruct c; exact id. Qed.

Lemma wp_context_get k d Q c t :
  Q (Ok (default d (c !! k))) (State c t) -> wp (context_get k d) Q (State c t).
Proof. exact id. Qed.

Lemma wp_context_contains k Q c t :
  match c !! k with
  | Some _ => Q (Ok true) (State c t)
  | None => Q (Ok false) (State c t)
  end -> wp (context_contains k) Q (State c t).
Proof. unfold wp, context_contains. cbn. destruct (c !! k); exact id. Qed.

Lemma wp_context_item k Q c t :
  match c !! k with
  | Some v => Q (Ok v) (State c t)
  | None => Q (Raise (Exn KeyError ("'" +:+ k +:+ "'"))) (State c t)
  end -> wp (context_item k) Q (State c t).
Proof. unfold wp, context_item. cbn. destruct (c !! k); exact id. Qed.

Lemma wp_context_set k v Q c t :
  Q (Ok tt) (State (<[k := v]> c) t) -> wp (context_set k v) Q (State c t).
Proof. exact id. Qed.

Lemma wp_log e Q c t :
  Q (Ok tt) (State c (t ++ [e])) -> wp (log e) Q (State c t).
Proof. exact id. Qed.

Lemma wp_history Q c t : Q (Ok t) (State c t) -> wp history Q (State c t).
Proof. exact id. Qed.

Lemma wp_get_set_context name Q c t :
  set_name_of c = Some name -> Q (Ok name) (State c t) -> wp get_set_context Q (State c t).
Proof.
  unfold wp, get_set_context, set_name_of. cbn.
  destruct (c !! "set_context") as [[]|]; intros; simplify_eq; assumption.
Qed.

(** [args[0]] and [args[1] if len(args) > 1 else None] on a list that
    has a first element. *)
Lemma wp_first_argument a rest Q s :
  Q (Ok a) s -> wp (list_item (a :: rest) 0) Q s.
Proof. exact id. Qed.

Lemma wp_second_argument a rest Q s :
  Q (Ok (nth 0 rest VNone)) s ->
  wp (if bool_decide (1 < length (a :: rest))%nat
      then list_item (a :: rest) 1 else ret VNone) Q s.
Proof.
  destruct rest as [|b rest]; cbn [length nth].
  - rewrite bool_decide_eq_false_2 by lia. exact id.
  - rewrite bool_decide_eq_true_2 by lia. exact id.
Qed.

(** *** Symbolic execution

    [wp_step] runs the statement at the head of the goal.  What is left
    after a statement is opened at the head only, so that the rest of
    the program stays as it is written. *)

Ltac wp_open :=
  cbv beta iota zeta;
  repeat lazymatch goal with
  | |- then_ ?k ?Q (Ok ?a) ?s => change (wp (k a) Q s)
  | |- then_ ?k ?Q (Return ?z) ?s => change (Q (Return z) s)
  | |- then_ ?k ?Q (Raise ?e) ?s => change (Q (Raise e) s)
  | |- then_ ?k ?Q Unmodelled ?s => change (Q Unmodelled s)
  | |- caught ?c ?h ?Q (Raise ?e) ?s => change (if c e then wp (h e) Q s else Q (Raise e) s)
  | |- caught ?c ?h ?Q (Ok ?a) ?s => change (Q (Ok a) s)
  | |- caught ?c ?h ?Q (Return ?z) ?s => change (Q (Return z) s)
  | |- caught ?c ?h ?Q Unmodelled ?s => change (Q Unmodelled s)
  | |- returned ?Q (Return ?z) ?s => change (Q (Ok z) s)
  | |- returned ?Q (Raise ?e) ?s => change (Q (Raise e) s)
  | |- returned ?Q Unmodelled ?s => change (Q Unmodelled s)
  end;
  cbv beta iota zeta;
  try lazymatch goal with
  | |- then_ _ _ _ _ => wp_open
  | |- caught _ _ _ _ _ => wp_open
  | |- returned _ _ _ => wp_open
  end.

(** A test: what the hypotheses say about it is used first. *)
Ltac wp_use_known x :=
  repeat match goal with
         | H : ?l = _ |- _ =>
             lazymatch x with context [l] => idtac end;
             tryif is_var l then fail else rewrite H
         | H : forall _, _ = _ |- _ => rewrite H
         | H : forall _ _, _ = _ |- _ => rewrite H
         | H : forall _ _ _, _ = _ |- _ => rewrite H
         end.

Ltac wp_eval_test :=
  rewrite ?bool_decide_cons_nil, ?bool_decide_nil_nil;
  try lazymatch goal with
  | |- if ?c then ?P1 else ?P2 =>
      let c' := eval cbn [negb orb andb is_None isinstance_str is_Exception
                          is_RequestException exn_cls nth length] in c in
      change (if c' then P1 else P2)
  end.

Ltac wp_test :=
  lazymatch goal with
  | |- if ?c then _ else _ =>
      let T := type of c in lazymatch T with bool => idtac end
  end;
  first
  [ lazymatch goal with
    | |- if true then ?P1 else _ => change P1
    | |- if false then _ else ?P2 => change P2
    end
  | progress wp_eval_test
  | progress (lazymatch goal with |- if ?c then _ else _ => wp_use_known c end)
  | lazymatch goal with |- if ?c then _ else _ => destruct c eqn:? end ].

(** A lookup in a context that was written to. *)
Ltac wp_lookup x :=
  lazymatch x with
  | _ !! _ => repeat first [rewrite lookup_insert_eq | rewrite lookup_insert_ne by done]
  | _ => idtac
  end.

Ltac wp_case :=
  lazymatch goal with
  | |- match ?x with _ => _ end =>
      first [ progress (wp_lookup x; wp_use_known x; cbv beta iota) | destruct x eqn:? ]
  | |- wp (match ?x with _ => _ end) _ _ =>
      first [ progress (wp_lookup x; wp_use_known x; cbv beta iota) | destruct x eqn:? ]
  end.

(** The definition of the statement at the head, and of nothing else. *)
Ltac wp_unfold_head f :=
  lazymatch goal with
  | |- wp ?m ?Q ?s =>
      let m' := eval cbv beta iota zeta delta [f] in m in change (wp m' Q s)
  end.

Ltac wp_head :=
  lazymatch goal with
  | |- wp (bind _ _) _ _ => apply wp_bind
  | |- wp (try_except _ _ _) _ _ => apply wp_try
  | |- wp (def _) _ _ => apply wp_def
  | |- wp (ret _) _ _ => apply wp_ret
  | |- wp (return_ _) _ _ => apply wp_return
  | |- wp (raise _) _ _ => apply wp_raise
  | |- wp (when _ _) _ _ => apply wp_when
  | |- wp (context_get _ _) _ _ => apply wp_context_get
  | |- wp (context_contains _) _ _ => apply wp_context_contains
  | |- wp (context_item _) _ _ => apply wp_context_item
  | |- wp (context_set _ _) _ _ => apply wp_context_set
  | |- wp (log _) _ _ =>
      apply wp_log;
      lazymatch goal with
      | |- ?P (State ?c ?t) =>
          let t' := eval cbn [app] in t in change (P (State c t'))
      end
  | |- wp history _ _ => apply wp_history
  | |- wp get_set_context _ _ => eapply wp_get_set_context; [eassumption|]
  | |- wp (list_item (_ :: _) 0) _ _ => apply wp_first_argument
  | |- wp (list_item _ _) _ _ => wp_unfold_head list_item
  | |- wp (py_get _ _ _) _ _ => wp_unfold_head py_get
  | |- wp (py_item0 _) _ _ => wp_unfold_head py_item0
  | |- wp (py_iter _) _ _ => wp_unfold_head py_iter
  | |- wp (response_json _) _ _ => wp_unfold_head response_json
  | |- wp (post _ _) _ _ => wp_unfold_head post
  | |- wp (deref _) _ _ => wp_unfold_head deref
  | |- wp (append _ _) _ _ => wp_unfold_head append
  | |- wp (add_if_present _ _ _) _ _ => wp_unfold_head add_if_present
  | |- wp (makedirs _ _) _ _ => wp_unfold_head makedirs
  | |- wp (Mistral _ _) _ _ => wp_unfold_head Mistral
  | |- wp (create_agent _ _ _) _ _ => wp_unfold_head create_agent
  | |- wp (sleep _) _ _ => wp_unfold_head sleep
  | |- wp (start_conversation _ _ _) _ _ => wp_unfold_head start_conversation
  | |- wp (download _ _) _ _ => wp_unfold_head download
  | |- wp (open_write _ _ _) _ _ => wp_unfold_head open_write
  | |- wp (path_join _ _) _ _ => wp_unfold_head path_join
  | |- wp (last_output _) _ _ => wp_unfold_head last_output
  | |- wp (entry_content _) _ _ => wp_unfold_head entry_content
  end.

(** A conditional statement. *)
Ltac wp_cond :=
  lazymatch goal with
  | |- wp (if bool_decide (1 < length (_ :: _))%nat then _ else _) _ _ =>
      apply wp_second_argument
  | |- wp (if ?c then _ else _) _ _ =>
      let T := type of c in lazymatch T with bool => apply wp_if end
  end.

Ltac wp_step :=
  first [ wp_cond | wp_test | wp_case | wp_head ]; wp_open; simplify_eq.

Ltac wp_steps := repeat wp_step.

(** ** Facts about strings *)

Lemma append_self_inv (s t : string) : s +:+ t = s -> t = "".
Proof.
  induction s as [|c s IH]; cbn; [exact id|].
  intros H. injection H as H. exact (IH H).
Qed.

Lemma append_inj_l (s t u : string) : s +:+ t = s +:+ u -> t = u.
Proof.
  induction s as [|c s IH]; cbn; [exact id|].
  intros H. injection H as H. exact (IH H).
Qed.

Lemma error_key_fresh (name : string) : name +:+ "_error" <> name.
Proof. intros H. apply append_self_inv in H. discriminate. Qed.

Lemma usage_key_not_error_key (name : string) : name +:+ "_usage" <> name +:+ "_error".
Proof. intros H. apply append_inj_l in H. discriminate. Qed.

Lemma all_key_fresh (name : string) : name +:+ "_all" <> name.
Proof. intros H. apply append_self_inv in H. discriminate. Qed.

Lemma error_key_not_messages (name : string) : name +:+ "_error" <> "MISTRAL_MESSAGES".
Proof.
  intros H.
  do 16 (destruct name as [|? name]; [discriminate H|]; cbn in H; injection H as _ H).
  destruct name; discriminate H.
Qed.

(** ** Missing API key (C3) *)

(** C3. In each of the four commands, when the arguments pass the
    command's validation and [context.get("MISTRAL_API_KEY")] is absent
    or falsy, the command returns its failure status, stores under
    [{set_context}_error] a message that contains the text
    MISTRAL_API_KEY, and makes no outbound call. *)
Theorem missing_api_key_is_reported (w : world) (ctx : gmap string value)
    (name : string) (arg0 : value) (rest : list value) :
  set_name_of ctx = Some name ->
  truthy (api_key_of ctx) = false ->
  (exists msg,
      run (ai_mistral_text w (arg0 :: rest)) ctx
        = (Ok 1%Z, State (<[name +:+ "_error" := VStr msg]> ctx) [])
      /\ mentions "MISTRAL_API_KEY" msg)
  /\ (arg0 <> VNone ->
      exists msg,
        run (ai_mistral_embeddings w (arg0 :: rest)) ctx
          = (Ok (-1)%Z, State (<[name +:+ "_error" := VStr msg]> ctx) [])
        /\ mentions "MISTRAL_API_KEY" msg)
  /\ (arg0 <> VNone ->
      exists msg,
        run (mistral_moderations w (arg0 :: rest)) ctx
          = (Ok (-1)%Z, State (<[name +:+ "_error" := VStr msg]> ctx) [])
        /\ mentions "MISTRAL_API_KEY" msg)
  /\ (truthy arg0 = true ->
      exists msg,
        run (ai_mistral_image_gen w (arg0 :: rest)) ctx
          = (Ok 1%Z, State (<[name +:+ "_error" := VStr msg]> ctx) [])
        /\ mentions "MISTRAL_API_KEY" msg).
Proof.
  unfold api_key_of. intros Hname Hkey. repeat split.
  - eexists. split.
    + apply wp_run. unfold ai_mistral_text. wp_steps. reflexivity.
    + by exists "Error: ", " is not set in context.".
  - intros Harg. eexists. split.
    + apply wp_run. unfold ai_mistral_embeddings.
      destruct arg0; try done; wp_steps; reflexivity.
    + by exists "Error: ", " not found in context.".
  - intros Harg. eexists. split.
    + apply wp_run. unfold mistral_moderations.
      destruct arg0; try done; wp_steps; reflexivity.
    + by exists "Error: ", " is not set in context".
  - intros Harg. eexists. split.
    + apply wp_run. unfold ai_mistral_image_gen. wp_steps. reflexivity.
    + by exists "", " not set in context.".
Qed.

(** ** Loops *)

(** The list comprehension of the embeddings command reads the items
    and leaves the state alone: it ends with a list or with the
    exception of a failed [.get]. *)
Lemma wp_comprehension_get k d items (Q : result (list value) -> state -> Prop) s :
  (forall ys, Q (Ok ys) s) ->
  (forall e, Q (Raise e) s) ->
  wp (comprehension (fun item => py_get item k d) items) Q s.
Proof.
  revert Q. induction items as [|item rest IH]; intros Q Hok Hraise; cbn [comprehension].
  - apply wp_ret, Hok.
  - apply wp_bind. destruct item; cbn [py_get]; try (apply wp_raise, Hraise).
    apply wp_ret. cbn [then_]. apply wp_bind. apply IH.
    + intros ys. cbn [then_]. apply wp_ret, Hok.
    + intros e. cbn [then_]. apply Hraise.
Qed.

(** On dictionaries the comprehension is [map]. *)
Lemma comprehension_get_dicts k d (dicts : list (list (string * value))) s :
  comprehension (fun item => py_get item k d) (map VDict dicts) s
  = (Ok (map (fun kv => default d (assoc k kv)) dicts), s).
Proof.
  induction dicts as [|kv rest IH]; cbn [comprehension map]; [reflexivity|].
  unfold bind at 1. cbn [py_get ret]. unfold bind at 1. rewrite IH. reflexivity.
Qed.

(** The loop of the image command writes nothing into the context and
    ends with the list of saved files or with an exception. *)
Lemma wp_save_chunks w dir uid chunks (Q : result (list string) -> state -> Prop) c :
  forall i saved t,
  (forall files t', Q (Ok files) (State c t')) ->
  (forall e t', Q (Raise e) (State c t')) ->
  wp (save_chunks w dir uid i chunks saved) Q (State c t).
Proof.
  induction chunks as [|chunk rest IH]; intros i saved t Hok Hraise; cbn [save_chunks].
  - apply wp_ret, Hok.
  - apply wp_bind. destruct chunk as [file_id|].
    + wp_steps; try apply Hraise; apply IH; assumption.
    + wp_steps. apply IH; assumption.
Qed.

Ltac wp_loop :=
  lazymatch goal with
  | |- wp (comprehension (fun item => py_get item _ _) _) _ _ =>
      apply wp_comprehension_get; intros
  | |- wp (save_chunks _ _ _ _ _ _) _ _ =>
      apply wp_save_chunks; intros
  end; wp_open.

(** Every path of a command, loops included. *)
Ltac wp_paths := repeat first [wp_loop | wp_step].

(** ** Empty argument list (C2) *)

(** C2. Called with an empty argument list, the text, embeddings and
    image commands return their failure status, store their usage text
    under [{set_context}_error], leave [context[set_context]] alone and
    call nobody.  The moderation command returns -1 and stores a usage
    dictionary under [{set_context}_usage]; it does not write
    [{set_context}_error]. *)
Theorem empty_arguments_outcome (w : world) (ctx : gmap string value) (name : string) :
  set_name_of ctx = Some name ->
  run (ai_mistral_text w []) ctx
    = (Ok 1%Z, State (<[name +:+ "_error" := VStr text_usage]> ctx) [])
  /\ run (ai_mistral_embeddings w []) ctx
    = (Ok (-1)%Z,
       State (<[name +:+ "_error" := VStr "Usage: ai_mistral_embeddings <text>"]> ctx) [])
  /\ run (ai_mistral_image_gen w []) ctx
    = (Ok 1%Z,
       State (<[name +:+ "_error" :=
                  VStr ("Usage: ai_mistral_image_gen <prompt>" +:+ nl
                        +:+ "Missing prompt in args[0]")]> ctx) [])
  /\ (forall v : value, <[name +:+ "_error" := v]> ctx !! name = ctx !! name)
  /\ run (mistral_moderations w []) ctx
    = (Ok (-1)%Z, State (<[name +:+ "_usage" := moderations_usage]> ctx) [])
  /\ <[name +:+ "_usage" := moderations_usage]> ctx !! (name +:+ "_error")
    = ctx !! (name +:+ "_error").
Proof.
  intros Hname. repeat split.
  - apply wp_run. unfold ai_mistral_text. wp_steps. reflexivity.
  - apply wp_run. unfold ai_mistral_embeddings. wp_steps. reflexivity.
  - apply wp_run. unfold ai_mistral_image_gen. wp_steps. reflexivity.
  - intros v. apply lookup_insert_ne, error_key_fresh.
  - apply wp_run. unfold mistral_moderations. wp_steps. reflexivity.
  - apply lookup_insert_ne, usage_key_not_error_key.
Qed.

(** The failing input of C2: no arguments, an empty context. *)
Lemma empty_arguments_outcome_witness :
  set_name_of ∅ = Some "prev"
  /\ run (mistral_moderations (answering (inl "down")) []) ∅
     = (Ok (-1)%Z, State (<["prev_usage" := moderations_usage]> ∅) [])
  /\ (<["prev_usage" := moderations_usage]> ∅ : gmap string value) !! "prev_error" = None.
Proof.
  assert (Hname : set_name_of ∅ = Some "prev") by (vm_compute; reflexivity).
  split; [exact Hname|].
  destruct (empty_arguments_outcome (answering (inl "down")) ∅ "prev" Hname)
    as (_ & _ & _ & _ & Hrun & Hkey).
  split; [exact Hrun | exact Hkey].
Defined.

(** ** More facts about keys and strings *)

Lemma messages_not_error_key (name : string) : "MISTRAL_MESSAGES" <> name +:+ "_error".
Proof. intros H. exact (error_key_not_messages name (eq_sym H)). Qed.

Lemma usage_key_fresh (name : string) : name +:+ "_usage" <> name.
Proof. intros H. apply append_self_inv in H. discriminate. Qed.

Lemma all_key_not_error_key (name : string) : name +:+ "_all" <> name +:+ "_error".
Proof. intros H. apply append_inj_l in H. discriminate. Qed.

Lemma error_key_not_set_context (name : string) : name +:+ "_error" <> "set_context".
Proof.
  intros H.
  do 11 (destruct name as [|? name]; [discriminate H|]; cbn in H; injection H as _ H).
  destruct name; discriminate H.
Qed.

Lemma usage_key_not_set_context (name : string) : name +:+ "_usage" <> "set_context".
Proof.
  intros H.
  do 11 (destruct name as [|? name]; [discriminate H|]; cbn in H; injection H as _ H).
  destruct name; discriminate H.
Qed.

Lemma all_key_not_set_context (name : string) : name +:+ "_all" <> "set_context".
Proof.
  intros H.
  do 11 (destruct name as [|? name]; [discriminate H|]; cbn in H; injection H as _ H).
  destruct name; discriminate H.
Qed.

(** A context that agrees with [ctx] at ["set_context"] gives the same name. *)
Lemma set_name_of_kept (ctx ctx' : gmap string value) :
  ctx' !! "set_context" = ctx !! "set_context" -> set_name_of ctx' = set_name_of ctx.
Proof. unfold set_name_of. by intros ->. Qed.

Lemma string_length_append (s t : string) :
  String.length (s +:+ t) = (String.length s + String.length t)%nat.
Proof. induction s as [|c s IH]; [reflexivity | exact (f_equal S IH)]. Qed.

Lemma append_inj_r (s s' t : string) : s +:+ t = s' +:+ t -> s = s'.
Proof.
  revert s'. induction s as [|c s IH]; intros [|c' s'] H.
  - reflexivity.
  - apply (f_equal String.length) in H. rewrite !string_length_append in H. cbn in H. lia.
  - apply (f_equal String.length) in H. rewrite !string_length_append in H. cbn in H. lia.
  - cbn in H. injection H as -> H. f_equal. by apply IH.
Qed.

(** ** Every path of a command *)

(** A key that differs from the keys written. *)
Ltac other_key :=
  first [ assumption
        | apply usage_key_fresh
        | apply all_key_not_error_key
        | apply not_eq_sym, usage_key_fresh
        | apply not_eq_sym, all_key_not_error_key
        | apply not_eq_sym; assumption
        | apply error_key_fresh
        | apply all_key_fresh
        | apply error_key_not_messages
        | apply messages_not_error_key
        | apply usage_key_not_error_key
        | apply not_eq_sym, error_key_fresh
        | apply not_eq_sym, all_key_fresh
        | apply not_eq_sym, usage_key_not_error_key ].

(** A lookup in the context that a path leaves. *)
Ltac written :=
  intros;
  repeat first [ rewrite lookup_insert_eq | rewrite lookup_insert_ne by other_key ];
  first [ reflexivity | by eexists ].

Ltac key_is_set :=
  match goal with
  | H : negb (truthy _) = false |- _ => apply negb_false_iff in H; exact H
  end.

Ltac status_written :=
  lazymatch goal with
  | |- False => fail
  | |- (0%Z = 0%Z /\ _) \/ _ => left; split; [reflexivity | written]
  | |- _ \/ (_ = _ /\ _) => right; split; [reflexivity | repeat split; written]
  | |- _ /\ _ => split; written
  | |- _ => written
  end.

Ltac argument_is_given :=
  match goal with
  | H : is_None ?a = false |- ?a <> VNone => intros ->; discriminate H
  end.

Ltac one_request :=
  first [ left; reflexivity
        | right; split; [argument_is_given | split; [key_is_set | reflexivity]] ].

(** What every path of a command leaves behind: the entries it may have
    written, the request it may have sent, and what its status says
    about the context.  One lemma for each command. *)
Lemma text_paths w args (ctx : gmap string value) name :
  set_name_of ctx = Some name ->
  wp (ai_mistral_text w args)
     (fun r s =>
        (forall k, k <> name -> k <> name +:+ "_error" -> k <> "MISTRAL_MESSAGES" ->
                   context s !! k = ctx !! k)
        /\ (calls s = []
            \/ (args <> [] /\ truthy (api_key_of ctx) = true
                /\ exists messages,
                     calls s = [EPost (text_request ctx messages (nth 1 args VNone))]))
        /\ match r with
           | Ok z =>
               (z = 0%Z /\ is_Some (context s !! name))
               \/ (z = 1%Z
                   /\ (exists msg, context s !! (name +:+ "_error") = Some (VStr msg))
                   /\ (name <> "MISTRAL_MESSAGES" -> context s !! name = ctx !! name))
           | Raise _ =>
               context s !! (name +:+ "_error") = ctx !! (name +:+ "_error")
               /\ (name <> "MISTRAL_MESSAGES" -> context s !! name = ctx !! name)
           | _ => False
           end)
     (State ctx []).
Proof.
  intros Hname. unfold ai_mistral_text, api_key_of.
  destruct args as [|arg0 args]; wp_paths.
  all: cbn [context calls nth].
  all: split; [written | split; [|status_written]].
  all: first [ left; reflexivity
             | right; split; [discriminate | split; [key_is_set|]] ].
  all: eexists; unfold text_request, text_payload, api_key_of.
  all: repeat match goal with
              | H : _ !! _ = _ |- _ => rewrite H
              end; reflexivity.
Qed.

Lemma embeddings_paths w args (ctx : gmap string value) name :
  set_name_of ctx = Some name ->
  wp (ai_mistral_embeddings w args)
     (fun r s =>
        (forall k, k <> name -> k <> name +:+ "_error" -> context s !! k = ctx !! k)
        /\ (calls s = []
            \/ (nth 0 args VNone <> VNone /\ truthy (api_key_of ctx) = true
                /\ calls s = [EPost (embeddings_request ctx (nth 0 args VNone))]))
        /\ match r with
           | Ok z =>
               (z = 0%Z /\ is_Some (context s !! name))
               \/ (z = (-1)%Z
                   /\ (exists msg, context s !! (name +:+ "_error") = Some (VStr msg))
                   /\ context s !! name = ctx !! name)
           | Raise _ => context s = ctx
           | _ => False
           end)
     (State ctx []).
Proof.
  intros Hname. unfold ai_mistral_embeddings, embeddings_request, api_key_of.
  destruct args as [|arg0 args]; wp_paths.
  all: cbn [context calls nth].
  all: split; [written | split; [one_request |]].
  all: first [ reflexivity | status_written ].
Qed.

Lemma moderations_paths w args (ctx : gmap string value) name :
  set_name_of ctx = Some name ->
  wp (mistral_moderations w args)
     (fun r s =>
        (forall k, k <> name -> k <> name +:+ "_error" -> k <> name +:+ "_usage" ->
                   context s !! k = ctx !! k)
        /\ (calls s = []
            \/ (nth 0 args VNone <> VNone /\ truthy (api_key_of ctx) = true
                /\ calls s = [EPost (moderations_request ctx (nth 0 args VNone))]))
        /\ match r with
           | Ok z =>
               (z = 0%Z /\ is_Some (context s !! name))
               \/ (z = (-1)%Z
                   /\ ((exists msg, context s !! (name +:+ "_error") = Some (VStr msg))
                       \/ (context s !! (name +:+ "_usage") = Some moderations_usage
                           /\ context s !! (name +:+ "_error") = ctx !! (name +:+ "_error")))
                   /\ context s !! name = ctx !! name)
           | Raise _ => context s = ctx
           | _ => False
           end)
     (State ctx []).
Proof.
  intros Hname. unfold mistral_moderations, moderations_request, api_key_of.
  destruct args as [|arg0 args]; wp_paths.
  all: cbn [context calls nth].
  all: split; [written | split; [one_request |]].
  all: first [ reflexivity
             | left; split; [reflexivity | written]
             | right; split; [reflexivity|]; split; [|written];
               first [ left; written | right; split; written ] ].
Qed.

Lemma image_paths w args (ctx : gmap string value) name :
  set_name_of ctx = Some name ->
  wp (ai_mistral_image_gen w args)
     (fun r s =>
        (forall k, k <> name -> k <> name +:+ "_error" -> k <> name +:+ "_all" ->
                   context s !! k = ctx !! k)
        /\ match r with
           | Ok z =>
               (z = 0%Z /\ is_Some (context s !! name) /\ is_Some (context s !! (name +:+ "_all")))
               \/ (z = 1%Z
                   /\ (exists msg, context s !! (name +:+ "_error") = Some (VStr msg))
                   /\ context s !! name = ctx !! name
                   /\ context s !! (name +:+ "_all") = ctx !! (name +:+ "_all"))
           | Raise _ => context s = ctx
           | _ => False
           end)
     (State ctx []).
Proof.
  intros Hname. unfold ai_mistral_image_gen, api_key_of.
  destruct args as [|arg0 args]; wp_paths.
  all: cbn [context calls].
  all: split; [written |].
  all: first [ reflexivity
             | left; split; [reflexivity | split; written]
             | right; split; [reflexivity | repeat split; written] ].
Qed.

(** The outcome of a command as its paths give it. *)
Ltac outcome paths :=
  lazymatch goal with
  | Hname : set_name_of ?ctx = Some ?name |- context [run (?command ?w ?xs) ?ctx] =>
      let H := fresh "H" in
      pose proof (paths w xs ctx name Hname) as H; unfold wp in H; unfold run in *;
      destruct (command w xs (State ctx [])) as [r s]; cbn [fst snd] in *
  end.

(** ** Failure statuses (C7) *)

(** C7. With [set_context] absent, the moderation command called with
    [None] as first argument stores the usage dictionary under
    ["prev_usage"] and returns -1, without calling the provider.  In
    general the failure status is -1 for the embeddings and the
    moderation command and 1 for the text and the image command:
    whenever one of them returns, it returns 0 with a value under
    [context[set_context]], or its failure status (for the embeddings,
    moderation and image commands with [context[set_context]] as it
    was; for all but the moderation command with a message under
    [{set_context}_error]); and a call without arguments or without a
    key returns the failure status of its command. *)
Theorem failure_statuses (w : world) (args rest : list value)
    (ctx : gmap string value) (name : string) :
  set_name_of ctx = Some name ->
  (ctx !! "set_context" = None ->
     run (mistral_moderations w (VNone :: rest)) ctx
       = (Ok (-1)%Z, State (<["prev_usage" := moderations_usage]> ctx) []))
  /\ (forall z s, run (ai_mistral_embeddings w args) ctx = (Ok z, s) ->
        (z = 0%Z /\ is_Some (context s !! name))
        \/ (z = (-1)%Z
            /\ context s !! name = ctx !! name
            /\ exists msg, context s !! (name +:+ "_error") = Some (VStr msg)))
  /\ (forall z s, run (mistral_moderations w args) ctx = (Ok z, s) ->
        (z = 0%Z /\ is_Some (context s !! name))
        \/ (z = (-1)%Z /\ context s !! name = ctx !! name))
  /\ (forall z s, run (ai_mistral_text w args) ctx = (Ok z, s) ->
        (z = 0%Z /\ is_Some (context s !! name))
        \/ (z = 1%Z /\ exists msg, context s !! (name +:+ "_error") = Some (VStr msg)))
  /\ (forall z s, run (ai_mistral_image_gen w args) ctx = (Ok z, s) ->
        (z = 0%Z /\ is_Some (context s !! name))
        \/ (z = 1%Z
            /\ context s !! name = ctx !! name
            /\ exists msg, context s !! (name +:+ "_error") = Some (VStr msg)))
  /\ (args = [] \/ truthy (api_key_of ctx) = false ->
        fst (run (ai_mistral_embeddings w args) ctx) = Ok (-1)%Z
        /\ fst (run (mistral_moderations w args) ctx) = Ok (-1)%Z
        /\ fst (run (ai_mistral_text w args) ctx) = Ok 1%Z
        /\ fst (run (ai_mistral_image_gen w args) ctx) = Ok 1%Z).
Proof.
  intros Hname. split; [|split; [|split; [|split; [|split]]]].
  - intros Habsent. unfold set_name_of in Hname. rewrite Habsent in Hname.
    simplify_eq. apply wp_run. unfold mistral_moderations.
    eapply wp_def, wp_bind, (wp_get_set_context "prev").
    { unfold set_name_of. by rewrite Habsent. }
    wp_open. wp_steps. reflexivity.
  - outcome embeddings_paths. intros z s' [= -> ->]. destruct H as (_ & _ & H). tauto.
  - outcome moderations_paths. intros z s' [= -> ->]. destruct H as (_ & _ & H). tauto.
  - outcome text_paths. intros z s' [= -> ->]. destruct H as (_ & _ & H). tauto.
  - outcome image_paths. intros z s' [= -> ->]. destruct H as (_ & H). tauto.
  - unfold api_key_of. intros Hfails. repeat split.
    + apply (wp_run_result _ _ (fun r => r = Ok (-1)%Z)). unfold ai_mistral_embeddings.
      destruct Hfails as [-> | Hkey]; [|destruct args as [|arg0 args]]; wp_steps; reflexivity.
    + apply (wp_run_result _ _ (fun r => r = Ok (-1)%Z)). unfold mistral_moderations.
      destruct Hfails as [-> | Hkey]; [|destruct args as [|arg0 args]]; wp_steps; reflexivity.
    + apply (wp_run_result _ _ (fun r => r = Ok 1%Z)). unfold ai_mistral_text.
      destruct Hfails as [-> | Hkey]; [|destruct args as [|arg0 args]]; wp_steps; reflexivity.
    + apply (wp_run_result _ _ (fun r => r = Ok 1%Z)). unfold ai_mistral_image_gen.
      destruct Hfails as [-> | Hkey]; [|destruct args as [|arg0 args]]; wp_steps; reflexivity.
Qed.

(** ** The message list of the text command (C5, C8) *)

Lemma request_messages_text_request ctx messages reasoning_effort :
  request_messages (text_request ctx messages reasoning_effort) = Some messages.
Proof. reflexivity. Qed.

(** The text command on a context that holds a message list: the list
    in the context grows by the user message, one request goes out with
    the grown list, and the list stays in the context unless the result
    is stored under the very same key. *)
Lemma text_with_messages w (ctx : gmap string value) name prompt rest xs :
  set_name_of ctx = Some name ->
  truthy (api_key_of ctx) = true ->
  ctx !! "MISTRAL_MESSAGES" = Some (VList xs) ->
  wp (ai_mistral_text w (prompt :: rest))
     (fun r s =>
        calls s = [EPost (text_request ctx (VList (xs ++ [message "user" prompt]))
                                       (nth 0 rest VNone))]
        /\ (context s !! "MISTRAL_MESSAGES" = Some (VList (xs ++ [message "user" prompt]))
            \/ (r = Ok 0%Z /\ name = "MISTRAL_MESSAGES")))
     (State ctx []).
Proof.
  unfold api_key_of. intros Hname Hkey Hmessages. unfold ai_mistral_text.
  wp_steps.
  all: cbn [calls context]; split.
  all: try (unfold text_request, text_payload, api_key_of;
            repeat match goal with H : _ !! _ = _ |- _ => rewrite H end;
            reflexivity).
  all: try (left; rewrite ?lookup_insert_ne by apply error_key_not_messages;
            apply lookup_insert_eq).
  all: lazymatch goal with
       | |- context [<[?k := _]> _ !! _] => destruct (decide (k = "MISTRAL_MESSAGES"))
       end; [right; done|].
  all: left; rewrite lookup_insert_ne by done; apply lookup_insert_eq.
Qed.

(** With an entry that is not a list, [messages.append] raises before
    anything is sent or written. *)
Lemma text_with_other_messages w (ctx : gmap string value) name prompt rest m :
  set_name_of ctx = Some name ->
  truthy (api_key_of ctx) = true ->
  ctx !! "MISTRAL_MESSAGES" = Some m ->
  (forall xs, m <> VList xs) ->
  wp (ai_mistral_text w (prompt :: rest))
     (fun r s => s = State ctx [] /\ exists e, r = Raise e)
     (State ctx []).
Proof.
  unfold api_key_of. intros Hname Hkey Hmessages Hother. unfold ai_mistral_text.
  destruct m; try (by destruct (Hother xs)); wp_steps; eauto.
Qed.

Lemma set_name_of_insert (ctx : gmap string value) k v :
  k <> "set_context" -> set_name_of (<[k := v]> ctx) = set_name_of ctx.
Proof. intros Hk. unfold set_name_of. by rewrite lookup_insert_ne. Qed.

Lemma text_request_system_prompt (ctx : gmap string value) v messages reasoning_effort :
  text_request (<["SYSTEM_PROMPT" := v]> ctx) messages reasoning_effort
  = text_request ctx messages reasoning_effort.
Proof.
  unfold text_request, text_payload, api_key_of.
  by rewrite !lookup_insert_ne.
Qed.

(** C5. When the context holds MISTRAL_MESSAGES (the arguments are not
    empty and the key is there), the one request that goes out carries
    as its message list the stored list followed by the user message
    for [args[0]]; an entry that is not a list sends nothing; and the
    value of SYSTEM_PROMPT changes nothing in what is sent. *)
Theorem messages_come_from_context (w : world) (ctx : gmap string value)
    (name : string) (prompt : value) (rest : list value) (m : value) :
  set_name_of ctx = Some name ->
  truthy (api_key_of ctx) = true ->
  ctx !! "MISTRAL_MESSAGES" = Some m ->
  (forall xs, m = VList xs ->
     exists req,
       calls (snd (run (ai_mistral_text w (prompt :: rest)) ctx)) = [EPost req]
       /\ request_messages req = Some (VList (xs ++ [message "user" prompt])))
  /\ ((forall xs, m <> VList xs) ->
      calls (snd (run (ai_mistral_text w (prompt :: rest)) ctx)) = [])
  /\ (forall system_prompt,
      calls (snd (run (ai_mistral_text w (prompt :: rest))
                      (<["SYSTEM_PROMPT" := system_prompt]> ctx)))
      = calls (snd (run (ai_mistral_text w (prompt :: rest)) ctx))).
Proof.
  intros Hname Hkey Hmessages.
  assert (Hlist : forall c xs, set_name_of c = Some name -> truthy (api_key_of c) = true ->
            c !! "MISTRAL_MESSAGES" = Some (VList xs) ->
            calls (snd (run (ai_mistral_text w (prompt :: rest)) c))
            = [EPost (text_request c (VList (xs ++ [message "user" prompt]))
                                   (nth 0 rest VNone))]).
  { intros c xs H1 H2 H3.
    apply (wp_run_both _ _ (fun _ s => calls s = _)).
    eapply (text_with_messages w c name prompt rest xs H1 H2 H3). }
  assert (Hother : forall c, set_name_of c = Some name -> truthy (api_key_of c) = true ->
            c !! "MISTRAL_MESSAGES" = Some m -> (forall xs, m <> VList xs) ->
            calls (snd (run (ai_mistral_text w (prompt :: rest)) c)) = []).
  { intros c H1 H2 H3 H4.
    apply (wp_run_both _ _ (fun _ s => calls s = [])).
    pose proof (text_with_other_messages w c name prompt rest m H1 H2 H3 H4) as H.
    unfold wp in *. destruct H as [-> _]. reflexivity. }
  split; [|split].
  - intros xs ->. eexists. split; [by apply Hlist|].
    apply request_messages_text_request.
  - by apply Hother.
  - intros system_prompt.
    assert (H1 : set_name_of (<["SYSTEM_PROMPT" := system_prompt]> ctx) = Some name)
      by (by rewrite set_name_of_insert).
    assert (H2 : truthy (api_key_of (<["SYSTEM_PROMPT" := system_prompt]> ctx)) = true)
      by (unfold api_key_of in *; by rewrite lookup_insert_ne).
    assert (H3 : <["SYSTEM_PROMPT" := system_prompt]> ctx !! "MISTRAL_MESSAGES" = Some m)
      by (by rewrite lookup_insert_ne).
    destruct m.
    7: { rewrite (Hother _ H1 H2 H3), (Hother _ Hname Hkey Hmessages); done. }
    6: { rewrite (Hlist _ _ H1 H2 H3), (Hlist _ _ Hname Hkey Hmessages).
         by rewrite text_request_system_prompt. }
    all: rewrite (Hother _ H1 H2 H3), (Hother _ Hname Hkey Hmessages); done.
Qed.

Lemma messages_come_from_context_witness :
  set_name_of with_messages = Some "prev"
  /\ truthy (api_key_of with_messages) = true
  /\ with_messages !! "MISTRAL_MESSAGES" = Some (VList [message "system" (VStr "Be brief.")])
  /\ exists req,
       calls (snd (run (ai_mistral_text (answering (inr (completion "Hi"))) [VStr "Hello"])
                       with_messages)) = [EPost req]
       /\ request_messages req
          = Some (VList ([message "system" (VStr "Be brief.")] ++ [message "user" (VStr "Hello")])).
Proof.
  assert (H1 : set_name_of with_messages = Some "prev") by (vm_compute; reflexivity).
  assert (H2 : truthy (api_key_of with_messages) = true) by (vm_compute; reflexivity).
  assert (H3 : with_messages !! "MISTRAL_MESSAGES"
               = Some (VList [message "system" (VStr "Be brief.")]))
    by (vm_compute; reflexivity).
  split; [exact H1|]. split; [exact H2|]. split; [exact H3|].
  destruct (messages_come_from_context (answering (inr (completion "Hi"))) with_messages
              "prev" (VStr "Hello") [] _ H1 H2 H3) as [H _].
  exact (H _ eq_refl).
Defined.

(** C8, as it holds.  When the context holds a list under
    MISTRAL_MESSAGES (the arguments are not empty and the key is
    there), after the call, whatever the provider answered, the entry
    is that list with the user message for [args[0]] appended, unless
    [set_context] is "MISTRAL_MESSAGES" itself and the call returned 0:
    then the result has been stored over the list. *)
Theorem messages_entry_grows (w : world) (ctx : gmap string value)
    (name : string) (prompt : value) (rest xs : list value) :
  set_name_of ctx = Some name ->
  truthy (api_key_of ctx) = true ->
  ctx !! "MISTRAL_MESSAGES" = Some (VList xs) ->
  name <> "MISTRAL_MESSAGES" \/ fst (run (ai_mistral_text w (prompt :: rest)) ctx) <> Ok 0%Z ->
  context (snd (run (ai_mistral_text w (prompt :: rest)) ctx)) !! "MISTRAL_MESSAGES"
  = Some (VList (xs ++ [message "user" prompt])).
Proof.
  intros Hname Hkey Hmessages Hunless.
  pose proof (text_with_messages w ctx name prompt rest xs Hname Hkey Hmessages) as H.
  unfold wp in H. destruct H as [_ [H | [Hok Hsame]]]; [exact H|].
  destruct Hunless as [Hne | Hne]; contradiction.
Qed.

Lemma messages_entry_grows_witness :
  set_name_of with_messages = Some "prev"
  /\ truthy (api_key_of with_messages) = true
  /\ with_messages !! "MISTRAL_MESSAGES" = Some (VList [message "system" (VStr "Be brief.")])
  /\ context (snd (run (ai_mistral_text (answering (inl "connection refused")) [VStr "Hello"])
                       with_messages)) !! "MISTRAL_MESSAGES"
     = Some (VList ([message "system" (VStr "Be brief.")] ++ [message "user" (VStr "Hello")])).
Proof.
  assert (H1 : set_name_of with_messages = Some "prev") by (vm_compute; reflexivity).
  assert (H2 : truthy (api_key_of with_messages) = true) by (vm_compute; reflexivity).
  assert (H3 : with_messages !! "MISTRAL_MESSAGES"
               = Some (VList [message "system" (VStr "Be brief.")]))
    by (vm_compute; reflexivity).
  split; [exact H1|]. split; [exact H2|]. split; [exact H3|].
  apply (messages_entry_grows (answering (inl "connection refused")) with_messages
           "prev" (VStr "Hello") [] _ H1 H2 H3).
  left. discriminate.
Defined.

(** C8, as it is written, fails when the result goes under the key of
    the message list: after a successful call the entry is the text of
    the answer, not the list. *)
Lemma messages_entry_overwritten :
  set_name_of result_over_messages = Some "MISTRAL_MESSAGES"
  /\ truthy (api_key_of result_over_messages) = true
  /\ result_over_messages !! "MISTRAL_MESSAGES"
     = Some (VList [message "system" (VStr "Be brief.")])
  /\ run (ai_mistral_text (answering (inr (completion "Hi"))) [VStr "Hello"])
         result_over_messages
     = (Ok 0%Z,
        State (<["MISTRAL_MESSAGES" := VStr "Hi"]> result_over_messages)
              [EPost (text_request result_over_messages
                        (VList [message "system" (VStr "Be brief."); message "user" (VStr "Hello")])
                        VNone)])
  /\ context (snd (run (ai_mistral_text (answering (inr (completion "Hi"))) [VStr "Hello"])
                       result_over_messages)) !! "MISTRAL_MESSAGES"
     <> Some (VList ([message "system" (VStr "Be brief.")] ++ [message "user" (VStr "Hello")])).
Proof.
  split; [vm_compute; reflexivity|]. split; [vm_compute; reflexivity|].
  split; [vm_compute; reflexivity|]. split; [vm_compute; reflexivity|].
  vm_compute. discriminate.
Qed.

(** ** A response that does not decode (C1) *)

(** C1 does not hold for the text command: [response.json()] and the
    walk through the decoded object stand outside any [try].  When the
    provider answers 200 with a body that is no JSON, the text command
    ends in the decoder's exception and stores nothing, where the
    embeddings and moderation commands, on the same answer, store a
    message under [{set_context}_error] and return -1. *)
Theorem undecodable_answer (w : world) (ctx : gmap string value) (name : string)
    (prompt : value) (rest : list value) (r : response) (msg : string) :
  set_name_of ctx = Some name ->
  truthy (api_key_of ctx) = true ->
  ctx !! "MISTRAL_MESSAGES" = None ->
  prompt <> VNone ->
  (forall req, requests_post w req = inr r) ->
  status_code r = 200%Z ->
  json r = inl msg ->
  (fst (run (ai_mistral_text w (prompt :: rest)) ctx) = Raise (Exn JSONDecodeError msg)
   /\ context (snd (run (ai_mistral_text w (prompt :: rest)) ctx)) = ctx)
  /\ (fst (run (ai_mistral_embeddings w (prompt :: rest)) ctx) = Ok (-1)%Z
      /\ context (snd (run (ai_mistral_embeddings w (prompt :: rest)) ctx))
         = <[name +:+ "_error" := VStr ("Error parsing response: " +:+ msg)]> ctx)
  /\ (fst (run (mistral_moderations w (prompt :: rest)) ctx) = Ok (-1)%Z
      /\ context (snd (run (mistral_moderations w (prompt :: rest)) ctx))
         = <[name +:+ "_error" := VStr ("Error parsing response: " +:+ msg)]> ctx).
Proof.
  unfold api_key_of. intros Hname Hkey Hmessages Hprompt Hpost Hstatus Hjson.
  split; [|split].
  - apply (wp_run_both _ _ (fun r s => r = _ /\ context s = _)).
    unfold ai_mistral_text. wp_steps; done.
  - apply (wp_run_both _ _ (fun r s => r = _ /\ context s = _)).
    unfold ai_mistral_embeddings. destruct prompt; try done; wp_steps; done.
  - apply (wp_run_both _ _ (fun r s => r = _ /\ context s = _)).
    unfold mistral_moderations. destruct prompt; try done; wp_steps; done.
Qed.

(** The same happens further down the walk: a decoded answer with an
    empty [choices] ends the text command in an [IndexError]. *)
Lemma empty_choices_raise :
  run (ai_mistral_text
         (answering (inr (Response 200 "(body)" (inr (VDict [("choices", VList [])])))))
         [VStr "Hello"]) with_key
  = (Raise (Exn IndexError "list index out of range"),
     State with_key [EPost (text_request with_key (VList [message "user" (VStr "Hello")]) VNone)]).
Proof. vm_compute. reflexivity. Qed.

Lemma undecodable_answer_witness :
  set_name_of with_key = Some "prev"
  /\ truthy (api_key_of with_key) = true
  /\ fst (run (ai_mistral_text
                 (answering (inr (Response 200 "<html>" (inl "Expecting value: line 1 column 1 (char 0)"))))
                 [VStr "Hello"]) with_key)
     = Raise (Exn JSONDecodeError "Expecting value: line 1 column 1 (char 0)")
  /\ context (snd (run (ai_mistral_text
                 (answering (inr (Response 200 "<html>" (inl "Expecting value: line 1 column 1 (char 0)"))))
                 [VStr "Hello"]) with_key))
     = with_key.
Proof.
  assert (H1 : set_name_of with_key = Some "prev") by (vm_compute; reflexivity).
  assert (H2 : truthy (api_key_of with_key) = true) by (vm_compute; reflexivity).
  split; [exact H1|]. split; [exact H2|].
  refine (proj1 (undecodable_answer
                   (answering (inr (Response 200 "<html>" (inl "Expecting value: line 1 column 1 (char 0)"))))
                   with_key "prev" (VStr "Hello") []
                   (Response 200 "<html>" (inl "Expecting value: line 1 column 1 (char 0)"))
                   "Expecting value: line 1 column 1 (char 0)"
                   H1 H2 _ _ _ _ _)).
  - vm_compute; reflexivity.
  - discriminate.
  - reflexivity.
  - reflexivity.
  - reflexivity.
Defined.

(** ** What the embeddings command stores (C4, C10) *)

Lemma wp_comprehension_dicts k d (dicts : list (list (string * value)))
    (Q : result (list value) -> state -> Prop) s :
  Q (Ok (map (fun kv => default d (assoc k kv)) dicts)) s ->
  wp (comprehension (fun item => py_get item k d) (map VDict dicts)) Q s.
Proof. unfold wp. rewrite comprehension_get_dicts. exact id. Qed.

(** The embeddings command on a 200 answer whose [data] is a list of
    dictionaries. *)
Lemma embeddings_on_dicts w (ctx : gmap string value) name arg0 rest r kv
    (items : list (list (string * value))) :
  set_name_of ctx = Some name ->
  truthy (api_key_of ctx) = true ->
  arg0 <> VNone ->
  requests_post w (embeddings_request ctx arg0) = inr r ->
  status_code r = 200%Z ->
  json r = inr (VDict kv) ->
  default (VList []) (assoc "data" kv) = VList (map VDict items) ->
  run (ai_mistral_embeddings w (arg0 :: rest)) ctx
  = (Ok 0%Z,
     State (<[name := match items with
                      | [item] => if isinstance_str arg0 then embedding_of item
                                  else VList [embedding_of item]
                      | _ => VList (map embedding_of items)
                      end]> ctx)
           [EPost (embeddings_request ctx arg0)]).
Proof.
  unfold embeddings_request, api_key_of.
  intros Hname Hkey Harg Hpost Hstatus Hjson Hdata.
  apply wp_run. unfold ai_mistral_embeddings.
  assert (His : is_None arg0 = false) by (by destruct arg0).
  wp_steps.
  apply wp_comprehension_dicts. wp_open.
  destruct items as [|item [|item' items]]; cbn [map length].
  - rewrite bool_decide_eq_false_2 by done. wp_steps. reflexivity.
  - rewrite bool_decide_eq_true_2 by done. destruct arg0; try done; wp_steps; reflexivity.
  - rewrite bool_decide_eq_false_2 by done. wp_steps. reflexivity.
Qed.

(** C4. The embeddings command, called with a string and answered 200
    with a [data] list of embedding objects: one object stores its
    vector itself under [context[set_context]], more than one store the
    list of all the vectors, in the order of [data]; the command
    returns 0. *)
Theorem single_embedding_is_unwrapped (w : world) (ctx : gmap string value)
    (name input : string) (rest : list value) (r : response)
    (kv : list (string * value)) (items : list (list (string * value))) :
  set_name_of ctx = Some name ->
  truthy (api_key_of ctx) = true ->
  requests_post w (embeddings_request ctx (VStr input)) = inr r ->
  status_code r = 200%Z ->
  json r = inr (VDict kv) ->
  assoc "data" kv = Some (VList (map VDict items)) ->
  (forall item vec,
      items = [item] -> assoc "embedding" item = Some vec ->
      run (ai_mistral_embeddings w (VStr input :: rest)) ctx
      = (Ok 0%Z, State (<[name := vec]> ctx) [EPost (embeddings_request ctx (VStr input))]))
  /\ ((1 < length items)%nat ->
      run (ai_mistral_embeddings w (VStr input :: rest)) ctx
      = (Ok 0%Z, State (<[name := VList (map embedding_of items)]> ctx)
                       [EPost (embeddings_request ctx (VStr input))])).
Proof.
  intros Hname Hkey Hpost Hstatus Hjson Hdata.
  assert (Hdefault : default (VList []) (assoc "data" kv) = VList (map VDict items))
    by (by rewrite Hdata).
  pose proof (embeddings_on_dicts w ctx name (VStr input) rest r kv items
                Hname Hkey ltac:(discriminate) Hpost Hstatus Hjson Hdefault) as Hrun.
  split.
  - intros item vec -> Hvec. rewrite Hrun. cbn [isinstance_str].
    unfold embedding_of. by rewrite Hvec.
  - intros Hmany. rewrite Hrun.
    destruct items as [|item [|item' items]]; cbn [length] in Hmany; [lia | lia | reflexivity].
Qed.

Lemma single_embedding_is_unwrapped_witness :
  set_name_of with_key = Some "prev"
  /\ truthy (api_key_of with_key) = true
  /\ run (ai_mistral_embeddings (answering (inr (embedded [VDict (vector 0.1 0.2)]))) [VStr "cat"])
         with_key
     = (Ok 0%Z,
        State (<["prev" := VList [VFloat 0.1; VFloat 0.2]]> with_key)
              [EPost (embeddings_request with_key (VStr "cat"))]).
Proof.
  assert (H1 : set_name_of with_key = Some "prev") by (vm_compute; reflexivity).
  assert (H2 : truthy (api_key_of with_key) = true) by (vm_compute; reflexivity).
  split; [exact H1|]. split; [exact H2|].
  refine (proj1 (single_embedding_is_unwrapped
                   (answering (inr (embedded [VDict (vector 0.1 0.2)]))) with_key
                   "prev" "cat" [] (embedded [VDict (vector 0.1 0.2)]) _ [vector 0.1 0.2]
                   H1 H2 eq_refl eq_refl eq_refl eq_refl)
                _ _ eq_refl eq_refl).
Defined.

(** C10. The embeddings command, answered 200 with an object whose
    [data] is the empty list or is missing, stores the empty list under
    [context[set_context]] and returns 0. *)
Theorem empty_data_is_success (w : world) (ctx : gmap string value)
    (name : string) (arg0 : value) (rest : list value) (r : response)
    (kv : list (string * value)) :
  set_name_of ctx = Some name ->
  truthy (api_key_of ctx) = true ->
  arg0 <> VNone ->
  requests_post w (embeddings_request ctx arg0) = inr r ->
  status_code r = 200%Z ->
  json r = inr (VDict kv) ->
  assoc "data" kv = Some (VList []) \/ assoc "data" kv = None ->
  run (ai_mistral_embeddings w (arg0 :: rest)) ctx
  = (Ok 0%Z, State (<[name := VList []]> ctx) [EPost (embeddings_request ctx arg0)]).
Proof.
  intros Hname Hkey Harg Hpost Hstatus Hjson Hdata.
  apply (embeddings_on_dicts w ctx name arg0 rest r kv [] Hname Hkey Harg Hpost Hstatus Hjson).
  by destruct Hdata as [-> | ->].
Qed.

Lemma empty_data_is_success_witness :
  set_name_of with_key = Some "prev"
  /\ truthy (api_key_of with_key) = true
  /\ run (ai_mistral_embeddings (answering (inr (Response 200 "{}" (inr (VDict []))))) [VStr "cat"])
         with_key
     = (Ok 0%Z,
        State (<["prev" := VList []]> with_key)
              [EPost (embeddings_request with_key (VStr "cat"))]).
Proof.
  assert (H1 : set_name_of with_key = Some "prev") by (vm_compute; reflexivity).
  assert (H2 : truthy (api_key_of with_key) = true) by (vm_compute; reflexivity).
  split; [exact H1|]. split; [exact H2|].
  apply (empty_data_is_success (answering (inr (Response 200 "{}" (inr (VDict [])))))
           with_key "prev" (VStr "cat") [] (Response 200 "{}" (inr (VDict []))) []
           H1 H2).
  - discriminate.
  - reflexivity.
  - reflexivity.
  - reflexivity.
  - right. reflexivity.
Defined.

(** ** A prompt that is [None] (C9) *)

(** The text command on a context without a message list: one request
    goes out, with the system message, if any, and the user message. *)
Lemma text_without_messages w (ctx : gmap string value) name prompt rest :
  set_name_of ctx = Some name ->
  truthy (api_key_of ctx) = true ->
  ctx !! "MISTRAL_MESSAGES" = None ->
  wp (ai_mistral_text w (prompt :: rest))
     (fun _ s =>
        calls s = [EPost (text_request ctx
                            (VList (system_messages ctx ++ [message "user" prompt]))
                            (nth 0 rest VNone))])
     (State ctx []).
Proof.
  unfold api_key_of. intros Hname Hkey Hmessages. unfold ai_mistral_text.
  wp_steps.
  all: cbn [calls]; unfold text_request, text_payload, api_key_of, system_messages.
  all: repeat match goal with H : _ = _ |- _ => rewrite H end; reflexivity.
Qed.

(** C9. The text command checks only that there is an argument: with
    [None] as prompt (and a key) it posts a request whose user message
    has content [None].  The embeddings and the moderation commands
    refuse a [None] first argument before any call. *)
Theorem none_prompt_is_posted (w : world) (ctx : gmap string value)
    (name : string) (rest : list value) :
  set_name_of ctx = Some name ->
  truthy (api_key_of ctx) = true ->
  ctx !! "MISTRAL_MESSAGES" = None ->
  calls (snd (run (ai_mistral_text w (VNone :: rest)) ctx))
  = [EPost (text_request ctx (VList (system_messages ctx ++ [message "user" VNone]))
                         (nth 0 rest VNone))]
  /\ run (ai_mistral_embeddings w (VNone :: rest)) ctx
     = (Ok (-1)%Z,
        State (<[name +:+ "_error" := VStr "Usage: ai_mistral_embeddings <text>"]> ctx) [])
  /\ run (mistral_moderations w (VNone :: rest)) ctx
     = (Ok (-1)%Z, State (<[name +:+ "_usage" := moderations_usage]> ctx) []).
Proof.
  intros Hname Hkey Hmessages. split; [|split].
  - apply (wp_run_both _ _ (fun _ s => calls s = _)).
    by apply (text_without_messages w ctx name VNone rest).
  - apply wp_run. unfold ai_mistral_embeddings. wp_steps. reflexivity.
  - apply wp_run. unfold mistral_moderations. wp_steps. reflexivity.
Qed.

Lemma none_prompt_is_posted_witness :
  set_name_of with_key = Some "prev"
  /\ truthy (api_key_of with_key) = true
  /\ with_key !! "MISTRAL_MESSAGES" = None
  /\ calls (snd (run (ai_mistral_text (answering (inr (completion "Hi"))) [VNone]) with_key))
     = [EPost (text_request with_key (VList [message "user" VNone]) VNone)].
Proof.
  assert (H1 : set_name_of with_key = Some "prev") by (vm_compute; reflexivity).
  assert (H2 : truthy (api_key_of with_key) = true) by (vm_compute; reflexivity).
  assert (H3 : with_key !! "MISTRAL_MESSAGES" = None) by (vm_compute; reflexivity).
  split; [exact H1|]. split; [exact H2|]. split; [exact H3|].
  exact (proj1 (none_prompt_is_posted (answering (inr (completion "Hi"))) with_key
                  "prev" [] H1 H2 H3)).
Defined.

(** ** The files of the image command (C6) *)

Lemma written_paths_app (a b : list event) :
  written_paths (a ++ b) = written_paths a ++ written_paths b.
Proof. apply omap_app. Qed.

Lemma written_paths_download t file_id :
  written_paths (t ++ [EDownload file_id]) = written_paths t.
Proof. rewrite written_paths_app. apply app_nil_r. Qed.

Lemma written_paths_write t path bytes :
  written_paths (t ++ [EWriteFile path bytes]) = written_paths t ++ [path].
Proof. by rewrite written_paths_app. Qed.

(** The loop saves, in the order of the content, the files of some of
    the file chunks (those whose download is not empty), and each saved
    path is a written file. *)
Lemma wp_save_chunks_files w d uid chunks (Q : result (list string) -> state -> Prop) c :
  forall i saved t,
  (forall js t',
      sublist js (file_indices i chunks) ->
      written_paths t' = written_paths t ++ map (image_path d uid) js ->
      Q (Ok (saved ++ map (image_path d uid) js)) (State c t')) ->
  (forall e t', Q (Raise e) (State c t')) ->
  wp (save_chunks w (VStr d) uid i chunks saved) Q (State c t).
Proof.
  induction chunks as [|chunk rest IH]; intros i saved t Hok Hraise;
    cbn [save_chunks file_indices] in *.
  - apply wp_ret. specialize (Hok [] t). cbn [map] in Hok. rewrite !app_nil_r in Hok.
    apply Hok; [constructor | reflexivity].
  - apply wp_bind. destruct chunk as [file_id|].
    + wp_steps; try apply Hraise.
      * apply IH; [|exact Hraise]. intros js t' Hsub Hwritten.
        specialize (Hok (i :: js) t'). cbn [map] in Hok.
        rewrite <- app_assoc. apply Hok; [by constructor|].
        rewrite Hwritten, written_paths_write, written_paths_download, <- app_assoc.
        reflexivity.
      * apply IH; [|exact Hraise]. intros js t' Hsub Hwritten.
        apply Hok; [by constructor|].
        by rewrite Hwritten, written_paths_download.
    + wp_steps. apply IH; [|exact Hraise]. intros js t' Hsub Hwritten.
      apply Hok; assumption.
Qed.

(** A content without file chunks: the loop does nothing. *)
Lemma save_chunks_no_files w dir uid chunks :
  forall i saved s,
  file_indices i chunks = [] ->
  save_chunks w dir uid i chunks saved s = (Ok saved, s).
Proof.
  induction chunks as [|chunk rest IH]; intros i saved s Hnone; cbn [save_chunks].
  - reflexivity.
  - destruct chunk as [file_id|]; cbn [file_indices] in Hnone; [discriminate|].
    unfold bind at 1. cbn [ret]. by apply IH.
Qed.

(** When every download has bytes and every write goes through, the
    loop saves the file of every file chunk. *)
Lemma wp_save_chunks_all w d uid chunks (Q : result (list string) -> state -> Prop) c :
  (forall h file_id, exists bytes, files_download w h file_id = inr bytes /\ bytes <> "") ->
  (forall h path bytes, write_file w h path bytes = None) ->
  forall i saved t,
  (forall t', Q (Ok (saved ++ map (image_path d uid) (file_indices i chunks))) (State c t')) ->
  wp (save_chunks w (VStr d) uid i chunks saved) Q (State c t).
Proof.
  intros Hdownload Hwrite.
  induction chunks as [|chunk rest IH]; intros i saved t Hok;
    cbn [save_chunks file_indices map] in *.
  - apply wp_ret. rewrite app_nil_r in Hok. apply Hok.
  - apply wp_bind. destruct chunk as [file_id|].
    + destruct (Hdownload t file_id) as (bytes & Hbytes & Hfull).
      assert (Htest : bool_decide (bytes = "") = false) by (by apply bool_decide_eq_false).
      wp_steps.
      apply IH. intros t'. rewrite <- app_assoc. apply Hok.
    + wp_steps. apply IH. exact Hok.
Qed.

Lemma wp_run_ok (command : M Z) (ctx : gmap string value) (z : Z) (P : state -> Prop) :
  wp command (fun r s => r = Ok z -> P s) (State ctx []) ->
  forall s', run command ctx = (Ok z, s') -> P s'.
Proof. unfold wp, run. intros H s' Hrun. rewrite Hrun in H. by apply H. Qed.

(** A string content has no file chunk. *)
Lemma file_indices_characters {A} (l : list A) i :
  file_indices i (map (fun _ => OtherChunk) l) = [].
Proof. revert i. induction l as [|x l IH]; intros i; cbn; [reflexivity | apply IH]. Qed.

(** C6. The image command with a key that is a string, once the agent
    has answered.  If it returns 0, the last entry of the answer is a
    message of chunks, the files it wrote are those of some of the file
    chunks, in the order of the content, the first of their paths is
    under [context[set_context]] and the list of all of them under
    [context[set_context + "_all"]].
    If the answer holds no file chunk, it returns 1 with a message
    under [{set_context}_error].  If it holds some, every download has
    bytes and every write goes through, it returns 0 with the files of
    all the file chunks. *)
Theorem generated_files_are_stored (w : world) (ctx : gmap string value)
    (name : string) (prompt : value) (rest : list value)
    (key dir agent : string) (outputs : list entry) :
  set_name_of ctx = Some name ->
  truthy prompt = true ->
  api_key_of ctx = VStr key ->
  key <> "" ->
  default (VStr "output") (ctx !! "output_dir") = VStr dir ->
  os_makedirs w [] dir = None ->
  agents_create w [EMakedirs dir] (api_key_of ctx) (image_model ctx) = inr agent ->
  conversations_start w [EMakedirs dir; EAgentCreate (api_key_of ctx) (image_model ctx); ESleep 2]
                      agent prompt = inr outputs ->
  (forall s',
      run (ai_mistral_image_gen w (prompt :: rest)) ctx = (Ok 0%Z, s') ->
      exists content first others,
        last outputs = Some (MessageChunks content)
        /\ sublist (first :: others) (file_indices 0 content)
        /\ written_paths (calls s') = map (image_path dir (uuid4 w)) (first :: others)
        /\ context s' !! name = Some (VStr (image_path dir (uuid4 w) first))
        /\ context s' !! (name +:+ "_all")
           = Some (VList (map VStr (map (image_path dir (uuid4 w)) (first :: others)))))
  /\ ((forall content,
         last outputs = Some (MessageChunks content) -> file_indices 0 content = []) ->
      fst (run (ai_mistral_image_gen w (prompt :: rest)) ctx) = Ok 1%Z
      /\ exists msg,
           msg <> ""
           /\ snd (run (ai_mistral_image_gen w (prompt :: rest)) ctx)
              = State (<[name +:+ "_error" := VStr msg]> ctx)
                      (conversation_calls ctx dir agent prompt))
  /\ (forall content first others,
      last outputs = Some (MessageChunks content) ->
      file_indices 0 content = first :: others ->
      (forall h file_id, exists bytes, files_download w h file_id = inr bytes /\ bytes <> "") ->
      (forall h path bytes, write_file w h path bytes = None) ->
      fst (run (ai_mistral_image_gen w (prompt :: rest)) ctx) = Ok 0%Z
      /\ context (snd (run (ai_mistral_image_gen w (prompt :: rest)) ctx))
         = <[name +:+ "_all" :=
               VList (map VStr (map (image_path dir (uuid4 w)) (first :: others)))]>
             (<[name := VStr (image_path dir (uuid4 w) first)]> ctx)).
Proof.
  unfold conversation_calls, api_key_of, image_model.
  intros Hname Hprompt Hkey Hfull Hdir Hmakedirs Hagent Hconversation.
  rewrite Hkey in Hagent, Hconversation |- *.
  assert (Htruthy : truthy (default VNone (ctx !! "MISTRAL_API_KEY")) = true)
    by (rewrite Hkey; by destruct key).
  split; [|split].
  - apply wp_run_ok. unfold ai_mistral_image_gen. wp_steps.
    all: try discriminate.
    all: apply wp_save_chunks_files; intros; wp_open; wp_steps.
    all: try discriminate.
    all: intros _; destruct js as [|first others]; [done|].
    + rewrite file_indices_characters in H. apply sublist_nil_r in H. discriminate.
    + cbn [app map] in *. change ((?x :: ?l) !! 0%nat) with (Some x) in *. simplify_eq.
      exists content, first, others. cbn [calls context]. repeat split.
      * assumption.
      * assumption.
      * rewrite lookup_insert_ne by apply all_key_fresh. apply lookup_insert_eq.
      * apply lookup_insert_eq.
  - intros Hnone.
    apply (wp_run_both _ _ (fun r s => r = Ok 1%Z /\ exists msg, msg <> "" /\ s = _)).
    unfold ai_mistral_image_gen. wp_steps.
    1: unfold wp; rewrite save_chunks_no_files by apply file_indices_characters;
       cbn [fst snd]; wp_open; wp_steps.
    2: unfold wp; rewrite save_chunks_no_files by (by apply Hnone);
       cbn [fst snd]; wp_open; wp_steps.
    all: split; [reflexivity|]; eexists; (split; [|reflexivity]); cbn; discriminate.
  - intros content first others Hlast Hfiles Hdownload Hwrite.
    apply (wp_run_both _ _ (fun r s => r = Ok 0%Z /\ context s = _)).
    unfold ai_mistral_image_gen. wp_steps.
    apply wp_save_chunks_all; [assumption | assumption |]. intros t'. wp_open.
    rewrite Hfiles. cbn [app map]. wp_steps. done.
Qed.

Lemma generated_files_are_stored_witness :
  set_name_of with_key = Some "prev"
  /\ truthy (VStr "a cat") = true
  /\ api_key_of with_key = VStr "sk"
  /\ default (VStr "output") (with_key !! "output_dir") = VStr "output"
  /\ fst (run (ai_mistral_image_gen (answering (inl "unused")) [VStr "a cat"]) with_key)
     = Ok 0%Z
  /\ context (snd (run (ai_mistral_image_gen (answering (inl "unused")) [VStr "a cat"]) with_key))
     = <["prev_all" := VList [VStr "output/0b5e_1.png"; VStr "output/0b5e_2.png"]]>
         (<["prev" := VStr "output/0b5e_1.png"]> with_key).
Proof.
  assert (H1 : set_name_of with_key = Some "prev") by (vm_compute; reflexivity).
  assert (H2 : api_key_of with_key = VStr "sk") by (vm_compute; reflexivity).
  assert (H3 : default (VStr "output") (with_key !! "output_dir") = VStr "output")
    by (vm_compute; reflexivity).
  assert (H4 : "sk" <> "") by discriminate.
  split; [exact H1|]. split; [reflexivity|]. split; [exact H2|]. split; [exact H3|].
  destruct (generated_files_are_stored (answering (inl "unused")) with_key "prev"
              (VStr "a cat") [] "sk" "output" "ag_1"
              [MessageChunks [OtherChunk; ToolFileChunk "file_a"; ToolFileChunk "file_b"]]
              H1 eq_refl H2 H4 H3 eq_refl eq_refl eq_refl) as (_ & _ & Hall).
  apply (Hall [OtherChunk; ToolFileChunk "file_a"; ToolFileChunk "file_b"] 1%nat [2%nat]
              eq_refl eq_refl).
  - intros h file_id. exists "PNG". split; [reflexivity | discriminate].
  - intros h path bytes. reflexivity.
Defined.

Lemma missing_api_key_is_reported_witness :
  set_name_of ∅ = Some "prev"
  /\ truthy (api_key_of ∅) = false
  /\ exists msg,
       run (ai_mistral_text (answering (inl "unused")) [VStr "Hello"]) ∅
       = (Ok 1%Z, State (<["prev_error" := VStr msg]> ∅) [])
       /\ mentions "MISTRAL_API_KEY" msg.
Proof.
  assert (H1 : set_name_of ∅ = Some "prev") by (vm_compute; reflexivity).
  assert (H2 : truthy (api_key_of ∅) = false) by (vm_compute; reflexivity).
  split; [exact H1|]. split; [exact H2|].
  exact (proj1 (missing_api_key_is_reported (answering (inl "unused")) ∅ "prev"
                  (VStr "Hello") [] H1 H2)).
Defined.

Lemma failure_statuses_witness :
  set_name_of ∅ = Some "prev"
  /\ (∅ : gmap string value) !! "set_context" = None
  /\ run (mistral_moderations (answering (inl "unused")) [VNone]) ∅
     = (Ok (-1)%Z, State (<["prev_usage" := moderations_usage]> ∅) []).
Proof.
  assert (H1 : set_name_of ∅ = Some "prev") by (vm_compute; reflexivity).
  split; [exact H1|]. split; [reflexivity|].
  exact (proj1 (failure_statuses (answering (inl "unused")) [] [] ∅ "prev" H1) eq_refl).
Defined.

(** * Beyond the contract: every path, every answer, the scripts *)

(** ** What every path leaves behind *)

(** X1. What a status says about the context.  Whenever the text, the
    embeddings or the image command returns, it returns 0 with a value
    under [context[set_context]] (the image command also with one under
    [{set_context}_all]), or its failure status with a string under
    [{set_context}_error].  The moderation command returns 0 with a
    value under [context[set_context]], or -1 with either a string
    under [{set_context}_error] or its usage under [{set_context}_usage]
    and the error entry as it was. *)
Theorem status_tells_what_was_written (w : world) (args : list value)
    (ctx : gmap string value) (name : string) :
  set_name_of ctx = Some name ->
  (forall z s, run (ai_mistral_text w args) ctx = (Ok z, s) ->
     (z = 0%Z /\ is_Some (context s !! name))
     \/ (z = 1%Z /\ exists msg, context s !! (name +:+ "_error") = Some (VStr msg)))
  /\ (forall z s, run (ai_mistral_embeddings w args) ctx = (Ok z, s) ->
     (z = 0%Z /\ is_Some (context s !! name))
     \/ (z = (-1)%Z /\ exists msg, context s !! (name +:+ "_error") = Some (VStr msg)))
  /\ (forall z s, run (ai_mistral_image_gen w args) ctx = (Ok z, s) ->
     (z = 0%Z /\ is_Some (context s !! name) /\ is_Some (context s !! (name +:+ "_all")))
     \/ (z = 1%Z /\ exists msg, context s !! (name +:+ "_error") = Some (VStr msg)))
  /\ (forall z s, run (mistral_moderations w args) ctx = (Ok z, s) ->
     (z = 0%Z /\ is_Some (context s !! name))
     \/ (z = (-1)%Z
         /\ ((exists msg, context s !! (name +:+ "_error") = Some (VStr msg))
             \/ (context s !! (name +:+ "_usage") = Some moderations_usage
                 /\ context s !! (name +:+ "_error") = ctx !! (name +:+ "_error"))))).
Proof.
  intros Hname. split; [|split; [|split]].
  - outcome text_paths. intros z s' [= -> ->]. destruct H as (_ & _ & H). tauto.
  - outcome embeddings_paths. intros z s' [= -> ->]. destruct H as (_ & _ & H). tauto.
  - outcome image_paths. intros z s' [= -> ->]. destruct H as (_ & H). tauto.
  - outcome moderations_paths. intros z s' [= -> ->]. destruct H as (_ & _ & H). tauto.
Qed.

Lemma status_tells_what_was_written_witness :
  set_name_of ∅ = Some "prev"
  /\ ((1%Z = 0%Z
       /\ is_Some (context (State (<["prev_error" := VStr text_usage]> ∅) []) !! "prev"))
      \/ (1%Z = 1%Z
          /\ exists msg,
               context (State (<["prev_error" := VStr text_usage]> ∅) []) !! ("prev" +:+ "_error")
               = Some (VStr msg))).
Proof.
  assert (H1 : set_name_of ∅ = Some "prev") by (vm_compute; reflexivity).
  split; [exact H1|].
  apply (proj1 (status_tells_what_was_written (answering (inl "unused")) [] ∅ "prev" H1)).
  vm_compute. reflexivity.
Defined.

(** X2. A command leaves every other entry of the context as it was:
    the text command writes at most [set_context], [{set_context}_error]
    and MISTRAL_MESSAGES, the embeddings command [set_context] and
    [{set_context}_error], the moderation command these two and
    [{set_context}_usage], the image command these two and
    [{set_context}_all]. *)
Theorem other_entries_are_kept (w : world) (args : list value)
    (ctx : gmap string value) (name k : string) :
  set_name_of ctx = Some name ->
  k <> name ->
  k <> name +:+ "_error" ->
  (k <> "MISTRAL_MESSAGES" ->
   context (snd (run (ai_mistral_text w args) ctx)) !! k = ctx !! k)
  /\ context (snd (run (ai_mistral_embeddings w args) ctx)) !! k = ctx !! k
  /\ (k <> name +:+ "_usage" ->
      context (snd (run (mistral_moderations w args) ctx)) !! k = ctx !! k)
  /\ (k <> name +:+ "_all" ->
      context (snd (run (ai_mistral_image_gen w args) ctx)) !! k = ctx !! k).
Proof.
  intros Hname Hk Herror. split; [|split; [|split]].
  - outcome text_paths. destruct H as (H & _). auto.
  - outcome embeddings_paths. destruct H as (H & _). auto.
  - outcome moderations_paths. destruct H as (H & _). auto.
  - outcome image_paths. destruct H as (H & _). auto.
Qed.

Lemma other_entries_are_kept_witness :
  set_name_of with_key = Some "prev"
  /\ context (snd (run (ai_mistral_embeddings (answering (inr (embedded []))) [VStr "cat"])
                       with_key)) !! "MISTRAL_API_KEY"
     = with_key !! "MISTRAL_API_KEY".
Proof.
  assert (H1 : set_name_of with_key = Some "prev") by (vm_compute; reflexivity).
  split; [exact H1|].
  refine (proj1 (proj2 (other_entries_are_kept (answering (inr (embedded []))) [VStr "cat"]
                          with_key "prev" "MISTRAL_API_KEY" H1 _ _)));
    discriminate.
Defined.

(** X3. A command that returns a failure status has not written
    [context[set_context]] (for the text command: unless [set_context]
    is "MISTRAL_MESSAGES", the list that the command appends to); the
    image command has not written [{set_context}_all] either. *)
Theorem failure_keeps_the_result (w : world) (args : list value)
    (ctx : gmap string value) (name : string) :
  set_name_of ctx = Some name ->
  (forall z s, run (ai_mistral_text w args) ctx = (Ok z, s) -> z <> 0%Z ->
     name <> "MISTRAL_MESSAGES" -> context s !! name = ctx !! name)
  /\ (forall z s, run (ai_mistral_embeddings w args) ctx = (Ok z, s) -> z <> 0%Z ->
     context s !! name = ctx !! name)
  /\ (forall z s, run (mistral_moderations w args) ctx = (Ok z, s) -> z <> 0%Z ->
     context s !! name = ctx !! name)
  /\ (forall z s, run (ai_mistral_image_gen w args) ctx = (Ok z, s) -> z <> 0%Z ->
     context s !! name = ctx !! name
     /\ context s !! (name +:+ "_all") = ctx !! (name +:+ "_all")).
Proof.
  intros Hname. split; [|split; [|split]].
  - outcome text_paths. intros z s' [= -> ->] Hz. destruct H as (_ & _ & H). tauto.
  - outcome embeddings_paths. intros z s' [= -> ->] Hz. destruct H as (_ & _ & H). tauto.
  - outcome moderations_paths. intros z s' [= -> ->] Hz. destruct H as (_ & _ & H). tauto.
  - outcome image_paths. intros z s' [= -> ->] Hz. destruct H as (_ & H). tauto.
Qed.

Lemma failure_keeps_the_result_witness :
  set_name_of with_result = Some "prev"
  /\ context (State (<["prev_error" := VStr "Request error: timed out"]> with_result)
                    [EPost (embeddings_request with_result (VStr "cat"))]) !! "prev"
     = with_result !! "prev".
Proof.
  assert (H1 : set_name_of with_result = Some "prev") by (vm_compute; reflexivity).
  split; [exact H1|].
  refine (proj1 (proj2 (failure_keeps_the_result (answering (inl "timed out")) [VStr "cat"]
                          with_result "prev" H1)) (-1)%Z _ _ _).
  - vm_compute. reflexivity.
  - discriminate.
Defined.

(** X4. The text, embeddings and moderation commands send nothing or
    exactly one request, and they send one only when there is a first
    argument and the key is truthy.  The request is the one that the
    context and the arguments determine: the endpoint of the command,
    the key as bearer, the model of the context or the default, and
    [args[0]] as input (for the text command [args[1]], or [None], as
    [reasoning_effort]). *)
Theorem at_most_one_request (w : world) (args : list value)
    (ctx : gmap string value) (name : string) :
  set_name_of ctx = Some name ->
  (calls (snd (run (ai_mistral_text w args) ctx)) = []
   \/ (args <> [] /\ truthy (api_key_of ctx) = true
       /\ exists messages,
            calls (snd (run (ai_mistral_text w args) ctx))
            = [EPost (text_request ctx messages (nth 1 args VNone))]))
  /\ (calls (snd (run (ai_mistral_embeddings w args) ctx)) = []
      \/ (nth 0 args VNone <> VNone /\ truthy (api_key_of ctx) = true
          /\ calls (snd (run (ai_mistral_embeddings w args) ctx))
             = [EPost (embeddings_request ctx (nth 0 args VNone))]))
  /\ (calls (snd (run (mistral_moderations w args) ctx)) = []
      \/ (nth 0 args VNone <> VNone /\ truthy (api_key_of ctx) = true
          /\ calls (snd (run (mistral_moderations w args) ctx))
             = [EPost (moderations_request ctx (nth 0 args VNone))])).
Proof.
  intros Hname. split; [|split].
  - outcome text_paths. destruct H as (_ & H & _). exact H.
  - outcome embeddings_paths. destruct H as (_ & H & _). exact H.
  - outcome moderations_paths. destruct H as (_ & H & _). exact H.
Qed.

Lemma at_most_one_request_witness :
  set_name_of with_key = Some "prev"
  /\ (calls (snd (run (mistral_moderations (answering (inl "timed out")) [VStr "text"])
                      with_key)) = []
      \/ (nth 0 [VStr "text"] VNone <> VNone /\ truthy (api_key_of with_key) = true
          /\ calls (snd (run (mistral_moderations (answering (inl "timed out")) [VStr "text"])
                             with_key))
             = [EPost (moderations_request with_key (nth 0 [VStr "text"] VNone))])).
Proof.
  assert (H1 : set_name_of with_key = Some "prev") by (vm_compute; reflexivity).
  split; [exact H1|].
  exact (proj2 (proj2 (at_most_one_request (answering (inl "timed out")) [VStr "text"]
                         with_key "prev" H1))).
Defined.

(** X5. The payload of a request of the text command has
    ["temperature"] exactly when the context has MISTRAL_TEMPERATURE,
    and ["k"] exactly when it has MISTRAL_K, with the values of the
    context; its ["model"] is MISTRAL_MODEL or "mistral-large-latest",
    its ["reasoning_effort"] is [args[1]] or [None]. *)
Theorem optional_fields_follow_the_context (w : world) (args : list value)
    (ctx : gmap string value) (name : string) (req : request) :
  set_name_of ctx = Some name ->
  EPost req ∈ calls (snd (run (ai_mistral_text w args) ctx)) ->
  exists payload,
    req_payload req = VDict payload
    /\ assoc "model" payload
       = Some (default (VStr "mistral-large-latest") (ctx !! "MISTRAL_MODEL"))
    /\ assoc "reasoning_effort" payload = Some (nth 1 args VNone)
    /\ assoc "temperature" payload = ctx !! "MISTRAL_TEMPERATURE"
    /\ assoc "k" payload = ctx !! "MISTRAL_K".
Proof.
  intros Hname. outcome text_paths. destruct H as (_ & [-> | (_ & _ & messages & ->)] & _).
  - intros Hreq. by apply elem_of_nil in Hreq.
  - intros Hreq. apply list_elem_of_singleton in Hreq. injection Hreq as ->.
    eexists. split; [reflexivity|]. unfold text_payload.
    by destruct (ctx !! "MISTRAL_TEMPERATURE"), (ctx !! "MISTRAL_K").
Qed.

Lemma optional_fields_follow_the_context_witness :
  set_name_of with_temperature = Some "prev"
  /\ exists payload,
       req_payload (fresh_text_request with_temperature (VStr "Hello") []) = VDict payload
       /\ assoc "model" payload
          = Some (default (VStr "mistral-large-latest") (with_temperature !! "MISTRAL_MODEL"))
       /\ assoc "reasoning_effort" payload = Some (nth 1 [VStr "Hello"] VNone)
       /\ assoc "temperature" payload = with_temperature !! "MISTRAL_TEMPERATURE"
       /\ assoc "k" payload = with_temperature !! "MISTRAL_K".
Proof.
  assert (H1 : set_name_of with_temperature = Some "prev") by (vm_compute; reflexivity).
  split; [exact H1|].
  apply (optional_fields_follow_the_context (answering (inr (completion "Hi")))
           [VStr "Hello"] with_temperature "prev" _ H1).
  replace (calls (snd (run (ai_mistral_text (answering (inr (completion "Hi"))) [VStr "Hello"])
                           with_temperature)))
    with [EPost (fresh_text_request with_temperature (VStr "Hello") [])]
    by (vm_compute; reflexivity).
  apply list_elem_of_singleton. reflexivity.
Defined.

(** X6. When the text command ends in an exception it has written
    neither [{set_context}_error] nor (unless [set_context] is
    "MISTRAL_MESSAGES") [context[set_context]]; when the image command
    ends in an exception it has written nothing at all. *)
Theorem raising_leaves_no_message (w : world) (args : list value)
    (ctx : gmap string value) (name : string) :
  set_name_of ctx = Some name ->
  (forall e s, run (ai_mistral_text w args) ctx = (Raise e, s) ->
     context s !! (name +:+ "_error") = ctx !! (name +:+ "_error")
     /\ (name <> "MISTRAL_MESSAGES" -> context s !! name = ctx !! name))
  /\ (forall e s, run (ai_mistral_image_gen w args) ctx = (Raise e, s) -> context s = ctx).
Proof.
  intros Hname. split.
  - outcome text_paths. intros e s' [= -> ->]. destruct H as (_ & _ & H). exact H.
  - outcome image_paths. intros e s' [= -> ->]. destruct H as (_ & H). exact H.
Qed.

Lemma raising_leaves_no_message_witness :
  set_name_of with_key = Some "prev"
  /\ context (State with_key [EPost (fresh_text_request with_key (VStr "Hello") [])])
       !! ("prev" +:+ "_error")
     = with_key !! ("prev" +:+ "_error").
Proof.
  assert (H1 : set_name_of with_key = Some "prev") by (vm_compute; reflexivity).
  split; [exact H1|].
  refine (proj1 (proj1 (raising_leaves_no_message
                          (answering (inr (Response 200 "<html>" (inl "Expecting value"))))
                          [VStr "Hello"] with_key "prev" H1)
                       (Exn JSONDecodeError "Expecting value") _ _)).
  vm_compute. reflexivity.
Defined.

(** ** The answer of the provider *)

(** The request at the head of the goal is the one the hypothesis speaks of. *)
Ltac wp_answer H :=
  lazymatch goal with
  | |- context [requests_post ?w ?req] =>
      lazymatch type of H with
      | _ = ?a => replace (requests_post w req) with a by (symmetry; exact H)
      end
  end; cbv beta iota.

(** Up to the answer of [requests.post]. *)
Ltac wp_to_post :=
  repeat (lazymatch goal with
          | |- wp (match requests_post _ _ with _ => _ end) _ _ => fail
          | |- match requests_post _ _ with _ => _ end => fail
          | |- _ => wp_step
          end).

(** What the path taken says about the context, used in the request. *)
Ltac text_known :=
  unfold fresh_text_request, stored_text_request, with_user_message, text_request,
    text_payload, api_key_of, system_messages in *;
  repeat match goal with
         | H : _ !! _ = _ |- _ => progress (rewrite H in * )
         | H : truthy (default (VStr "") _) = _ |- _ => progress (rewrite H in * )
         end.

(** The text command up to the answer [H] of the provider, and on from it. *)
Ltac text_to_answer H :=
  unfold ai_mistral_text; unfold api_key_of in *; wp_to_post; text_known; wp_answer H;
  wp_steps.

(** X7. The text command, answered 200 with an object whose first
    choice has a message with a content: the content is stored under
    [context[set_context]], the status is 0, and the one request that
    went out carries the system message (if SYSTEM_PROMPT is truthy)
    and the user message. *)
Theorem text_stores_first_choice (w : world) (ctx : gmap string value) (name : string)
    (prompt : value) (rest : list value) (r : response)
    (kv choice : list (string * value)) (more : list value)
    (msg : list (string * value)) (content : value) :
  set_name_of ctx = Some name ->
  truthy (api_key_of ctx) = true ->
  ctx !! "MISTRAL_MESSAGES" = None ->
  requests_post w (fresh_text_request ctx prompt rest) = inr r ->
  status_code r = 200%Z ->
  json r = inr (VDict kv) ->
  assoc "choices" kv = Some (VList (VDict choice :: more)) ->
  assoc "message" choice = Some (VDict msg) ->
  assoc "content" msg = Some content ->
  run (ai_mistral_text w (prompt :: rest)) ctx
  = (Ok 0%Z, State (<[name := content]> ctx) [EPost (fresh_text_request ctx prompt rest)]).
Proof.
  intros Hname Hkey Hmessages Hpost Hstatus Hjson Hchoices Hmessage Hcontent.
  apply wp_run. unfold ai_mistral_text.
  apply (f_equal (default (VList [VDict []]))) in Hchoices.
  apply (f_equal (default (VDict []))) in Hmessage.
  apply (f_equal (default (VStr ""))) in Hcontent.
  cbn [default from_option id] in Hchoices, Hmessage, Hcontent.
  text_to_answer Hpost; reflexivity.
Qed.

Lemma text_stores_first_choice_witness :
  set_name_of with_key = Some "prev"
  /\ truthy (api_key_of with_key) = true
  /\ run (ai_mistral_text (answering (inr (completion "Hi"))) [VStr "Hello"]) with_key
     = (Ok 0%Z, State (<["prev" := VStr "Hi"]> with_key)
                      [EPost (fresh_text_request with_key (VStr "Hello") [])]).
Proof.
  assert (H1 : set_name_of with_key = Some "prev") by (vm_compute; reflexivity).
  assert (H2 : truthy (api_key_of with_key) = true) by (vm_compute; reflexivity).
  assert (H3 : with_key !! "MISTRAL_MESSAGES" = None) by (vm_compute; reflexivity).
  split; [exact H1|]. split; [exact H2|].
  exact (text_stores_first_choice (answering (inr (completion "Hi"))) with_key "prev"
           (VStr "Hello") [] (completion "Hi") _ _ [] _ (VStr "Hi")
           H1 H2 H3 eq_refl eq_refl eq_refl eq_refl eq_refl eq_refl).
Defined.

(** X8. The text command, answered 200 with an object without
    ["choices"], or whose first choice has no ["message"], or whose
    message has no ["content"]: the [.get] defaults make it a success
    that stores the empty string. *)
Theorem text_missing_fields_store_empty (w : world) (ctx : gmap string value) (name : string)
    (prompt : value) (rest : list value) (r : response) (kv : list (string * value)) :
  set_name_of ctx = Some name ->
  truthy (api_key_of ctx) = true ->
  ctx !! "MISTRAL_MESSAGES" = None ->
  requests_post w (fresh_text_request ctx prompt rest) = inr r ->
  status_code r = 200%Z ->
  json r = inr (VDict kv) ->
  assoc "choices" kv = None
  \/ (exists choice more,
        assoc "choices" kv = Some (VList (VDict choice :: more))
        /\ (assoc "message" choice = None
            \/ exists msg, assoc "message" choice = Some (VDict msg)
                           /\ assoc "content" msg = None)) ->
  run (ai_mistral_text w (prompt :: rest)) ctx
  = (Ok 0%Z, State (<[name := VStr ""]> ctx) [EPost (fresh_text_request ctx prompt rest)]).
Proof.
  intros Hname Hkey Hmessages Hpost Hstatus Hjson Hshape.
  assert (exists choice more msg,
            default (VList [VDict []]) (assoc "choices" kv) = VList (VDict choice :: more)
            /\ default (VDict []) (assoc "message" choice) = VDict msg
            /\ default (VStr "") (assoc "content" msg) = VStr "")
    as (choice & more & msg & Hchoices & Hmessage & Hcontent).
  { destruct Hshape as [-> | (choice & more & -> & [Hm | (msg & Hm & Hc)])].
    - by exists [], [], [].
    - exists choice, more, []. by rewrite Hm.
    - exists choice, more, msg. by rewrite Hm, Hc. }
  clear Hshape. apply wp_run. text_to_answer Hpost. all: by rewrite Hcontent.
Qed.

Lemma text_missing_fields_store_empty_witness :
  set_name_of with_key = Some "prev"
  /\ truthy (api_key_of with_key) = true
  /\ run (ai_mistral_text (answering (inr empty_object)) [VStr "Hello"]) with_key
     = (Ok 0%Z, State (<["prev" := VStr ""]> with_key)
                      [EPost (fresh_text_request with_key (VStr "Hello") [])]).
Proof.
  assert (H1 : set_name_of with_key = Some "prev") by (vm_compute; reflexivity).
  assert (H2 : truthy (api_key_of with_key) = true) by (vm_compute; reflexivity).
  assert (H3 : with_key !! "MISTRAL_MESSAGES" = None) by (vm_compute; reflexivity).
  split; [exact H1|]. split; [exact H2|].
  exact (text_missing_fields_store_empty (answering (inr empty_object)) with_key "prev"
           (VStr "Hello") [] empty_object [] H1 H2 H3 eq_refl eq_refl eq_refl
           (or_introl eq_refl)).
Defined.

(** X9. The text command, answered 200 with an object whose
    ["choices"] is the empty list: [choices[0]] raises [IndexError],
    which nobody catches, and no error is stored.  Without
    MISTRAL_MESSAGES the context is as it was; with a message list the
    context is as it was but for the list, which has grown by the user
    message. *)
Theorem empty_choices_end_in_an_exception (w : world) (ctx : gmap string value)
    (name : string) (prompt : value) (rest : list value) (r : response)
    (kv : list (string * value)) :
  set_name_of ctx = Some name ->
  truthy (api_key_of ctx) = true ->
  status_code r = 200%Z ->
  json r = inr (VDict kv) ->
  assoc "choices" kv = Some (VList []) ->
  (ctx !! "MISTRAL_MESSAGES" = None ->
   requests_post w (fresh_text_request ctx prompt rest) = inr r ->
   run (ai_mistral_text w (prompt :: rest)) ctx
   = (Raise (Exn IndexError "list index out of range"),
      State ctx [EPost (fresh_text_request ctx prompt rest)]))
  /\ (forall xs,
      ctx !! "MISTRAL_MESSAGES" = Some (VList xs) ->
      requests_post w (stored_text_request ctx xs prompt rest) = inr r ->
      run (ai_mistral_text w (prompt :: rest)) ctx
      = (Raise (Exn IndexError "list index out of range"),
         State (with_user_message ctx xs prompt)
               [EPost (stored_text_request ctx xs prompt rest)])).
Proof.
  intros Hname Hkey Hstatus Hjson Hchoices.
  apply (f_equal (default (VList [VDict []]))) in Hchoices.
  cbn [default from_option id] in Hchoices.
  split.
  - intros Hmessages Hpost. apply wp_run. text_to_answer Hpost; reflexivity.
  - intros xs Hmessages Hpost. apply wp_run. text_to_answer Hpost; reflexivity.
Qed.

Lemma empty_choices_end_in_an_exception_witness :
  set_name_of with_messages = Some "prev"
  /\ truthy (api_key_of with_messages) = true
  /\ run (ai_mistral_text (answering (inr no_choice)) [VStr "Hello"]) with_messages
     = (Raise (Exn IndexError "list index out of range"),
        State (with_user_message with_messages [message "system" (VStr "Be brief.")]
                                 (VStr "Hello"))
              [EPost (stored_text_request with_messages [message "system" (VStr "Be brief.")]
                                          (VStr "Hello") [])]).
Proof.
  assert (H1 : set_name_of with_messages = Some "prev") by (vm_compute; reflexivity).
  assert (H2 : truthy (api_key_of with_messages) = true) by (vm_compute; reflexivity).
  assert (H3 : with_messages !! "MISTRAL_MESSAGES"
               = Some (VList [message "system" (VStr "Be brief.")]))
    by (vm_compute; reflexivity).
  split; [exact H1|]. split; [exact H2|].
  exact (proj2 (empty_choices_end_in_an_exception (answering (inr no_choice)) with_messages
                  "prev" (VStr "Hello") [] no_choice _ H1 H2 eq_refl eq_refl eq_refl)
               _ H3 eq_refl).
Defined.

(** X10. A status other than 200: the text, embeddings and moderation
    commands store "API returned HTTP <status>: <body>" under
    [{set_context}_error] and return their failure status; the body is
    not decoded and [context[set_context]] is not written.  Nothing
    else is written, but for the text command on a context that holds
    a message list: there the list has grown by the user message. *)
Theorem http_error_is_reported (w : world) (ctx : gmap string value) (name : string)
    (arg0 : value) (rest : list value) (r : response) :
  set_name_of ctx = Some name ->
  truthy (api_key_of ctx) = true ->
  status_code r <> 200%Z ->
  let report :=
    VStr ("API returned HTTP " +:+ pretty (status_code r) +:+ ": " +:+ text r) in
  (ctx !! "MISTRAL_MESSAGES" = None ->
   requests_post w (fresh_text_request ctx arg0 rest) = inr r ->
   run (ai_mistral_text w (arg0 :: rest)) ctx
   = (Ok 1%Z, State (<[name +:+ "_error" := report]> ctx)
                    [EPost (fresh_text_request ctx arg0 rest)]))
  /\ (forall xs,
      ctx !! "MISTRAL_MESSAGES" = Some (VList xs) ->
      requests_post w (stored_text_request ctx xs arg0 rest) = inr r ->
      run (ai_mistral_text w (arg0 :: rest)) ctx
      = (Ok 1%Z, State (<[name +:+ "_error" := report]> (with_user_message ctx xs arg0))
                       [EPost (stored_text_request ctx xs arg0 rest)]))
  /\ (arg0 <> VNone ->
      requests_post w (embeddings_request ctx arg0) = inr r ->
      run (ai_mistral_embeddings w (arg0 :: rest)) ctx
      = (Ok (-1)%Z, State (<[name +:+ "_error" := report]> ctx)
                          [EPost (embeddings_request ctx arg0)]))
  /\ (arg0 <> VNone ->
      requests_post w (moderations_request ctx arg0) = inr r ->
      run (mistral_moderations w (arg0 :: rest)) ctx
      = (Ok (-1)%Z, State (<[name +:+ "_error" := report]> ctx)
                          [EPost (moderations_request ctx arg0)])).
Proof.
  intros Hname Hkey Hstatus report. subst report.
  apply Z.eqb_neq in Hstatus.
  split; [|split; [|split]].
  - intros Hmessages Hpost. apply wp_run. text_to_answer Hpost; reflexivity.
  - intros xs Hmessages Hpost. apply wp_run. text_to_answer Hpost; reflexivity.
  - intros Harg Hpost. apply wp_run. unfold ai_mistral_embeddings.
    unfold embeddings_request, api_key_of in *.
    assert (His : is_None arg0 = false) by (by destruct arg0).
    wp_steps; reflexivity.
  - intros Harg Hpost. apply wp_run. unfold mistral_moderations.
    unfold moderations_request, api_key_of in *.
    assert (His : is_None arg0 = false) by (by destruct arg0).
    wp_steps; reflexivity.
Qed.

Lemma http_error_is_reported_witness :
  set_name_of with_messages = Some "prev"
  /\ truthy (api_key_of with_messages) = true
  /\ status_code unauthorized <> 200%Z
  /\ run (ai_mistral_text (answering (inr unauthorized)) [VStr "Hello"]) with_messages
     = (Ok 1%Z,
        State (<["prev" +:+ "_error" :=
                   VStr ("API returned HTTP " +:+ pretty (status_code unauthorized) +:+ ": "
                         +:+ text unauthorized)]>
                 (with_user_message with_messages [message "system" (VStr "Be brief.")]
                                    (VStr "Hello")))
              [EPost (stored_text_request with_messages [message "system" (VStr "Be brief.")]
                                          (VStr "Hello") [])]).
Proof.
  assert (H1 : set_name_of with_messages = Some "prev") by (vm_compute; reflexivity).
  assert (H2 : truthy (api_key_of with_messages) = true) by (vm_compute; reflexivity).
  assert (H3 : status_code unauthorized <> 200%Z) by discriminate.
  assert (H4 : with_messages !! "MISTRAL_MESSAGES"
               = Some (VList [message "system" (VStr "Be brief.")]))
    by (vm_compute; reflexivity).
  split; [exact H1|]. split; [exact H2|]. split; [exact H3|].
  exact (proj1 (proj2 (http_error_is_reported (answering (inr unauthorized)) with_messages
                         "prev" (VStr "Hello") [] unauthorized H1 H2 H3))
               _ H4 eq_refl).
Defined.

(** X11. When [requests.post] raises a [RequestException], the text
    and the embeddings commands store "Request error: <message>", the
    moderation command "Request failed: <message>", under
    [{set_context}_error], and they return their failure status.
    Nothing else is written, but for the text command on a context that
    holds a message list: there the list has grown by the user
    message. *)
Theorem transport_failure_is_reported (w : world) (ctx : gmap string value) (name : string)
    (arg0 : value) (rest : list value) (e : exn) :
  set_name_of ctx = Some name ->
  truthy (api_key_of ctx) = true ->
  is_RequestException e = true ->
  (ctx !! "MISTRAL_MESSAGES" = None ->
   requests_post w (fresh_text_request ctx arg0 rest) = inl e ->
   run (ai_mistral_text w (arg0 :: rest)) ctx
   = (Ok 1%Z, State (<[name +:+ "_error" := VStr ("Request error: " +:+ exn_msg e)]> ctx)
                    [EPost (fresh_text_request ctx arg0 rest)]))
  /\ (forall xs,
      ctx !! "MISTRAL_MESSAGES" = Some (VList xs) ->
      requests_post w (stored_text_request ctx xs arg0 rest) = inl e ->
      run (ai_mistral_text w (arg0 :: rest)) ctx
      = (Ok 1%Z, State (<[name +:+ "_error" := VStr ("Request error: " +:+ exn_msg e)]>
                          (with_user_message ctx xs arg0))
                       [EPost (stored_text_request ctx xs arg0 rest)]))
  /\ (arg0 <> VNone ->
      requests_post w (embeddings_request ctx arg0) = inl e ->
      run (ai_mistral_embeddings w (arg0 :: rest)) ctx
      = (Ok (-1)%Z, State (<[name +:+ "_error" := VStr ("Request error: " +:+ exn_msg e)]> ctx)
                          [EPost (embeddings_request ctx arg0)]))
  /\ (arg0 <> VNone ->
      requests_post w (moderations_request ctx arg0) = inl e ->
      run (mistral_moderations w (arg0 :: rest)) ctx
      = (Ok (-1)%Z, State (<[name +:+ "_error" := VStr ("Request failed: " +:+ exn_msg e)]> ctx)
                          [EPost (moderations_request ctx arg0)])).
Proof.
  intros Hname Hkey He.
  destruct e as [cls msg]. destruct cls; try discriminate He.
  all: clear He; split; [|split; [|split]].
  1, 5: intros Hmessages Hpost; apply wp_run; text_to_answer Hpost; reflexivity.
  1, 4: intros xs Hmessages Hpost; apply wp_run; text_to_answer Hpost; reflexivity.
  1, 3: intros Harg Hpost; apply wp_run; unfold ai_mistral_embeddings;
    unfold embeddings_request, api_key_of in *;
    assert (His : is_None arg0 = false) by (by destruct arg0);
    wp_steps; reflexivity.
  all: intros Harg Hpost; apply wp_run; unfold mistral_moderations;
    unfold moderations_request, api_key_of in *;
    assert (His : is_None arg0 = false) by (by destruct arg0);
    wp_steps; reflexivity.
Qed.

Lemma transport_failure_is_reported_witness :
  set_name_of with_messages = Some "prev"
  /\ truthy (api_key_of with_messages) = true
  /\ is_RequestException (Exn RequestException "timed out") = true
  /\ run (ai_mistral_text (answering (inl "timed out")) [VStr "Hello"]) with_messages
     = (Ok 1%Z,
        State (<["prev" +:+ "_error" := VStr ("Request error: " +:+ "timed out")]>
                 (with_user_message with_messages [message "system" (VStr "Be brief.")]
                                    (VStr "Hello")))
              [EPost (stored_text_request with_messages [message "system" (VStr "Be brief.")]
                                          (VStr "Hello") [])]).
Proof.
  assert (H1 : set_name_of with_messages = Some "prev") by (vm_compute; reflexivity).
  assert (H2 : truthy (api_key_of with_messages) = true) by (vm_compute; reflexivity).
  assert (H3 : is_RequestException (Exn RequestException "timed out") = true) by reflexivity.
  assert (H4 : with_messages !! "MISTRAL_MESSAGES"
               = Some (VList [message "system" (VStr "Be brief.")]))
    by (vm_compute; reflexivity).
  split; [exact H1|]. split; [exact H2|]. split; [exact H3|].
  exact (proj1 (proj2 (transport_failure_is_reported (answering (inl "timed out"))
                         with_messages "prev" (VStr "Hello") []
                         (Exn RequestException "timed out") H1 H2 H3))
               _ H4 eq_refl).
Defined.

(** X12. The moderation command, answered 200 with a body that
    decodes: the decoded value, whatever it is, is stored as it is under
    [context[set_context]], and the status is 0. *)
Theorem moderation_stores_answer (w : world) (ctx : gmap string value) (name : string)
    (arg0 : value) (rest : list value) (r : response) (decoded : value) :
  set_name_of ctx = Some name ->
  truthy (api_key_of ctx) = true ->
  arg0 <> VNone ->
  requests_post w (moderations_request ctx arg0) = inr r ->
  status_code r = 200%Z ->
  json r = inr decoded ->
  run (mistral_moderations w (arg0 :: rest)) ctx
  = (Ok 0%Z, State (<[name := decoded]> ctx) [EPost (moderations_request ctx arg0)]).
Proof.
  unfold moderations_request, api_key_of.
  intros Hname Hkey Harg Hpost Hstatus Hjson.
  apply wp_run. unfold mistral_moderations.
  assert (His : is_None arg0 = false) by (by destruct arg0).
  wp_steps; reflexivity.
Qed.

Lemma moderation_stores_answer_witness :
  set_name_of with_key = Some "prev"
  /\ truthy (api_key_of with_key) = true
  /\ run (mistral_moderations (answering (inr moderated)) [VStr "text"]) with_key
     = (Ok 0%Z,
        State (<["prev" := VDict [("results",
                   VList [VDict [("categories", VDict [("violence", VBool false)])]])]]> with_key)
              [EPost (moderations_request with_key (VStr "text"))]).
Proof.
  assert (H1 : set_name_of with_key = Some "prev") by (vm_compute; reflexivity).
  assert (H2 : truthy (api_key_of with_key) = true) by (vm_compute; reflexivity).
  split; [exact H1|]. split; [exact H2|].
  refine (moderation_stores_answer (answering (inr moderated)) with_key "prev"
            (VStr "text") [] moderated _ H1 H2 _ eq_refl eq_refl eq_refl).
  discriminate.
Defined.

(** X13. A 200 answer that decodes to something that is no object (a
    list, a string, a number): [decoded.get] raises [AttributeError].
    The text command lets it out and stores neither a result nor an
    error: without MISTRAL_MESSAGES the context is as it was, with a
    message list it is as it was but for the list, which has grown by
    the user message.  The embeddings command stores "Error parsing
    response: ..." under [{set_context}_error] and returns -1. *)
Theorem answer_that_is_no_object (w : world) (ctx : gmap string value)
    (name : string) (arg0 : value) (rest : list value) (r : response) (decoded : value) :
  set_name_of ctx = Some name ->
  truthy (api_key_of ctx) = true ->
  status_code r = 200%Z ->
  json r = inr decoded ->
  (forall kv, decoded <> VDict kv) ->
  let refused :=
    "'" +:+ type_name decoded +:+ "' object has no attribute 'get'" in
  (ctx !! "MISTRAL_MESSAGES" = None ->
   requests_post w (fresh_text_request ctx arg0 rest) = inr r ->
   run (ai_mistral_text w (arg0 :: rest)) ctx
   = (Raise (Exn AttributeError refused),
      State ctx [EPost (fresh_text_request ctx arg0 rest)]))
  /\ (forall xs,
      ctx !! "MISTRAL_MESSAGES" = Some (VList xs) ->
      requests_post w (stored_text_request ctx xs arg0 rest) = inr r ->
      run (ai_mistral_text w (arg0 :: rest)) ctx
      = (Raise (Exn AttributeError refused),
         State (with_user_message ctx xs arg0)
               [EPost (stored_text_request ctx xs arg0 rest)]))
  /\ (arg0 <> VNone ->
      requests_post w (embeddings_request ctx arg0) = inr r ->
      run (ai_mistral_embeddings w (arg0 :: rest)) ctx
      = (Ok (-1)%Z,
         State (<[name +:+ "_error" := VStr ("Error parsing response: " +:+ refused)]> ctx)
               [EPost (embeddings_request ctx arg0)])).
Proof.
  intros Hname Hkey Hstatus Hjson Hshape refused. subst refused.
  assert (Hno : forall kv, decoded = VDict kv -> False) by (intros kv ->; by eapply Hshape).
  clear Hshape. split; [|split].
  - intros Hmessages Hpost. apply wp_run.
    text_to_answer Hpost; first [reflexivity | by edestruct Hno].
  - intros xs Hmessages Hpost. apply wp_run.
    text_to_answer Hpost; first [reflexivity | by edestruct Hno].
  - intros Harg Hpost. apply wp_run. unfold ai_mistral_embeddings.
    unfold embeddings_request, api_key_of in *.
    assert (His : is_None arg0 = false) by (by destruct arg0).
    wp_steps; first [reflexivity | by edestruct Hno].
Qed.

Lemma answer_that_is_no_object_witness :
  set_name_of with_messages = Some "prev"
  /\ truthy (api_key_of with_messages) = true
  /\ run (ai_mistral_text (answering (inr (Response 200 "[]" (inr (VList [])))))
                          [VStr "Hello"]) with_messages
     = (Raise (Exn AttributeError
                   ("'" +:+ type_name (VList []) +:+ "' object has no attribute 'get'")),
        State (with_user_message with_messages [message "system" (VStr "Be brief.")]
                                 (VStr "Hello"))
              [EPost (stored_text_request with_messages [message "system" (VStr "Be brief.")]
                                          (VStr "Hello") [])]).
Proof.
  assert (H1 : set_name_of with_messages = Some "prev") by (vm_compute; reflexivity).
  assert (H2 : truthy (api_key_of with_messages) = true) by (vm_compute; reflexivity).
  assert (H3 : with_messages !! "MISTRAL_MESSAGES"
               = Some (VList [message "system" (VStr "Be brief.")]))
    by (vm_compute; reflexivity).
  assert (H4 : forall kv, VList [] <> VDict kv) by discriminate.
  split; [exact H1|]. split; [exact H2|].
  exact (proj1 (proj2 (answer_that_is_no_object
                         (answering (inr (Response 200 "[]" (inr (VList [])))))
                         with_messages "prev" (VStr "Hello") []
                         (Response 200 "[]" (inr (VList []))) (VList [])
                         H1 H2 eq_refl eq_refl H4))
               _ H3 eq_refl).
Defined.

(** X14. The embeddings command unwraps a single embedding only for a
    string: with a first argument that is no string (and not [None]),
    an answer with one embedding object stores the list of that one
    vector. *)
Theorem other_input_is_not_unwrapped (w : world) (ctx : gmap string value)
    (name : string) (arg0 : value) (rest : list value) (r : response)
    (kv item : list (string * value)) :
  set_name_of ctx = Some name ->
  truthy (api_key_of ctx) = true ->
  arg0 <> VNone ->
  isinstance_str arg0 = false ->
  requests_post w (embeddings_request ctx arg0) = inr r ->
  status_code r = 200%Z ->
  json r = inr (VDict kv) ->
  assoc "data" kv = Some (VList [VDict item]) ->
  run (ai_mistral_embeddings w (arg0 :: rest)) ctx
  = (Ok 0%Z, State (<[name := VList [embedding_of item]]> ctx)
                   [EPost (embeddings_request ctx arg0)]).
Proof.
  intros Hname Hkey Harg Hother Hpost Hstatus Hjson Hdata.
  rewrite (embeddings_on_dicts w ctx name arg0 rest r kv [item]
             Hname Hkey Harg Hpost Hstatus Hjson); [by rewrite Hother|].
  by rewrite Hdata.
Qed.

Lemma other_input_is_not_unwrapped_witness :
  set_name_of with_key = Some "prev"
  /\ truthy (api_key_of with_key) = true
  /\ run (ai_mistral_embeddings (answering (inr (embedded [VDict (vector 0.1 0.2)])))
                                [VList [VStr "cat"]]) with_key
     = (Ok 0%Z, State (<["prev" := VList [embedding_of (vector 0.1 0.2)]]> with_key)
                      [EPost (embeddings_request with_key (VList [VStr "cat"]))]).
Proof.
  assert (H1 : set_name_of with_key = Some "prev") by (vm_compute; reflexivity).
  assert (H2 : truthy (api_key_of with_key) = true) by (vm_compute; reflexivity).
  split; [exact H1|]. split; [exact H2|].
  refine (other_input_is_not_unwrapped (answering (inr (embedded [VDict (vector 0.1 0.2)])))
            with_key "prev" (VList [VStr "cat"]) [] (embedded [VDict (vector 0.1 0.2)])
            _ (vector 0.1 0.2) H1 H2 _ eq_refl eq_refl eq_refl eq_refl eq_refl).
  discriminate.
Defined.

(** ** Failures of the image command *)

(** X15. The image command refuses a falsy prompt (an empty string,
    [None], 0) as it refuses no prompt: the usage text goes under
    [{set_context}_error], the status is 1, nobody is called. *)
Theorem falsy_prompt_is_refused (w : world) (ctx : gmap string value)
    (name : string) (prompt : value) (rest : list value) :
  set_name_of ctx = Some name ->
  truthy prompt = false ->
  run (ai_mistral_image_gen w (prompt :: rest)) ctx
  = (Ok 1%Z,
     State (<[name +:+ "_error" :=
                VStr ("Usage: ai_mistral_image_gen <prompt>" +:+ nl
                      +:+ "Missing prompt in args[0]")]> ctx) []).
Proof.
  intros Hname Hprompt. apply wp_run. unfold ai_mistral_image_gen. wp_steps. reflexivity.
Qed.

Lemma falsy_prompt_is_refused_witness :
  set_name_of with_key = Some "prev"
  /\ truthy (VStr "") = false
  /\ run (ai_mistral_image_gen (answering (inl "unused")) [VStr ""]) with_key
     = (Ok 1%Z,
        State (<["prev" +:+ "_error" :=
                   VStr ("Usage: ai_mistral_image_gen <prompt>" +:+ nl
                         +:+ "Missing prompt in args[0]")]> with_key) []).
Proof.
  assert (H1 : set_name_of with_key = Some "prev") by (vm_compute; reflexivity).
  split; [exact H1|]. split; [reflexivity|].
  exact (falsy_prompt_is_refused (answering (inl "unused")) with_key "prev" (VStr "") []
           H1 eq_refl).
Defined.

(** X16. [os.makedirs] stands outside any [try]: when it raises, and
    when [output_dir] is no string, the image command ends in that
    exception, with nothing written to the context and no call to the
    provider. *)
Theorem makedirs_errors_escape (w : world) (ctx : gmap string value)
    (name : string) (prompt : value) (rest : list value) :
  set_name_of ctx = Some name ->
  truthy prompt = true ->
  truthy (api_key_of ctx) = true ->
  (forall dir e,
      default (VStr "output") (ctx !! "output_dir") = VStr dir ->
      os_makedirs w [] dir = Some e ->
      run (ai_mistral_image_gen w (prompt :: rest)) ctx
      = (Raise e, State ctx [EMakedirs dir]))
  /\ ((forall dir, default (VStr "output") (ctx !! "output_dir") <> VStr dir) ->
      run (ai_mistral_image_gen w (prompt :: rest)) ctx
      = (Raise (Exn TypeError
                    ("expected str, bytes or os.PathLike object, not "
                     +:+ type_name (default (VStr "output") (ctx !! "output_dir")))),
         State ctx [])).
Proof.
  unfold api_key_of.
  intros Hname Hprompt Hkey. split.
  - intros dir e Hdir Hmakedirs.
    apply wp_run. unfold ai_mistral_image_gen. wp_steps. reflexivity.
  - intros Hdir.
    apply wp_run. unfold ai_mistral_image_gen.
    destruct (default (VStr "output") (ctx !! "output_dir")) as [| | | |dir| |] eqn:Hd;
      try (by destruct (Hdir dir)); wp_steps; reflexivity.
Qed.

Lemma makedirs_errors_escape_witness :
  set_name_of with_number_as_directory = Some "prev"
  /\ truthy (api_key_of with_number_as_directory) = true
  /\ run (ai_mistral_image_gen (answering (inl "unused")) [VStr "a cat"])
         with_number_as_directory
     = (Raise (Exn TypeError
                   ("expected str, bytes or os.PathLike object, not "
                    +:+ type_name (default (VStr "output")
                                           (with_number_as_directory !! "output_dir")))),
        State with_number_as_directory []).
Proof.
  assert (H1 : set_name_of with_number_as_directory = Some "prev")
    by (vm_compute; reflexivity).
  assert (H2 : truthy (api_key_of with_number_as_directory) = true)
    by (vm_compute; reflexivity).
  split; [exact H1|]. split; [exact H2|].
  refine (proj2 (makedirs_errors_escape (answering (inl "unused")) with_number_as_directory
                   "prev" (VStr "a cat") [] H1 eq_refl H2) _).
  intros dir. vm_compute. discriminate.
Defined.

(** X17. With a key that is a string: when the creation of the agent
    raises, the image command stores "Failed to create agent:
    <message>" under [{set_context}_error] and returns 1, without
    sleeping and without starting a conversation.  (A truthy key that
    is no string does not get that far: [Mistral] refuses it.) *)
Theorem agent_failure_stops_the_command (w : world) (ctx : gmap string value)
    (name : string) (prompt : value) (rest : list value) (key dir : string) (e : exn) :
  set_name_of ctx = Some name ->
  truthy prompt = true ->
  api_key_of ctx = VStr key ->
  key <> "" ->
  default (VStr "output") (ctx !! "output_dir") = VStr dir ->
  os_makedirs w [] dir = None ->
  agents_create w [EMakedirs dir] (api_key_of ctx) (image_model ctx) = inl e ->
  run (ai_mistral_image_gen w (prompt :: rest)) ctx
  = (Ok 1%Z,
     State (<[name +:+ "_error" := VStr ("Failed to create agent: " +:+ exn_msg e)]> ctx)
           [EMakedirs dir; EAgentCreate (api_key_of ctx) (image_model ctx)]).
Proof.
  unfold api_key_of, image_model.
  intros Hname Hprompt Hkey Hfull Hdir Hmakedirs Hagent.
  rewrite Hkey in Hagent |- *.
  assert (Htruthy : truthy (default VNone (ctx !! "MISTRAL_API_KEY")) = true)
    by (rewrite Hkey; by destruct key).
  apply wp_run. unfold ai_mistral_image_gen. wp_steps. reflexivity.
Qed.

Lemma agent_failure_stops_the_command_witness :
  set_name_of with_key = Some "prev"
  /\ api_key_of with_key = VStr "sk"
  /\ run (ai_mistral_image_gen
            (studio (inl (Exn (LibraryError "SDKError") "Status 401")) (inr []) (fun _ => inr "PNG"))
            [VStr "a cat"]) with_key
     = (Ok 1%Z,
        State (<["prev" +:+ "_error" :=
                   VStr ("Failed to create agent: "
                         +:+ exn_msg (Exn (LibraryError "SDKError") "Status 401"))]> with_key)
              [EMakedirs "output"; EAgentCreate (api_key_of with_key) (image_model with_key)]).
Proof.
  assert (H1 : set_name_of with_key = Some "prev") by (vm_compute; reflexivity).
  assert (H2 : api_key_of with_key = VStr "sk") by (vm_compute; reflexivity).
  assert (H3 : "sk" <> "") by discriminate.
  split; [exact H1|]. split; [exact H2|].
  exact (agent_failure_stops_the_command
           (studio (inl (Exn (LibraryError "SDKError") "Status 401")) (inr []) (fun _ => inr "PNG"))
           with_key "prev" (VStr "a cat") [] "sk" "output" _
           H1 eq_refl H2 H3 eq_refl eq_refl eq_refl).
Defined.

(** X18. With a key that is a string: when the start of the
    conversation raises, the image command stores "Conversation error:
    <message>" under [{set_context}_error] and returns 1; nothing is
    downloaded. *)
Theorem conversation_failure_is_reported (w : world) (ctx : gmap string value)
    (name : string) (prompt : value) (rest : list value) (key dir agent : string) (e : exn) :
  set_name_of ctx = Some name ->
  truthy prompt = true ->
  api_key_of ctx = VStr key ->
  key <> "" ->
  default (VStr "output") (ctx !! "output_dir") = VStr dir ->
  os_makedirs w [] dir = None ->
  agents_create w [EMakedirs dir] (api_key_of ctx) (image_model ctx) = inr agent ->
  conversations_start w [EMakedirs dir; EAgentCreate (api_key_of ctx) (image_model ctx); ESleep 2]
                      agent prompt = inl e ->
  run (ai_mistral_image_gen w (prompt :: rest)) ctx
  = (Ok 1%Z,
     State (<[name +:+ "_error" := VStr ("Conversation error: " +:+ exn_msg e)]> ctx)
           (conversation_calls ctx dir agent prompt)).
Proof.
  unfold conversation_calls, api_key_of, image_model.
  intros Hname Hprompt Hkey Hfull Hdir Hmakedirs Hagent Hconversation.
  rewrite Hkey in Hagent, Hconversation |- *.
  assert (Htruthy : truthy (default VNone (ctx !! "MISTRAL_API_KEY")) = true)
    by (rewrite Hkey; by destruct key).
  apply wp_run. unfold ai_mistral_image_gen. wp_steps. reflexivity.
Qed.

Lemma conversation_failure_is_reported_witness :
  set_name_of with_key = Some "prev"
  /\ api_key_of with_key = VStr "sk"
  /\ run (ai_mistral_image_gen
            (studio (inr "ag_1") (inl (Exn (LibraryError "SDKError") "Status 429"))
                    (fun _ => inr "PNG"))
            [VStr "a cat"]) with_key
     = (Ok 1%Z,
        State (<["prev" +:+ "_error" :=
                   VStr ("Conversation error: "
                         +:+ exn_msg (Exn (LibraryError "SDKError") "Status 429"))]> with_key)
              (conversation_calls with_key "output" "ag_1" (VStr "a cat"))).
Proof.
  assert (H1 : set_name_of with_key = Some "prev") by (vm_compute; reflexivity).
  assert (H2 : api_key_of with_key = VStr "sk") by (vm_compute; reflexivity).
  assert (H3 : "sk" <> "") by discriminate.
  split; [exact H1|]. split; [exact H2|].
  exact (conversation_failure_is_reported
           (studio (inr "ag_1") (inl (Exn (LibraryError "SDKError") "Status 429"))
                   (fun _ => inr "PNG"))
           with_key "prev" (VStr "a cat") [] "sk" "output" "ag_1" _
           H1 eq_refl H2 H3 eq_refl eq_refl eq_refl eq_refl).
Defined.

(** X19. With a key that is a string: an answer of the agent without
    outputs, or whose last output is an entry without [content]:
    [outputs[-1]] and [.content] stand inside the last [try], so the
    image command stores "Error saving images: <message>" under
    [{set_context}_error] and returns 1. *)
Theorem answer_without_content_is_reported (w : world) (ctx : gmap string value)
    (name : string) (prompt : value) (rest : list value) (key dir agent : string)
    (outputs : list entry) :
  set_name_of ctx = Some name ->
  truthy prompt = true ->
  api_key_of ctx = VStr key ->
  key <> "" ->
  default (VStr "output") (ctx !! "output_dir") = VStr dir ->
  os_makedirs w [] dir = None ->
  agents_create w [EMakedirs dir] (api_key_of ctx) (image_model ctx) = inr agent ->
  conversations_start w [EMakedirs dir; EAgentCreate (api_key_of ctx) (image_model ctx); ESleep 2]
                      agent prompt = inr outputs ->
  (outputs = [] ->
   run (ai_mistral_image_gen w (prompt :: rest)) ctx
   = (Ok 1%Z,
      State (<[name +:+ "_error" := VStr "Error saving images: list index out of range"]> ctx)
            (conversation_calls ctx dir agent prompt)))
  /\ (forall cls, last outputs = Some (OtherEntry cls) ->
      run (ai_mistral_image_gen w (prompt :: rest)) ctx
      = (Ok 1%Z,
         State (<[name +:+ "_error" :=
                    VStr ("Error saving images: '" +:+ cls
                          +:+ "' object has no attribute 'content'")]> ctx)
               (conversation_calls ctx dir agent prompt))).
Proof.
  unfold conversation_calls, api_key_of, image_model.
  intros Hname Hprompt Hkey Hfull Hdir Hmakedirs Hagent Hconversation.
  rewrite Hkey in Hagent, Hconversation |- *.
  assert (Htruthy : truthy (default VNone (ctx !! "MISTRAL_API_KEY")) = true)
    by (rewrite Hkey; by destruct key).
  split.
  - intros ->. apply wp_run. unfold ai_mistral_image_gen. wp_steps. reflexivity.
  - intros cls Hlast. apply wp_run. unfold ai_mistral_image_gen. wp_steps. reflexivity.
Qed.

Lemma answer_without_content_is_reported_witness :
  set_name_of with_key = Some "prev"
  /\ api_key_of with_key = VStr "sk"
  /\ run (ai_mistral_image_gen (studio (inr "ag_1") (inr []) (fun _ => inr "PNG"))
                               [VStr "a cat"]) with_key
     = (Ok 1%Z,
        State (<["prev" +:+ "_error" := VStr "Error saving images: list index out of range"]>
                 with_key)
              (conversation_calls with_key "output" "ag_1" (VStr "a cat"))).
Proof.
  assert (H1 : set_name_of with_key = Some "prev") by (vm_compute; reflexivity).
  assert (H2 : api_key_of with_key = VStr "sk") by (vm_compute; reflexivity).
  assert (H3 : "sk" <> "") by discriminate.
  split; [exact H1|]. split; [exact H2|].
  exact (proj1 (answer_without_content_is_reported
                  (studio (inr "ag_1") (inr []) (fun _ => inr "PNG"))
                  with_key "prev" (VStr "a cat") [] "sk" "output" "ag_1" []
                  H1 eq_refl H2 H3 eq_refl eq_refl eq_refl eq_refl) eq_refl).
Defined.

(** X20. With a key that is a string: when the first file has been
    downloaded and written and the download of the second raises, the
    image command returns 1 with "Error saving images: <message>" under
    [{set_context}_error]: the first file stays written, and the
    context names it nowhere. *)
Theorem saved_files_are_lost_on_failure (w : world) (ctx : gmap string value)
    (name : string) (prompt : value) (rest : list value) (key dir agent : string)
    (outputs : list entry) (file_a file_b bytes : string) (more : list chunk) (e : exn) :
  set_name_of ctx = Some name ->
  truthy prompt = true ->
  api_key_of ctx = VStr key ->
  key <> "" ->
  default (VStr "output") (ctx !! "output_dir") = VStr dir ->
  os_makedirs w [] dir = None ->
  agents_create w [EMakedirs dir] (api_key_of ctx) (image_model ctx) = inr agent ->
  conversations_start w [EMakedirs dir; EAgentCreate (api_key_of ctx) (image_model ctx); ESleep 2]
                      agent prompt = inr outputs ->
  last outputs = Some (MessageChunks (ToolFileChunk file_a :: ToolFileChunk file_b :: more)) ->
  bytes <> "" ->
  files_download w (conversation_calls ctx dir agent prompt) file_a = inr bytes ->
  write_file w (conversation_calls ctx dir agent prompt ++ [EDownload file_a])
             (image_path dir (uuid4 w) 0) bytes = None ->
  files_download w (conversation_calls ctx dir agent prompt
                    ++ [EDownload file_a; EWriteFile (image_path dir (uuid4 w) 0) bytes])
                 file_b = inl e ->
  run (ai_mistral_image_gen w (prompt :: rest)) ctx
  = (Ok 1%Z,
     State (<[name +:+ "_error" := VStr ("Error saving images: " +:+ exn_msg e)]> ctx)
           (conversation_calls ctx dir agent prompt
            ++ [EDownload file_a; EWriteFile (image_path dir (uuid4 w) 0) bytes;
                EDownload file_b])).
Proof.
  unfold conversation_calls, api_key_of, image_model, image_path.
  intros Hname Hprompt Hkey Hfull Hdir Hmakedirs Hagent Hconversation Hlast Hbytes
    Hdownload Hwrite Hfails.
  rewrite Hkey in Hagent, Hconversation, Hdownload, Hwrite, Hfails |- *.
  assert (Htruthy : truthy (default VNone (ctx !! "MISTRAL_API_KEY")) = true)
    by (rewrite Hkey; by destruct key).
  assert (Hsome : bool_decide (bytes = "") = false) by (by apply bool_decide_eq_false_2).
  cbn [app] in *.
  apply wp_run. unfold ai_mistral_image_gen. wp_steps.
  cbn [save_chunks]. wp_steps. reflexivity.
Qed.

Lemma saved_files_are_lost_on_failure_witness :
  set_name_of with_key = Some "prev"
  /\ api_key_of with_key = VStr "sk"
  /\ run (ai_mistral_image_gen
            (studio (inr "ag_1")
                    (inr [MessageChunks [ToolFileChunk "file_a"; ToolFileChunk "file_b"]])
                    first_file_only)
            [VStr "a cat"]) with_key
     = (Ok 1%Z,
        State (<["prev" +:+ "_error" :=
                   VStr ("Error saving images: "
                         +:+ exn_msg (Exn (LibraryError "SDKError") "Status 404"))]> with_key)
              (conversation_calls with_key "output" "ag_1" (VStr "a cat")
               ++ [EDownload "file_a";
                   EWriteFile (image_path "output"
                                 (uuid4 (studio (inr "ag_1")
                                           (inr [MessageChunks [ToolFileChunk "file_a";
                                                                ToolFileChunk "file_b"]])
                                           first_file_only)) 0) "PNG";
                   EDownload "file_b"])).
Proof.
  assert (H1 : set_name_of with_key = Some "prev") by (vm_compute; reflexivity).
  assert (H2 : api_key_of with_key = VStr "sk") by (vm_compute; reflexivity).
  assert (H3 : "sk" <> "") by discriminate.
  split; [exact H1|]. split; [exact H2|].
  refine (saved_files_are_lost_on_failure
            (studio (inr "ag_1")
                    (inr [MessageChunks [ToolFileChunk "file_a"; ToolFileChunk "file_b"]])
                    first_file_only)
            with_key "prev" (VStr "a cat") [] "sk" "output" "ag_1" _ "file_a" "file_b" "PNG" [] _
            H1 eq_refl H2 H3 eq_refl eq_refl eq_refl eq_refl eq_refl _ eq_refl eq_refl eq_refl).
  discriminate.
Defined.

(** Two chunks of one answer never share a file name. *)
#[local] Instance image_path_inj (dir uid : string) : Inj (=) (=) (image_path dir uid).
Proof.
  intros i j. unfold image_path, posix_join.
  assert (Hsep : forall n : nat, starts_with_sep (uid +:+ "_" +:+ pretty n +:+ ".png")
                           = starts_with_sep (uid +:+ "_")).
  { intros n. by destruct uid. }
  rewrite !Hsep.
  assert (Hend : forall p, p +:+ uid +:+ "_" +:+ pretty i +:+ ".png"
                           = p +:+ uid +:+ "_" +:+ pretty j +:+ ".png" -> i = j).
  { intros p H. do 3 apply append_inj_l in H.
    apply append_inj_r in H. by apply (inj pretty). }
  destruct (starts_with_sep (uid +:+ "_")); [apply (Hend "")|].
  destruct (bool_decide (dir = "") || ends_with_sep dir); [apply (Hend dir)|].
  intros H. do 2 apply append_inj_l in H. exact (Hend "" H).
Qed.

Lemma file_indices_from (i : nat) (chunks : list chunk) :
  forall j, j ∈ file_indices i chunks -> (i <= j)%nat.
Proof.
  revert i. induction chunks as [|chunk rest IH]; intros i j Hj; cbn in Hj.
  - by apply elem_of_nil in Hj.
  - destruct chunk.
    + apply elem_of_cons in Hj as [-> | Hj]; [lia|]. apply IH in Hj. lia.
    + apply IH in Hj. lia.
Qed.

Lemma file_indices_NoDup (i : nat) (chunks : list chunk) : NoDup (file_indices i chunks).
Proof.
  revert i. induction chunks as [|chunk rest IH]; intros i; cbn.
  - constructor.
  - destruct chunk; [|apply IH]. constructor; [|apply IH].
    intros Hi. apply file_indices_from in Hi. lia.
Qed.

Ltac rewrite_written :=
  match goal with H : written_paths _ = _ |- _ => rewrite H end.

(** X21. When the image command returns 0, the list under
    [{set_context}_all] is the list of the files it wrote, in the order
    of the writes, and no path occurs twice in it: no file of a call
    overwrites another file of the same call. *)
Theorem saved_paths_are_distinct (w : world) (ctx : gmap string value)
    (name : string) (args : list value) :
  set_name_of ctx = Some name ->
  forall s',
    run (ai_mistral_image_gen w args) ctx = (Ok 0%Z, s') ->
    exists paths,
      context s' !! (name +:+ "_all") = Some (VList (map VStr paths))
      /\ written_paths (calls s') = paths
      /\ NoDup paths.
Proof.
  intros Hname.
  apply wp_run_ok. unfold ai_mistral_image_gen. destruct args as [|prompt rest]; wp_steps.
  all: try discriminate.
  all: try (apply wp_save_chunks_files; intros; wp_open; wp_steps).
  all: try discriminate.
  all: try discriminate.
  all: intros _; cbn [app context calls] in *.
  all: eexists; split; [apply lookup_insert_eq|]; split.
  all: try (rewrite_written; reflexivity).
  all: apply (NoDup_fmap_2 (image_path _ _)).
  all: eapply sublist_NoDup; [apply file_indices_NoDup | eassumption].
Qed.

Lemma saved_paths_are_distinct_witness :
  set_name_of with_key = Some "prev"
  /\ exists paths,
       context (State (<["prev_all" := VList [VStr "output/0b5e_1.png"; VStr "output/0b5e_2.png"]]>
                         (<["prev" := VStr "output/0b5e_1.png"]> with_key))
                      (conversation_calls with_key "output" "ag_1" (VStr "a cat")
                       ++ [EDownload "file_a"; EWriteFile "output/0b5e_1.png" "PNG";
                           EDownload "file_b"; EWriteFile "output/0b5e_2.png" "PNG"]))
         !! ("prev" +:+ "_all") = Some (VList (map VStr paths))
       /\ written_paths
            (calls (State (<["prev_all" := VList [VStr "output/0b5e_1.png";
                                                  VStr "output/0b5e_2.png"]]>
                             (<["prev" := VStr "output/0b5e_1.png"]> with_key))
                          (conversation_calls with_key "output" "ag_1" (VStr "a cat")
                           ++ [EDownload "file_a"; EWriteFile "output/0b5e_1.png" "PNG";
                               EDownload "file_b"; EWriteFile "output/0b5e_2.png" "PNG"])))
          = paths
       /\ NoDup paths.
Proof.
  assert (H1 : set_name_of with_key = Some "prev") by (vm_compute; reflexivity).
  split; [exact H1|].
  apply (saved_paths_are_distinct (answering (inl "unused")) with_key "prev" [VStr "a cat"] H1).
  vm_compute. reflexivity.
Defined.

(** ** The entry points *)

(** What the script does once the file has loaded. *)
Lemma script_loaded usage shown fs command report file kv argv0 more :
  path_exists fs file = true ->
  json_load fs file = Parsed (VDict kv) ->
  script usage shown fs command report (argv0 :: file :: more)
  = match call command (default (VList []) (assoc "args" kv))
                       (default (VDict []) (assoc "context" kv)) with
    | (Ok result, s) =>
        match set_name_of (context s) with
        | Some set_name =>
            match report result set_name (context s) with
            | inr lines => Process lines (Exit 0) (calls s)
            | inl e => Process [] (Traceback e) (calls s)
            end
        | None => Process [] NotCovered (calls s)
        end
    | (Raise e, s) => Process [] (Traceback e) (calls s)
    | (_, s) => Process [] NotCovered (calls s)
    end.
Proof. intros Hexists Hload. unfold script. by rewrite Hexists, Hload. Qed.

Lemma script_exit_1 usage shown fs command report argv :
  let p := script usage shown fs command report argv in
  (ended p = Exit 1
   <-> ((length argv < 2)%nat
        \/ exists file,
             argv !! 1%nat = Some file
             /\ (path_exists fs file = false
                 \/ exists msg, json_load fs file = NotJson msg)))
  /\ (ended p = Exit 1 -> outbound p = [] /\ length (stdout p) = 1%nat).
Proof.
  unfold script.
  destruct argv as [|argv0 [|file more]]; cbn [length lookup list_lookup ended outbound stdout].
  - split; [split; [left; lia | done] | done].
  - split; [split; [left; lia | done] | done].
  - destruct (path_exists fs file) eqn:Hexists; cbn [negb ended outbound stdout].
    + destruct (json_load fs file) as [data|msg|e] eqn:Hload; cbn [ended outbound stdout].
      * assert (Hno : ~ ((S (S (length more)) < 2)%nat
                         \/ exists f, Some file = Some f
                             /\ (path_exists fs f = false
                                 \/ exists msg, json_load fs f = NotJson msg))).
        { intros [? | (f & ? & [? | [msg ?]])]; [lia | |]; simplify_eq; congruence. }
        assert (Hnot : forall q : process, ended q <> Exit 1 ->
                  (ended q = Exit 1
                   <-> ((S (S (length more)) < 2)%nat
                        \/ exists f, Some file = Some f
                            /\ (path_exists fs f = false
                                \/ exists msg, json_load fs f = NotJson msg)))
                  /\ (ended q = Exit 1 -> outbound q = [] /\ length (stdout q) = 1%nat)).
        { intros q Hq. split; [split|]; intros; contradiction. }
        destruct data; try (apply Hnot; cbn; discriminate).
        apply Hnot.
        destruct (call command _ _) as [[result| | |] s]; try (cbn; discriminate).
        destruct (set_name_of (context s)) as [set_name|]; [|cbn; discriminate].
        destruct (report result set_name (context s)); cbn; discriminate.
      * split; [split; [|done] | done].
        intros _. right. exists file. split; [done|]. right. by exists msg.
      * split; [split; [done|] | done].
        intros [? | (f & ? & [? | [msg ?]])]; [lia | |]; simplify_eq; congruence.
    + split; [split; [|done] | done].
      intros _. right. exists file. split; [done|]. by left.
Qed.

(** X22. Each of the four scripts ends through [sys.exit(1)] exactly
    when the command line names no file, the file does not exist, or
    the file is no JSON; then it has printed one line and the command
    has not run. *)
Theorem sys_exit_is_before_the_command (fs : file_system) (w : world) (argv : list string) :
  Forall (fun p =>
            (ended p = Exit 1
             <-> ((length argv < 2)%nat
                  \/ exists file,
                       argv !! 1%nat = Some file
                       /\ (path_exists fs file = false
                           \/ exists msg, json_load fs file = NotJson msg)))
            /\ (ended p = Exit 1 -> outbound p = [] /\ length (stdout p) = 1%nat))
         (entry_points fs w argv).
Proof.
  unfold entry_points. repeat (constructor; [apply script_exit_1|]). constructor.
Qed.

Ltac loaded_script main Hexists Hload Hargs Hcontext :=
  unfold main; rewrite (script_loaded _ _ _ _ _ _ _ _ _ Hexists Hload);
  rewrite Hargs, Hcontext; unfold call.

Section Loaded.
(** A script started on a file that exists and holds an object: its
    ["args"] is a list or absent, its ["context"] an object or absent,
    and the context gives a name other than "set_context", so that
    the script reads the name that the command read. *)
Variables (fs : file_system) (w : world) (argv0 file : string) (more : list string).
Variables (kv ckv : list (string * value)) (xs : list value) (name : string).
Hypothesis Hexists : path_exists fs file = true.
Hypothesis Hload : json_load fs file = Parsed (VDict kv).
Hypothesis Hargs : default (VList []) (assoc "args" kv) = VList xs.
Hypothesis Hcontext : default (VDict []) (assoc "context" kv) = VDict ckv.
Hypothesis Hname : set_name_of (list_to_map ckv) = Some name.
Hypothesis Hother : name <> "set_context".

(** Once the file has loaded, the script prints one line for the
    status of the command, read under the name that the loaded
    context gave, and ends with status 0. *)
Lemma text_main_loaded :
  ai_mistral_text_main fs w (argv0 :: file :: more)
  = match run (ai_mistral_text w xs) (list_to_map ckv) with
    | (Ok z, s) => Process [[Str (if (z =? 0)%Z
                                  then default (VStr "") (context s !! name)
                                  else default (VStr "Unknown error")
                                               (context s !! (name +:+ "_error")))]]
                           (Exit 0) (calls s)
    | (Raise e, s) => Process [] (Traceback e) (calls s)
    | (_, s) => Process [] NotCovered (calls s)
    end.
Proof.
  loaded_script ai_mistral_text_main Hexists Hload Hargs Hcontext.
  outcome text_paths. destruct H as (Hframe & _ & Hstatus).
  destruct r as [z| | |]; try done.
  rewrite (set_name_of_kept (list_to_map ckv)), Hname.
  - unfold print_result. by destruct (z =? 0)%Z.
  - apply Hframe; [by apply not_eq_sym | apply not_eq_sym, error_key_not_set_context | done].
Qed.

Lemma embeddings_main_loaded :
  ai_mistral_embeddings_main fs w (argv0 :: file :: more)
  = match run (ai_mistral_embeddings w xs) (list_to_map ckv) with
    | (Ok z, s) => Process [[Str (if (z =? 0)%Z
                                  then default (VStr "") (context s !! name)
                                  else default (VStr "Unknown error")
                                               (context s !! (name +:+ "_error")))]]
                           (Exit 0) (calls s)
    | (Raise e, s) => Process [] (Traceback e) (calls s)
    | (_, s) => Process [] NotCovered (calls s)
    end.
Proof.
  loaded_script ai_mistral_embeddings_main Hexists Hload Hargs Hcontext.
  outcome embeddings_paths. destruct H as (Hframe & _ & Hstatus).
  destruct r as [z| | |]; try done.
  rewrite (set_name_of_kept (list_to_map ckv)), Hname.
  - unfold print_result. by destruct (z =? 0)%Z.
  - apply Hframe; [by apply not_eq_sym | apply not_eq_sym, error_key_not_set_context].
Qed.

Lemma moderations_main_loaded :
  mistral_moderations_main fs w (argv0 :: file :: more)
  = match run (mistral_moderations w xs) (list_to_map ckv) with
    | (Ok z, s) => Process [[if (z =? 0)%Z
                             then JsonDumps (default (VDict []) (context s !! name))
                             else Str (default (VStr "Unknown error")
                                               (context s !! (name +:+ "_error")))]]
                           (Exit 0) (calls s)
    | (Raise e, s) => Process [] (Traceback e) (calls s)
    | (_, s) => Process [] NotCovered (calls s)
    end.
Proof.
  loaded_script mistral_moderations_main Hexists Hload Hargs Hcontext.
  outcome moderations_paths. destruct H as (Hframe & _ & Hstatus).
  destruct r as [z| | |]; try done.
  rewrite (set_name_of_kept (list_to_map ckv)), Hname.
  - unfold print_json_result. by destruct (z =? 0)%Z.
  - apply Hframe; [by apply not_eq_sym | apply not_eq_sym, error_key_not_set_context
                  | apply not_eq_sym, usage_key_not_set_context].
Qed.

Lemma image_main_loaded :
  ai_mistral_image_gen_main fs w (argv0 :: file :: more)
  = match run (ai_mistral_image_gen w xs) (list_to_map ckv) with
    | (Ok z, s) =>
        if (z =? 0)%Z
        then Process [[Literal "Saved image: "; Str (default VNone (context s !! name))];
                      [Literal "All images: ";
                       Str (default (VList []) (context s !! (name +:+ "_all")))]]
                     (Exit 0) (calls s)
        else Process [[Str (default (VStr "Unknown error")
                                    (context s !! (name +:+ "_error")))]]
                     (Exit 0) (calls s)
    | (Raise e, s) => Process [] (Traceback e) (calls s)
    | (_, s) => Process [] NotCovered (calls s)
    end.
Proof.
  loaded_script ai_mistral_image_gen_main Hexists Hload Hargs Hcontext.
  outcome image_paths. destruct H as (Hframe & Hstatus).
  destruct r as [z| | |]; try done.
  rewrite (set_name_of_kept (list_to_map ckv)), Hname.
  - unfold print_images.
    destruct Hstatus as [(-> & [v Hv] & _) | (-> & _)]; [|done].
    cbn. by rewrite Hv.
  - apply Hframe; [by apply not_eq_sym | apply not_eq_sym, error_key_not_set_context
                  | apply not_eq_sym, all_key_not_set_context].
Qed.

(** X23. Once the file has loaded (an object whose ["args"] is a list
    or absent and whose ["context"] is an object or absent, with a
    string [set_context] other than "set_context"), each of the four
    scripts ends with status 0 whenever its command returns, whatever
    the status of the command; the text, the embeddings and the
    moderation scripts have then printed one line.  No script catches
    what its command raises: when the command ends in an exception, the
    script ends in that exception and has printed nothing. *)
Theorem loaded_file_exits_0 :
  (forall z, fst (run (ai_mistral_embeddings w xs) (list_to_map ckv)) = Ok z ->
      ended (ai_mistral_embeddings_main fs w (argv0 :: file :: more)) = Exit 0
      /\ length (stdout (ai_mistral_embeddings_main fs w (argv0 :: file :: more))) = 1%nat)
  /\ (forall z, fst (run (mistral_moderations w xs) (list_to_map ckv)) = Ok z ->
      ended (mistral_moderations_main fs w (argv0 :: file :: more)) = Exit 0
      /\ length (stdout (mistral_moderations_main fs w (argv0 :: file :: more))) = 1%nat)
  /\ (forall z, fst (run (ai_mistral_text w xs) (list_to_map ckv)) = Ok z ->
      ended (ai_mistral_text_main fs w (argv0 :: file :: more)) = Exit 0
      /\ length (stdout (ai_mistral_text_main fs w (argv0 :: file :: more))) = 1%nat)
  /\ (forall z, fst (run (ai_mistral_image_gen w xs) (list_to_map ckv)) = Ok z ->
      ended (ai_mistral_image_gen_main fs w (argv0 :: file :: more)) = Exit 0)
  /\ (forall e,
      (fst (run (ai_mistral_embeddings w xs) (list_to_map ckv)) = Raise e ->
       ended (ai_mistral_embeddings_main fs w (argv0 :: file :: more)) = Traceback e
       /\ stdout (ai_mistral_embeddings_main fs w (argv0 :: file :: more)) = [])
      /\ (fst (run (mistral_moderations w xs) (list_to_map ckv)) = Raise e ->
          ended (mistral_moderations_main fs w (argv0 :: file :: more)) = Traceback e
          /\ stdout (mistral_moderations_main fs w (argv0 :: file :: more)) = [])
      /\ (fst (run (ai_mistral_text w xs) (list_to_map ckv)) = Raise e ->
          ended (ai_mistral_text_main fs w (argv0 :: file :: more)) = Traceback e
          /\ stdout (ai_mistral_text_main fs w (argv0 :: file :: more)) = [])
      /\ (fst (run (ai_mistral_image_gen w xs) (list_to_map ckv)) = Raise e ->
          ended (ai_mistral_image_gen_main fs w (argv0 :: file :: more)) = Traceback e
          /\ stdout (ai_mistral_image_gen_main fs w (argv0 :: file :: more)) = [])).
Proof.
  rewrite embeddings_main_loaded, moderations_main_loaded, text_main_loaded, image_main_loaded.
  split; [|split; [|split; [|split]]].
  - intros z. destruct (run _ _) as [r s]. cbn [fst]. by intros ->.
  - intros z. destruct (run _ _) as [r s]. cbn [fst]. by intros ->.
  - intros z. destruct (run _ _) as [r s]. cbn [fst]. by intros ->.
  - intros z. destruct (run _ _) as [r s]. cbn [fst]. intros ->. by destruct (z =? 0)%Z.
  - intros e. split; [|split; [|split]].
    all: destruct (run _ _) as [r s]; cbn [fst]; by intros ->.
Qed.

(** X24. When the text, the embeddings or the image command returns a
    failure status, its script prints the message that the command
    stored under [{set_context}_error], and nothing else. *)
Theorem failure_message_is_printed :
  (forall z s, run (ai_mistral_text w xs) (list_to_map ckv) = (Ok z, s) -> z <> 0%Z ->
     exists msg,
       context s !! (name +:+ "_error") = Some (VStr msg)
       /\ ai_mistral_text_main fs w (argv0 :: file :: more)
          = Process [[Str (VStr msg)]] (Exit 0) (calls s))
  /\ (forall z s, run (ai_mistral_embeddings w xs) (list_to_map ckv) = (Ok z, s) -> z <> 0%Z ->
     exists msg,
       context s !! (name +:+ "_error") = Some (VStr msg)
       /\ ai_mistral_embeddings_main fs w (argv0 :: file :: more)
          = Process [[Str (VStr msg)]] (Exit 0) (calls s))
  /\ (forall z s, run (ai_mistral_image_gen w xs) (list_to_map ckv) = (Ok z, s) -> z <> 0%Z ->
     exists msg,
       context s !! (name +:+ "_error") = Some (VStr msg)
       /\ ai_mistral_image_gen_main fs w (argv0 :: file :: more)
          = Process [[Str (VStr msg)]] (Exit 0) (calls s)).
Proof.
  rewrite embeddings_main_loaded, text_main_loaded, image_main_loaded.
  split; [|split].
  - outcome text_paths. destruct H as (_ & _ & Hstatus).
    intros z s' [= -> ->] Hz.
    destruct Hstatus as [[-> _] | (-> & [msg Hmsg] & _)]; [done|].
    exists msg. split; [done|]. cbn. by rewrite Hmsg.
  - outcome embeddings_paths. destruct H as (_ & _ & Hstatus).
    intros z s' [= -> ->] Hz.
    destruct Hstatus as [[-> _] | (-> & [msg Hmsg] & _)]; [done|].
    exists msg. split; [done|]. cbn. by rewrite Hmsg.
  - outcome image_paths. destruct H as (_ & Hstatus).
    intros z s' [= -> ->] Hz.
    destruct Hstatus as [[-> _] | (-> & [msg Hmsg] & _)]; [done|].
    exists msg. split; [done|]. cbn. by rewrite Hmsg.
Qed.

(** X25. When a command returns 0, its script prints what the command
    stored under [context[set_context]]: as [str] gives it for the text
    and the embeddings scripts, as [json.dumps] gives it for the
    moderation script, and after "Saved image: ", followed by a line
    with the list under [{set_context}_all], for the image script. *)
Theorem result_is_printed :
  (forall s, run (ai_mistral_text w xs) (list_to_map ckv) = (Ok 0%Z, s) ->
     exists v,
       context s !! name = Some v
       /\ ai_mistral_text_main fs w (argv0 :: file :: more)
          = Process [[Str v]] (Exit 0) (calls s))
  /\ (forall s, run (ai_mistral_embeddings w xs) (list_to_map ckv) = (Ok 0%Z, s) ->
     exists v,
       context s !! name = Some v
       /\ ai_mistral_embeddings_main fs w (argv0 :: file :: more)
          = Process [[Str v]] (Exit 0) (calls s))
  /\ (forall s, run (mistral_moderations w xs) (list_to_map ckv) = (Ok 0%Z, s) ->
     exists v,
       context s !! name = Some v
       /\ mistral_moderations_main fs w (argv0 :: file :: more)
          = Process [[JsonDumps v]] (Exit 0) (calls s))
  /\ (forall s, run (ai_mistral_image_gen w xs) (list_to_map ckv) = (Ok 0%Z, s) ->
     exists first all,
       context s !! name = Some first
       /\ context s !! (name +:+ "_all") = Some all
       /\ ai_mistral_image_gen_main fs w (argv0 :: file :: more)
          = Process [[Literal "Saved image: "; Str first]; [Literal "All images: "; Str all]]
                    (Exit 0) (calls s)).
Proof.
  rewrite embeddings_main_loaded, text_main_loaded, moderations_main_loaded,
    image_main_loaded.
  split; [|split; [|split]].
  - outcome text_paths. destruct H as (_ & _ & Hstatus).
    intros s' [= -> ->].
    destruct Hstatus as [[_ [v Hv]] | [? _]]; [|done].
    exists v. split; [done|]. cbn. by rewrite Hv.
  - outcome embeddings_paths. destruct H as (_ & _ & Hstatus).
    intros s' [= -> ->].
    destruct Hstatus as [[_ [v Hv]] | [? _]]; [|done].
    exists v. split; [done|]. cbn. by rewrite Hv.
  - outcome moderations_paths. destruct H as (_ & _ & Hstatus).
    intros s' [= -> ->].
    destruct Hstatus as [[_ [v Hv]] | [? _]]; [|done].
    exists v. split; [done|]. cbn. by rewrite Hv.
  - outcome image_paths. destruct H as (_ & Hstatus).
    intros s' [= -> ->].
    destruct Hstatus as [(_ & [v Hv] & [a Ha]) | [? _]]; [|done].
    exists v, a. split; [done|]. split; [done|]. cbn. by rewrite Hv, Ha.
Qed.

(** X26. The moderation script, given no argument or [None] as first
    argument, and a context without [{set_context}_error]: the command
    stores its usage under [{set_context}_usage], the script reads
    [{set_context}_error], and what it prints is "Unknown error". *)
Theorem moderation_usage_prints_unknown_error :
  xs = [] \/ (exists rest, xs = VNone :: rest) ->
  list_to_map (M := gmap string value) ckv !! (name +:+ "_error") = None ->
  mistral_moderations_main fs w (argv0 :: file :: more)
  = Process [[Str (VStr "Unknown error")]] (Exit 0) [].
Proof.
  intros Hxs Hfresh. rewrite moderations_main_loaded.
  assert (Hrun : run (mistral_moderations w xs) (list_to_map ckv)
                 = (Ok (-1)%Z,
                    State (<[name +:+ "_usage" := moderations_usage]> (list_to_map ckv)) [])).
  { apply wp_run. unfold mistral_moderations.
    destruct Hxs as [-> | [rest ->]]; wp_steps; reflexivity. }
  rewrite Hrun. cbn.
  rewrite lookup_insert_ne by apply usage_key_not_error_key. by rewrite Hfresh.
Qed.

End Loaded.

Lemma loaded_file_exits_0_witness :
  set_name_of (list_to_map key_only) = Some "prev"
  /\ ended (mistral_moderations_main (data_file (request_data [VStr "text"] key_only))
              (answering (inl "timed out")) ["command.py"; "data.json"]) = Exit 0
  /\ length (stdout (mistral_moderations_main (data_file (request_data [VStr "text"] key_only))
                       (answering (inl "timed out")) ["command.py"; "data.json"])) = 1%nat.
Proof.
  assert (H1 : set_name_of (list_to_map key_only) = Some "prev") by (vm_compute; reflexivity).
  split; [exact H1|].
  assert (H2 : "prev" <> "set_context") by discriminate.
  assert (H3 : fst (run (mistral_moderations (answering (inl "timed out")) [VStr "text"])
                        (list_to_map key_only)) = Ok (-1)%Z)
    by (vm_compute; reflexivity).
  exact (proj1 (proj2 (loaded_file_exits_0 (data_file (request_data [VStr "text"] key_only))
                         (answering (inl "timed out")) "command.py" "data.json" []
                         _ key_only [VStr "text"] "prev"
                         eq_refl eq_refl eq_refl eq_refl H1 H2)) _ H3).
Defined.

Lemma failure_message_is_printed_witness :
  set_name_of (list_to_map key_only) = Some "prev"
  /\ ai_mistral_text_main (data_file (request_data [VStr "Hello"] key_only))
       (answering (inl "timed out")) ["command.py"; "data.json"]
     = Process [[Str (VStr "Request error: timed out")]] (Exit 0)
               [EPost (fresh_text_request (list_to_map key_only) (VStr "Hello") [])].
Proof.
  assert (H1 : set_name_of (list_to_map key_only) = Some "prev") by (vm_compute; reflexivity).
  split; [exact H1|].
  assert (H2 : "prev" <> "set_context") by discriminate.
  assert (H3 : run (ai_mistral_text (answering (inl "timed out")) [VStr "Hello"])
                   (list_to_map key_only)
               = (Ok 1%Z,
                  State (<["prev_error" := VStr "Request error: timed out"]>
                           (list_to_map key_only))
                        [EPost (fresh_text_request (list_to_map key_only) (VStr "Hello") [])]))
    by (vm_compute; reflexivity).
  assert (H4 : 1%Z <> 0%Z) by discriminate.
  destruct (proj1 (failure_message_is_printed
                     (data_file (request_data [VStr "Hello"] key_only))
                     (answering (inl "timed out")) "command.py" "data.json" []
                     _ key_only [VStr "Hello"] "prev"
                     eq_refl eq_refl eq_refl eq_refl H1 H2) _ _ H3 H4)
    as (msg & Hmsg & Hmain).
  vm_compute in Hmsg. injection Hmsg as <-. exact Hmain.
Defined.

Lemma result_is_printed_witness :
  set_name_of (list_to_map key_only) = Some "prev"
  /\ ai_mistral_text_main (data_file (request_data [VStr "Hello"] key_only))
       (answering (inr (completion "Hi"))) ["command.py"; "data.json"]
     = Process [[Str (VStr "Hi")]] (Exit 0)
               [EPost (fresh_text_request (list_to_map key_only) (VStr "Hello") [])].
Proof.
  assert (H1 : set_name_of (list_to_map key_only) = Some "prev") by (vm_compute; reflexivity).
  split; [exact H1|].
  assert (H2 : "prev" <> "set_context") by discriminate.
  assert (H3 : run (ai_mistral_text (answering (inr (completion "Hi"))) [VStr "Hello"])
                   (list_to_map key_only)
               = (Ok 0%Z,
                  State (<["prev" := VStr "Hi"]> (list_to_map key_only))
                        [EPost (fresh_text_request (list_to_map key_only) (VStr "Hello") [])]))
    by (vm_compute; reflexivity).
  destruct (proj1 (result_is_printed
                     (data_file (request_data [VStr "Hello"] key_only))
                     (answering (inr (completion "Hi"))) "command.py" "data.json" []
                     _ key_only [VStr "Hello"] "prev"
                     eq_refl eq_refl eq_refl eq_refl H1 H2) _ H3)
    as (v & Hv & Hmain).
  vm_compute in Hv. injection Hv as <-. exact Hmain.
Defined.

Lemma moderation_usage_prints_unknown_error_witness :
  set_name_of (list_to_map key_only) = Some "prev"
  /\ mistral_moderations_main (data_file (request_data [] key_only))
       (answering (inl "unused")) ["command.py"; "data.json"]
     = Process [[Str (VStr "Unknown error")]] (Exit 0) [].
Proof.
  assert (H1 : set_name_of (list_to_map key_only) = Some "prev") by (vm_compute; reflexivity).
  split; [exact H1|].
  refine (moderation_usage_prints_unknown_error
            (data_file (request_data [] key_only))
            (answering (inl "unused")) "command.py" "data.json" []
            _ key_only [] "prev"
            eq_refl eq_refl eq_refl eq_refl H1 _ (or_introl eq_refl) _).
  - discriminate.
  - vm_compute. reflexivity.
Defined.

